(** * A shallow embedding of the CRUD server [API/server.js]

    The server exposes two collections of a document store ("posts" and
    "produk") over HTTP.  This development embeds the payload validator
    [validateProduk] and the route handlers as Rocq functions, together with
    the fragment of the JavaScript run time and of the document store that
    they rely on, and proves the properties stated for them.

    Modelling conventions.
    - JavaScript numbers are modelled by exact rationals plus [NaN] and the
      two infinities; arithmetic is exact (no rounding, no overflow) and
      negative zero is identified with zero.  On integers inside the safe
      range and on short decimal numerals the model and the run time agree.
    - A string is a sequence of code units, of which those below 256 are
      represented; its length is the number of its code units, and the white
      space stripped by [trim] and by the numeric parsers is the white space
      found below 256.
    - The document store is a reliable in-memory store: an operation fails
      only where the driver or the server rejects its arguments.  Two points
      are narrower than the store itself: documents whose sort keys tie
      come back in insertion order, where the store promises no order, and
      the names of a [$set] are taken as top-level field names, where the
      store reads a dotted name as a path and refuses an empty name or one
      that begins with a dollar sign.  Statements that depend on either are
      made for distinct sort keys and for top-level names. *)

From Stdlib Require Import List String Ascii ZArith QArith Qround Qreduction Qcanon.
From Stdlib Require Import Bool Lia Permutation Sorted.
Import ListNotations.

#[local] Set Warnings "-register-all".

Local Open Scope string_scope.
Local Open Scope list_scope.
Local Open Scope Z_scope.

(* ------------------------------------------------------------------ *)
(** ** Characters and strings *)

Module Chars.

Definition code (c : ascii) : Z := Z.of_nat (nat_of_ascii c).

(** Members below 256 of the ECMAScript WhiteSpace and LineTerminator
    classes: tab, line feed, vertical tab, form feed, carriage return, space
    and no-break space. *)
Definition is_ws (c : ascii) : bool :=
  let n := code c in
  (n =? 32) || ((9 <=? n) && (n <=? 13)) || (n =? 160).

Definition digit_val (c : ascii) : option Z :=
  let n := code c in
  if (48 <=? n) && (n <=? 57) then Some (n - 48) else None.

Definition hex_val (c : ascii) : option Z :=
  let n := code c in
  if (48 <=? n) && (n <=? 57) then Some (n - 48)
  else if (97 <=? n) && (n <=? 102) then Some (n - 87)
  else if (65 <=? n) && (n <=? 70) then Some (n - 55)
  else None.

Definition bin_val (c : ascii) : option Z :=
  let n := code c in
  if (48 <=? n) && (n <=? 49) then Some (n - 48) else None.

Definition oct_val (c : ascii) : option Z :=
  let n := code c in
  if (48 <=? n) && (n <=? 55) then Some (n - 48) else None.

Fixpoint drop_ws (cs : list ascii) : list ascii :=
  match cs with
  | c :: r => if is_ws c then drop_ws r else cs
  | [] => []
  end.

Definition trim_chars (cs : list ascii) : list ascii :=
  rev (drop_ws (rev (drop_ws cs))).

(** [String.prototype.trim]. *)
Definition trim (s : string) : string :=
  string_of_list_ascii (trim_chars (list_ascii_of_string s)).

(** Longest prefix of digits (for the digit reader [val]) and what follows. *)
Fixpoint take_digits (val : ascii -> option Z) (cs : list ascii)
  : list Z * list ascii :=
  match cs with
  | c :: r =>
      match val c with
      | Some d => let (ds, rest) := take_digits val r in (d :: ds, rest)
      | None => ([], cs)
      end
  | [] => ([], [])
  end.

Definition digits_value (base : Z) (ds : list Z) : Z :=
  fold_left (fun acc d => acc * base + d) ds 0.

Definition digit_char (d : Z) : ascii := ascii_of_nat (Z.to_nat (48 + d)).

(** Decimal digits of a non-negative integer, most significant first. *)
Fixpoint digits_of_fuel (fuel : nat) (i : Z) (acc : list Z) : list Z :=
  match fuel with
  | O => acc
  | S f => if i <? 10 then i :: acc
           else digits_of_fuel f (i / 10) (i mod 10 :: acc)
  end.

Definition digits_of (i : Z) : list Z :=
  digits_of_fuel (S (Z.to_nat (Z.log2 i))) i [].

Definition string_of_digits (ds : list Z) : string :=
  string_of_list_ascii (map digit_char ds).

Definition string_of_nonneg (i : Z) : string := string_of_digits (digits_of i).

End Chars.

(* ------------------------------------------------------------------ *)
(** ** Numbers *)

Module Num.

Inductive number :=
| NaN
| Inf (negative : bool)
| Fin (q : Q).

Definition of_Z (z : Z) : number := Fin (inject_Z z).

Definition Qlt_bool (p q : Q) : bool := negb (Qle_bool q p).

(** The relational operators [<], [<=] and [>]: false as soon as an operand
    is [NaN]. *)
Definition lt (a b : number) : bool :=
  match a, b with
  | NaN, _ | _, NaN => false
  | Inf na, Inf nb => na && negb nb
  | Inf na, Fin _ => na
  | Fin _, Inf nb => negb nb
  | Fin p, Fin q => Qlt_bool p q
  end.

Definition le (a b : number) : bool :=
  match a, b with
  | NaN, _ | _, NaN => false
  | Inf na, Inf nb => na || negb nb
  | Inf na, Fin _ => na
  | Fin _, Inf nb => negb nb
  | Fin p, Fin q => Qle_bool p q
  end.

Definition gt (a b : number) : bool := lt b a.

Definition is_nan (a : number) : bool :=
  match a with NaN => true | _ => false end.

Definition is_zero (q : Q) : bool := Qeq_bool q 0.
Definition is_neg (q : Q) : bool := Qlt_bool q 0.

(** Equality of number values ([NaN] differs from itself under [===]; the
    store's comparison, which equates NaNs, is defined with the store). *)
Definition eqb (a b : number) : bool :=
  match a, b with
  | Inf na, Inf nb => Bool.eqb na nb
  | Fin p, Fin q => Qeq_bool p q
  | _, _ => false
  end.

Definition sub (a b : number) : number :=
  match a, b with
  | NaN, _ | _, NaN => NaN
  | Inf na, Inf nb => if Bool.eqb na nb then NaN else Inf na
  | Inf na, Fin _ => Inf na
  | Fin _, Inf nb => Inf (negb nb)
  | Fin p, Fin q => Fin (Qred (p - q))
  end.

Definition mul (a b : number) : number :=
  match a, b with
  | NaN, _ | _, NaN => NaN
  | Inf na, Inf nb => Inf (xorb na nb)
  | Inf na, Fin q | Fin q, Inf na =>
      if is_zero q then NaN else Inf (xorb na (is_neg q))
  | Fin p, Fin q => Fin (Qred (p * q))
  end.

Definition div (a b : number) : number :=
  match a, b with
  | NaN, _ | _, NaN => NaN
  | Inf _, Inf _ => NaN
  | Inf na, Fin q => Inf (xorb na (is_neg q))
  | Fin _, Inf _ => Fin 0
  | Fin p, Fin q =>
      if is_zero q then
        (if is_zero p then NaN else Inf (is_neg p))
      else Fin (Qred (p / q))
  end.

(** [Math.ceil]. *)
Definition ceil (a : number) : number :=
  match a with
  | Fin q => of_Z (Qceiling q)
  | _ => a
  end.

(** Integer part, rounding towards zero. *)
Definition Qtrunc (q : Q) : Z := Z.quot (Qnum q) (Z.pos (Qden q)).

(** Leading decimal digit of an integer [i >= 1]. *)
Fixpoint leading_digit_fuel (fuel : nat) (i : Z) : Z :=
  match fuel with
  | O => i
  | S f => if i <? 10 then i else leading_digit_fuel f (i / 10)
  end.

Definition leading_digit (i : Z) : Z :=
  leading_digit_fuel (S (Z.to_nat (Z.log2 i))) i.

(** First non-zero decimal digit of the fraction [a / b], for [0 < a < b]. *)
Fixpoint first_sig_fuel (fuel : nat) (a b : Z) : Z :=
  match fuel with
  | O => 0
  | S f => if b <=? a * 10 then (a * 10) / b else first_sig_fuel f (a * 10) b
  end.

Definition first_sig (a b : Z) : Z :=
  first_sig_fuel (S (Z.to_nat (Z.log2 b))) a b.

Definition ten_pow_21 : Z := 10 ^ 21.
Definition ten_pow_6 : Z := 10 ^ 6.

(** [parseInt] applied to a number.  The run time renders the number as a
    string and reads back the leading integer: numbers rendered in plain
    decimal notation (magnitude in [1e-6, 1e21)) lose their fraction, the
    others are rendered in exponent notation, of which only the leading
    digit is read. *)
Definition parseInt_number (a : number) : number :=
  match a with
  | NaN | Inf _ => NaN
  | Fin q =>
      let n := Z.abs (Qnum q) in
      let d := Z.pos (Qden q) in
      let sgn := Z.sgn (Qnum q) in
      if n =? 0 then of_Z 0
      else if ten_pow_21 * d <=? n then of_Z (sgn * leading_digit (n / d))
      else if n * ten_pow_6 <? d then of_Z (sgn * first_sig n d)
      else of_Z (Qtrunc q)
  end.

End Num.

(* ------------------------------------------------------------------ *)
(** ** JavaScript values and the coercions the server relies on *)

Module JS.
Import Chars Num.

(** Values a request can carry: what [JSON.parse] and the query-string
    parser produce, plus [undefined] for an absent property. *)
Inductive value :=
| VUndefined
| VNull
| VBool (b : bool)
| VNum (n : number)
| VStr (s : string)
| VArr (items : list value)
| VObj (props : list (string * value)).

(** Exceptions: a [TypeError] of the run time, the error of the identifier
    constructor, or an error raised by the store's driver, with its numeric
    code. *)
Inductive exn :=
| TypeError
| BSONError
| MongoError (code : Z).

Inductive result (A : Type) :=
| Ok (a : A)
| Throw (e : exn).
Arguments Ok {A} a.
Arguments Throw {A} e.

Definition rbind {A B} (r : result A) (k : A -> result B) : result B :=
  match r with
  | Ok a => k a
  | Throw e => Throw e
  end.

(** ToBoolean. *)
Definition truthy (v : value) : bool :=
  match v with
  | VUndefined | VNull => false
  | VBool b => b
  | VNum NaN => false
  | VNum (Inf _) => true
  | VNum (Fin q) => negb (is_zero q)
  | VStr s => negb (String.eqb s "")
  | VArr _ | VObj _ => true
  end.

Definition signed (neg : bool) (z : Z) : Z := if neg then - z else z.

Definition sign_split (cs : list ascii) : bool * list ascii :=
  match cs with
  | "-"%char :: r => (true, r)
  | "+"%char :: r => (false, r)
  | _ => (false, cs)
  end.

(** [parseInt] with no radix, on the characters of its argument: leading
    white space, a sign, an optional [0x] prefix, then the longest run of
    digits; what follows is ignored. *)
Definition parseInt_chars (cs : list ascii) : number :=
  let (neg, r) := sign_split (drop_ws cs) in
  let '(val, base, body) :=
    match r with
    | "0"%char :: "x"%char :: r' => (hex_val, 16, r')
    | "0"%char :: "X"%char :: r' => (hex_val, 16, r')
    | _ => (digit_val, 10, r)
    end in
  let (ds, _) := take_digits val body in
  match ds with
  | [] => NaN
  | _ => of_Z (signed neg (digits_value base ds))
  end.

Fixpoint strip_prefix (p cs : list ascii) : option (list ascii) :=
  match p, cs with
  | [], _ => Some cs
  | a :: p', c :: cs' => if Ascii.eqb a c then strip_prefix p' cs' else None
  | _ :: _, [] => None
  end.

Definition decimal_value (neg : bool) (ds : list Z) (e : Z) : number :=
  Fin (Qred (inject_Z (signed neg (digits_value 10 ds)) * Qpower 10 e)).

(** An exponent part is read only when it has at least one digit. *)
Definition parse_exponent (cs : list ascii) : Z * list ascii :=
  let read r :=
    let (neg, r') := sign_split r in
    let (es, rest) := take_digits digit_val r' in
    match es with
    | [] => (0, cs)
    | _ => (signed neg (digits_value 10 es), rest)
    end in
  match cs with
  | "e"%char :: r => read r
  | "E"%char :: r => read r
  | _ => (0, cs)
  end.

(** Longest prefix that is a StrDecimalLiteral, with its value and the
    characters left over. *)
Definition parse_decimal (cs : list ascii) : option (number * list ascii) :=
  let (neg, r) := sign_split cs in
  match strip_prefix (list_ascii_of_string "Infinity") r with
  | Some rest => Some (Inf neg, rest)
  | None =>
      let (ip, r1) := take_digits digit_val r in
      let '(dot, fp, r2) :=
        match r1 with
        | "."%char :: r1' =>
            let (fp, r2) := take_digits digit_val r1' in (true, fp, r2)
        | _ => (false, [], r1)
        end in
      match ip, fp with
      | [], [] => None
      | _, _ =>
          let (e, r3) := parse_exponent r2 in
          Some (decimal_value neg (ip ++ fp) (e - Z.of_nat (List.length fp)), r3)
      end
  end.

(** [parseFloat] on a string. *)
Definition parseFloat_chars (cs : list ascii) : number :=
  match parse_decimal (drop_ws cs) with
  | Some (n, _) => n
  | None => NaN
  end.

Definition radix_literal (val : ascii -> option Z) (base : Z)
    (body : list ascii) : number :=
  match take_digits val body with
  | (d :: ds, []) => of_Z (digits_value base (d :: ds))
  | _ => NaN
  end.

(** StringToNumber: the whole trimmed string must be a numeric literal; the
    empty string is [0]. *)
Definition Number_chars (cs : list ascii) : number :=
  match trim_chars cs with
  | [] => of_Z 0
  | "0"%char :: "x"%char :: r => radix_literal hex_val 16 r
  | "0"%char :: "X"%char :: r => radix_literal hex_val 16 r
  | "0"%char :: "o"%char :: r => radix_literal oct_val 8 r
  | "0"%char :: "O"%char :: r => radix_literal oct_val 8 r
  | "0"%char :: "b"%char :: r => radix_literal bin_val 2 r
  | "0"%char :: "B"%char :: r => radix_literal bin_val 2 r
  | t =>
      match parse_decimal t with
      | Some (n, []) => n
      | _ => NaN
      end
  end.

(** *** Rendering a number ([Number::toString], radix 10) *)

(** Up to [count] digits of the fraction [r / b], for [0 <= r < b]. *)
Fixpoint frac_digits (count : nat) (r b : Z) : list Z :=
  match count with
  | O => []
  | S c => if r =? 0 then []
           else (r * 10 / b) :: frac_digits c (r * 10 mod b) b
  end.

Fixpoint leading_zeros (fuel : nat) (a b : Z) : nat * Z :=
  match fuel with
  | O => (O, a)
  | S f => if b <=? a * 10 then (O, a)
           else let (z, a') := leading_zeros f (a * 10) b in (S z, a')
  end.

Fixpoint strip_zeros_rev (ds : list Z) : list Z :=
  match ds with
  | d :: r => if d =? 0 then strip_zeros_rev r else ds
  | [] => []
  end.

Definition strip_trailing_zeros (ds : list Z) : list Z :=
  rev (strip_zeros_rev (rev ds)).

(** Significant digits [ds] and decimal exponent [n] of [a / b > 0]: the
    value is [0.ds * 10^n].  At most 17 fractional-side digits are produced,
    the most a double needs. *)
Definition sig_digits (a b : Z) : list Z * Z :=
  if b <=? a then
    let ip := digits_of (a / b) in
    let k := List.length ip in
    (strip_trailing_zeros (ip ++ frac_digits (17 - k) (a mod b) b),
     Z.of_nat k)
  else
    let (z, a') := leading_zeros (S (Z.to_nat (Z.log2 b))) a b in
    (strip_trailing_zeros (frac_digits 17 a' b), - Z.of_nat z).

Definition zeros (n : nat) : list Z := repeat 0 n.

Definition render_positive (a b : Z) : string :=
  let (ds, n) := sig_digits a b in
  let k := Z.of_nat (List.length ds) in
  if (k <=? n) && (n <=? 21) then
    string_of_digits (ds ++ zeros (Z.to_nat (n - k)))
  else if (0 <? n) && (n <=? 21) then
    (string_of_digits (firstn (Z.to_nat n) ds) ++ "." ++
     string_of_digits (skipn (Z.to_nat n) ds))%string
  else if (-6 <? n) && (n <=? 0) then
    ("0." ++ string_of_digits (zeros (Z.to_nat (- n)) ++ ds)%list)%string
  else
    let e := n - 1 in
    let es :=
      ((if (e <? 0)%Z then "-" else "+") ++ string_of_nonneg (Z.abs e))%string in
    match ds with
    | [d] => (string_of_digits [d] ++ "e" ++ es)%string
    | d :: r =>
        (string_of_digits [d] ++ "." ++ string_of_digits r ++ "e" ++ es)%string
    | [] => "0"
    end.

Definition Number_toString (n : number) : string :=
  match n with
  | NaN => "NaN"
  | Inf false => "Infinity"
  | Inf true => "-Infinity"
  | Fin q =>
      let a := Z.abs (Qnum q) in
      let b := Z.pos (Qden q) in
      if a =? 0 then "0"
      else if Qnum q <? 0 then ("-" ++ render_positive a b)%string
      else render_positive a b
  end.

(** ToString.  An array joins the renderings of its elements with commas,
    [null] and [undefined] rendering as the empty string there. *)
Fixpoint ToString (v : value) : string :=
  match v with
  | VUndefined => "undefined"
  | VNull => "null"
  | VBool true => "true"
  | VBool false => "false"
  | VNum n => Number_toString n
  | VStr s => s
  | VArr items =>
      (fix join (l : list value) : string :=
         let elt x := match x with
                      | VUndefined | VNull => ""
                      | _ => ToString x
                      end in
         match l with
         | [] => ""
         | [x] => elt x
         | x :: r => (elt x ++ "," ++ join r)%string
         end) items
  | VObj _ => "[object Object]"
  end.

Definition chars_of (v : value) : list ascii := list_ascii_of_string (ToString v).

(** ToNumber. *)
Definition ToNumber (v : value) : number :=
  match v with
  | VUndefined => NaN
  | VNull => of_Z 0
  | VBool true => of_Z 1
  | VBool false => of_Z 0
  | VNum n => n
  | VStr _ | VArr _ | VObj _ => Number_chars (chars_of v)
  end.

(** The global [isNaN]. *)
Definition isNaN (v : value) : bool := is_nan (ToNumber v).

(** The global [parseFloat].  On a number the run time parses the number's
    own rendering, which reads back as the number itself. *)
Definition parseFloat (v : value) : number :=
  match v with
  | VNum n => n
  | _ => parseFloat_chars (chars_of v)
  end.

(** The global [parseInt] with no radix. *)
Definition parseInt (v : value) : number :=
  match v with
  | VNum n => parseInt_number n
  | _ => parseInt_chars (chars_of v)
  end.

(** *** Objects *)

Fixpoint lookup {A} (k : string) (l : list (string * A)) : option A :=
  match l with
  | (k', a) :: r => if String.eqb k k' then Some a else lookup k r
  | [] => None
  end.

Fixpoint indexed {A} (i : Z) (l : list A) : list (string * A) :=
  match l with
  | x :: r => (string_of_nonneg i, x) :: indexed (i + 1) r
  | [] => []
  end.

Definition char_values (s : string) : list value :=
  map (fun c => VStr (String c EmptyString)) (list_ascii_of_string s).

(** Own enumerable properties ([Object.keys], object spread). *)
Definition own_entries (v : value) : list (string * value) :=
  match v with
  | VObj props => props
  | VArr items => indexed 0 items
  | VStr s => indexed 0 (char_values s)
  | _ => []
  end.

(** Reading a data property [v.k]: [undefined] when the property is absent,
    a [TypeError] when [v] itself is [undefined] or [null]. *)
Definition get (v : value) (k : string) : value :=
  match lookup k (own_entries v) with
  | Some x => x
  | None => VUndefined
  end.

Definition nullish (v : value) : bool :=
  match v with
  | VUndefined | VNull => true
  | _ => false
  end.

Definition prop (v : value) (k : string) : result value :=
  if nullish v then Throw TypeError else Ok (get v k).

(** The method call [v.trim()]: only strings have the method. *)
Definition call_trim (v : value) : result string :=
  match v with
  | VStr s => Ok (trim s)
  | _ => Throw TypeError
  end.

Definition str_length (s : string) : Z := Z.of_nat (String.length s).

(** [a || b] on values. *)
Definition or_else (a b : value) : value := if truthy a then a else b.

End JS.

(* ------------------------------------------------------------------ *)
(** ** The payload validator *)

Module Validator.
Import Chars Num JS.

Notation "x <- c ;; k" := (rbind c (fun x => k))
  (at level 61, c at next level, right associativity).

Definition push {A} (l : list A) (x : A) : list A := l ++ [x].

Definition msg_kode : string := "Kode produk wajib diisi".
Definition msg_nama : string := "Nama produk wajib diisi minimal 3 karakter".
Definition msg_kategori : string := "Kategori wajib diisi".
Definition msg_harga : string :=
  "Harga harus berupa angka dan lebih besar dari 0".
Definition msg_stok : string :=
  "Stok harus berupa angka dan tidak boleh negatif".

Definition is_undefined (v : value) : bool :=
  match v with VUndefined => true | _ => false end.

(** [validateProduk(data)]: five [if]s in sequence, each pushing its message
    onto [errors].  The [||] of each condition is evaluated left to right and
    stops at the first true operand, so [trim] is called only on a truthy
    field. *)
Definition validateProduk (data : value) : result (list string) :=
  let errors : list string := [] in
  kode <- prop data "kode_produk" ;;
  c1 <- (if negb (truthy kode) then Ok true
         else t <- call_trim kode ;; Ok (String.eqb t "")) ;;
  let errors := if c1 then push errors msg_kode else errors in
  nama <- prop data "nama_produk" ;;
  c2 <- (if negb (truthy nama) then Ok true
         else t <- call_trim nama ;; Ok (str_length t <? 3)) ;;
  let errors := if c2 then push errors msg_nama else errors in
  kategori <- prop data "kategori" ;;
  c3 <- (if negb (truthy kategori) then Ok true
         else t <- call_trim kategori ;; Ok (String.eqb t "")) ;;
  let errors := if c3 then push errors msg_kategori else errors in
  harga <- prop data "harga" ;;
  let c4 := negb (truthy harga) || isNaN harga
            || le (parseFloat harga) (of_Z 0) in
  let errors := if c4 then push errors msg_harga else errors in
  stok <- prop data "stok" ;;
  let c5 := is_undefined stok || isNaN stok
            || lt (parseInt stok) (of_Z 0) in
  let errors := if c5 then push errors msg_stok else errors in
  Ok errors.

End Validator.

(* ------------------------------------------------------------------ *)
(** ** The document store *)

(** What the run time and the driver leave to the platform: reading an
    identifier string ([ObjectId.isValid], [new ObjectId(id)]), [Date.parse],
    and compiling a case-insensitive regular expression ([None] for a
    pattern the store rejects). *)
Class Platform := {
  ObjectId_parse : string -> option N;
  Date_parse : string -> option Z;
  regex_compile : string -> option (string -> bool)
}.

Module Store.
Import Chars Num JS.

(** Field values of stored documents and of query operands: request values,
    [Date] objects (time value in milliseconds, [None] for an invalid date)
    and object identifiers. *)
Inductive bson :=
| BJs (v : value)
| BDate (t : option Z)
| BOid (o : N).

Definition document := list (string * bson).

(** Conditions on one field, in the shapes the handlers build:
    [{k: v}], [{k: {$ne: v}}], [{k: {$regex: p, $options: 'i'}}] and
    [{k: {$gte: a, $lte: b}}] with either bound optional. *)
Inductive cond :=
| Eq (b : bson)
| Ne (b : bson)
| Regex (pattern : value)
| Range (gte lte : option bson).

(** A filter is the conjunction of its clauses; [Or] is [$or]. *)
Inductive clause :=
| Field (k : string) (c : cond)
| Or (alts : list (string * cond)).

Definition filter := list clause.

(** Numbers as the store compares them: NaN equals itself and sorts below
    every other number. *)
Definition num_same (a b : number) : bool :=
  match a, b with
  | NaN, NaN => true
  | _, _ => Num.eqb a b
  end.

Definition num_total_le (a b : number) : bool :=
  match a, b with
  | NaN, _ => true
  | _, NaN => false
  | _, _ => Num.le a b
  end.

Fixpoint value_eqb (a b : value) : bool :=
  match a, b with
  | VUndefined, VUndefined => true
  | VNull, VNull => true
  | VBool x, VBool y => Bool.eqb x y
  | VNum x, VNum y => num_same x y
  | VStr x, VStr y => String.eqb x y
  | VArr x, VArr y =>
      (fix go (l1 l2 : list value) : bool :=
         match l1, l2 with
         | [], [] => true
         | u :: r, v :: s => value_eqb u v && go r s
         | _, _ => false
         end) x y
  | VObj x, VObj y =>
      (fix go (l1 l2 : list (string * value)) : bool :=
         match l1, l2 with
         | [], [] => true
         | (j, u) :: r, (k, v) :: s =>
             String.eqb j k && value_eqb u v && go r s
         | _, _ => false
         end) x y
  | _, _ => false
  end.

(** The driver writes an invalid date as time value 0. *)
Definition date_ms (t : option Z) : Z :=
  match t with Some z => z | None => 0 end.

Definition bson_eqb (a b : bson) : bool :=
  match a, b with
  | BJs u, BJs v => value_eqb u v
  | BDate s, BDate t => date_ms s =? date_ms t
  | BOid m, BOid n => N.eqb m n
  | _, _ => false
  end.

Fixpoint doc_eqb (d e : document) : bool :=
  match d, e with
  | [], [] => true
  | (j, u) :: r, (k, v) :: s => String.eqb j k && bson_eqb u v && doc_eqb r s
  | _, _ => false
  end.

Definition field (k : string) (d : document) : option bson := lookup k d.

(** *** Matching *)

Definition is_null (b : bson) : bool :=
  match b with
  | BJs VNull | BJs VUndefined => true
  | _ => false
  end.

(** [{k: v}]: the field equals [v], or is an array with an element equal to
    [v]; an absent field matches [null]. *)
Definition eq_match (b : bson) (fld : option bson) : bool :=
  match fld with
  | None => is_null b
  | Some (BJs (VArr items)) =>
      bson_eqb (BJs (VArr items)) b
      || existsb (fun x => bson_eqb (BJs x) b) items
  | Some x => bson_eqb x b
  end.

Definition regex_match (m : string -> bool) (fld : option bson) : bool :=
  match fld with
  | Some (BJs (VStr s)) => m s
  | Some (BJs (VArr items)) =>
      existsb (fun x => match x with VStr s => m s | _ => false end) items
  | _ => false
  end.

(** Order within a comparison class; range operators match only values of
    the bound's class (the handlers build number and date bounds). *)
Definition class_le (a b : bson) : bool :=
  match a, b with
  | BJs (VNum x), BJs (VNum y) => num_total_le x y
  | BDate s, BDate t => date_ms s <=? date_ms t
  | _, _ => false
  end.

Definition range_match (gte lte : option bson) (fld : option bson) : bool :=
  match fld with
  | None => false
  | Some x =>
      (match gte with Some a => class_le a x | None => true end)
      && (match lte with Some b => class_le x b | None => true end)
  end.

Section Matching.
Context {P : Platform}.

Definition cond_matcher (c : cond) : option (option bson -> bool) :=
  match c with
  | Eq b => Some (eq_match b)
  | Ne b => Some (fun fld => negb (eq_match b fld))
  | Regex (VStr p) =>
      match regex_compile p with
      | Some m => Some (regex_match m)
      | None => None
      end
  | Regex _ => None
  | Range gte lte => Some (range_match gte lte)
  end.

Fixpoint alts_matcher (alts : list (string * cond))
  : option (document -> bool) :=
  match alts with
  | [] => Some (fun _ => false)
  | (k, c) :: r =>
      match cond_matcher c, alts_matcher r with
      | Some m, Some ms => Some (fun d => m (field k d) || ms d)
      | _, _ => None
      end
  end.

Definition clause_matcher (c : clause) : option (document -> bool) :=
  match c with
  | Field k c =>
      match cond_matcher c with
      | Some m => Some (fun d => m (field k d))
      | None => None
      end
  | Or [] => None
  | Or alts => alts_matcher alts
  end.

(** [None] when the store rejects the filter. *)
Fixpoint filter_matcher (f : filter) : option (document -> bool) :=
  match f with
  | [] => Some (fun _ => true)
  | c :: r =>
      match clause_matcher c, filter_matcher r with
      | Some m, Some ms => Some (fun d => m d && ms d)
      | _, _ => None
      end
  end.

End Matching.

(** *** Sorting *)

(** Rank of a value's type in the store's sort order; an absent field sorts
    as [null]. *)
Definition rank (x : option bson) : Z :=
  match x with
  | None => 1
  | Some (BJs VUndefined) | Some (BJs VNull) => 1
  | Some (BJs (VNum _)) => 2
  | Some (BJs (VStr _)) => 3
  | Some (BJs (VObj _)) => 4
  | Some (BJs (VArr _)) => 5
  | Some (BOid _) => 7
  | Some (BJs (VBool _)) => 8
  | Some (BDate _) => 9
  end.

(** Order of two values of one type (objects and arrays are not compared by
    content). *)
Definition within_le (x y : option bson) : bool :=
  match x, y with
  | Some (BJs (VNum a)), Some (BJs (VNum b)) => num_total_le a b
  | Some (BJs (VStr a)), Some (BJs (VStr b)) => String.leb a b
  | Some (BOid a), Some (BOid b) => N.leb a b
  | Some (BJs (VBool a)), Some (BJs (VBool b)) => implb a b
  | Some (BDate a), Some (BDate b) => date_ms a <=? date_ms b
  | _, _ => true
  end.

Definition key_le (x y : option bson) : bool :=
  if rank x <? rank y then true
  else if rank y <? rank x then false
  else within_le x y.

(** Stable insertion sort, largest key first: [.sort({k: -1})].  Documents
    whose keys tie keep their insertion order; the store leaves that order
    open. *)
Fixpoint insert_desc (k : string) (d : document) (l : list document)
  : list document :=
  match l with
  | [] => [d]
  | e :: r => if key_le (field k e) (field k d) then d :: e :: r
              else e :: insert_desc k d r
  end.

Definition sort_desc (k : string) (l : list document) : list document :=
  fold_right (insert_desc k) [] l.

(** *** Operations on one collection *)

(** Integer value of a cursor argument, if it is one. *)
Definition as_integer (n : number) : option Z :=
  match n with
  | Fin q => if Qeq_bool q (inject_Z (Qfloor q)) then Some (Qfloor q) else None
  | _ => None
  end.

(** [limit(n)]: 0 means no limit, a negative limit is read as its absolute
    value. *)
Definition apply_limit (n : Z) (l : list document) : list document :=
  if n =? 0 then l else firstn (Z.to_nat (Z.abs n)) l.

Definition BadValue : exn := MongoError 2.
Definition DuplicateKey : exn := MongoError 11000.
Definition ImmutableField : exn := MongoError 66.

Section Operations.
Context {P : Platform}.

(** [find(f).sort({k: -1}).skip(s).limit(n).toArray()], the call to [skip]
    being optional: the skip must be a non-negative integer and the limit an
    integer. *)
Definition find (coll : list document) (f : filter) (k : string)
    (s : option number) (n : number) : result (list document) :=
  let s := match s with Some s => s | None => of_Z 0 end in
  match filter_matcher f, as_integer s, as_integer n with
  | Some m, Some s, Some n =>
      if s <? 0 then Throw BadValue
      else Ok (apply_limit n
                 (skipn (Z.to_nat s) (sort_desc k (List.filter m coll))))
  | _, _, _ => Throw BadValue
  end.

Definition countDocuments (coll : list document) (f : filter) : result Z :=
  match filter_matcher f with
  | Some m => Ok (Z.of_nat (List.length (List.filter m coll)))
  | None => Throw BadValue
  end.

Definition findOne (coll : list document) (f : filter)
  : result (option document) :=
  match filter_matcher f with
  | Some m => Ok (List.find m coll)
  | None => Throw BadValue
  end.

End Operations.

(** Value under which a unique index files a document. *)
Definition index_key (k : string) (d : document) : bson :=
  match field k d with
  | Some b => b
  | None => BJs VNull
  end.

Definition key_taken (k : string) (b : bson) (coll : list document) : bool :=
  existsb (fun d => bson_eqb (index_key k d) b) coll.

(** [insertOne(d)], under the unique indexes [uniq] of the collection (the
    index on [_id] is always there). *)
Definition insertOne (uniq : list string) (coll : list document)
    (d : document) : result (list document) :=
  if existsb (fun k => key_taken k (index_key k d) coll) ("_id" :: uniq)
  then Throw DuplicateKey
  else Ok (coll ++ [d]).

Fixpoint set_field (k : string) (v : bson) (d : document) : document :=
  match d with
  | [] => [(k, v)]
  | (j, u) :: r => if String.eqb j k then (j, v) :: r
                   else (j, u) :: set_field k v r
  end.

(** [$set]: each named field is overwritten in place or appended.  The
    names are top-level field names. *)
Definition apply_set (set : document) (d : document) : document :=
  fold_left (fun acc kv => set_field (fst kv) (snd kv) acc) set d.

Fixpoint replace_first (m : document -> bool) (new : document)
    (coll : list document) : list document :=
  match coll with
  | [] => []
  | d :: r => if m d then new :: r else d :: replace_first m new r
  end.

Fixpoint remove_first (m : document -> bool) (coll : list document)
  : list document :=
  match coll with
  | [] => []
  | d :: r => if m d then r else d :: remove_first m r
  end.

Record update_result := {
  matchedCount : Z;
  modifiedCount : Z;
  updated : list document
}.

Section Writes.
Context {P : Platform}.

(** [updateOne(f, {$set: set})] on the first matching document; an update
    that leaves the document as it was counts as not modified.  Field names
    are top-level names (dotted paths are not modelled). *)
Definition updateOne (uniq : list string) (coll : list document)
    (f : filter) (set : document) : result update_result :=
  match filter_matcher f with
  | None => Throw BadValue
  | Some m =>
      match List.find m coll with
      | None => Ok {| matchedCount := 0; modifiedCount := 0; updated := coll |}
      | Some d =>
          let d' := apply_set set d in
          if doc_eqb d' d then
            Ok {| matchedCount := 1; modifiedCount := 0; updated := coll |}
          else if negb (bson_eqb (index_key "_id" d') (index_key "_id" d))
          then Throw ImmutableField
          else if existsb (fun k =>
                    negb (bson_eqb (index_key k d') (index_key k d))
                    && key_taken k (index_key k d') coll) uniq
          then Throw DuplicateKey
          else Ok {| matchedCount := 1; modifiedCount := 1;
                     updated := replace_first m d' coll |}
      end
  end.

Definition deleteOne (coll : list document) (f : filter)
  : result (list document) :=
  match filter_matcher f with
  | Some m => Ok (remove_first m coll)
  | None => Throw BadValue
  end.

End Writes.

End Store.

(* ------------------------------------------------------------------ *)
(** ** The route handlers *)

Module Server.
Import Chars Num JS Store.

Inductive collection := Posts | Produk.

(** Operations issued against the store, as the driver receives them. *)
Inductive op :=
| OpFind (c : collection) (f : filter) (sort_key : string)
         (skip : option number) (limit : number)
| OpCount (c : collection) (f : filter)
| OpFindOne (c : collection) (f : filter)
| OpInsertOne (c : collection) (d : document)
| OpUpdateOne (c : collection) (f : filter) (set : document)
| OpDeleteOne (c : collection) (f : filter).

(** The database: the two collections, and whether the unique index on
    [kode_produk] was built at start-up (its creation may fail and is then
    only logged). *)
Record db := {
  posts : list document;
  produk : list document;
  kode_index : bool
}.

Record world := {
  store : db;
  trace : list op
}.

Definition coll_of (c : collection) (s : db) : list document :=
  match c with Posts => posts s | Produk => produk s end.

Definition with_coll (c : collection) (l : list document) (s : db) : db :=
  match c with
  | Posts => {| posts := l; produk := produk s; kode_index := kode_index s |}
  | Produk => {| posts := posts s; produk := l; kode_index := kode_index s |}
  end.

Definition uniq_of (c : collection) (s : db) : list string :=
  match c with
  | Produk => if kode_index s then ["kode_produk"] else []
  | Posts => []
  end.

(** Handler code runs in a state-and-exception monad over the world. *)
Definition M (A : Type) : Type := world -> result A * world.

Definition ret {A} (a : A) : M A := fun w => (Ok a, w).

Definition bind {A B} (m : M A) (k : A -> M B) : M B :=
  fun w => match m w with
           | (Ok a, w') => k a w'
           | (Throw e, w') => (Throw e, w')
           end.

Definition lift {A} (r : result A) : M A := fun w => (r, w).

Notation "x <- c ;; k" := (bind c (fun x => k))
  (at level 61, c at next level, right associativity).

Definition issue (o : op) (w : world) : world :=
  {| store := store w; trace := trace w ++ [o] |}.

(** A read: the operation is recorded and its result comes from the current
    state of the collection. *)
Definition reading {A} (o : op) (r : db -> result A) : M A :=
  fun w => (r (store w), issue o w).

(** A write: on success the collection is replaced. *)
Definition writing {A} (o : op) (c : collection)
    (r : db -> result (A * list document)) : M A :=
  fun w =>
    match r (store w) with
    | Ok (a, l) =>
        (Ok a, {| store := with_coll c l (store w); trace := trace w ++ [o] |})
    | Throw e => (Throw e, issue o w)
    end.

Inductive out :=
| OJs (v : value)
| OErr (e : exn)
| ODoc (d : document)
| ODocs (l : list document)
| OFilter (f : filter).

Record response := {
  status : Z;
  body : list (string * out)
}.

Definition handler := world -> response * world.

(** [try { ... } catch (err) { ... }] around a handler body. *)
Definition try_catch (m : M response) (on_error : exn -> response) : handler :=
  fun w => match m w with
           | (Ok r, w') => (r, w')
           | (Throw e, w') => (on_error e, w')
           end.

Definition json (st : Z) (b : list (string * out)) : response :=
  {| status := st; body := b |}.

Definition success (b : bool) : string * out := ("success", OJs (VBool b)).
Definition message (m : string) : string * out := ("message", OJs (VStr m)).

Definition failure (st : Z) (m : string) : response :=
  json st [success false; message m].

(** [err.code]; an error without a code never equals one. *)
Definition error_code (e : exn) : Z :=
  match e with
  | MongoError c => c
  | _ => -1
  end.

Definition internal (m : string) (e : exn) : response :=
  json 500 [success false; message m; ("error", OErr e)].

Definition out_doc (d : option document) : out :=
  match d with
  | Some d => ODoc d
  | None => OJs VNull
  end.

Definition found (n : nat) (what : string) : string :=
  ("Ditemukan " ++ string_of_nonneg (Z.of_nat n) ++ " " ++ what)%string.

Section Handlers.
Context {P : Platform}.

Definition db_find (c : collection) (f : filter) (k : string)
    (s : option number) (n : number) : M (list document) :=
  reading (OpFind c f k s n) (fun d => find (coll_of c d) f k s n).

Definition db_countDocuments (c : collection) (f : filter) : M Z :=
  reading (OpCount c f) (fun d => countDocuments (coll_of c d) f).

Definition db_findOne (c : collection) (f : filter) : M (option document) :=
  reading (OpFindOne c f) (fun d => findOne (coll_of c d) f).

Definition db_insertOne (c : collection) (d : document) : M unit :=
  writing (OpInsertOne c d) c
    (fun s => rbind (insertOne (uniq_of c s) (coll_of c s) d)
                    (fun l => Ok (tt, l))).

Definition db_updateOne (c : collection) (f : filter) (set : document)
  : M update_result :=
  writing (OpUpdateOne c f set) c
    (fun s => rbind (updateOne (uniq_of c s) (coll_of c s) f set)
                    (fun r => Ok (r, updated r))).

Definition db_deleteOne (c : collection) (f : filter) : M unit :=
  writing (OpDeleteOne c f) c
    (fun s => rbind (deleteOne (coll_of c s) f) (fun l => Ok (tt, l))).

(** [ObjectId.isValid(id)] and [new ObjectId(id)]. *)
Definition isValid (id : string) : bool :=
  match ObjectId_parse id with Some _ => true | None => false end.

Definition new_ObjectId (id : string) : result N :=
  match ObjectId_parse id with
  | Some o => Ok o
  | None => Throw BSONError
  end.

Definition by_id (o : N) : filter := [Field "_id" (Eq (BOid o))].

(** TimeClip. *)
Definition time_clip (n : number) : option Z :=
  match n with
  | Fin q => if Z.abs (Qtrunc q) <=? 8640000000000000 then Some (Qtrunc q)
             else None
  | _ => None
  end.

(** [new Date(v)]: a string is parsed, any other primitive is read as a time
    value; [None] is the invalid date. *)
Definition new_Date (v : value) : option Z :=
  match v with
  | VStr s => Date_parse s
  | VArr _ | VObj _ => Date_parse (ToString v)
  | _ => time_clip (ToNumber v)
  end.

(** [const { k = dflt } = obj]: the default stands in for [undefined]. *)
Definition default (x dflt : value) : value :=
  match x with VUndefined => dflt | _ => x end.

Definition prop_default (v : value) (k : string) (dflt : value)
  : result value :=
  rbind (prop v k) (fun x => Ok (default x dflt)).

(** [{ $regex: v, $options: 'i' }]. *)
Definition regex (v : value) : cond := Regex v.

(** [filter.k = c] on a filter that has no field [k] yet. *)
Definition push_clause (f : filter) (k : string) (c : cond) : filter :=
  f ++ [Field k c].

Definition pagination (pageNum limitNum : number) (total : Z) : out :=
  let total_pages := ceil (div (of_Z total) limitNum) in
  OJs (VObj [("current_page", VNum pageNum);
             ("total_pages", VNum total_pages);
             ("total_data", VNum (of_Z total));
             ("per_page", VNum limitNum);
             ("has_next", VBool (lt pageNum total_pages));
             ("has_prev", VBool (gt pageNum (of_Z 1)))]).

(** [{ $gte: a, $lte: b }], each bound set only for a truthy parameter. *)
Definition bounds (lo hi : value) (mk : value -> bson) : cond :=
  Range (if truthy lo then Some (mk lo) else None)
        (if truthy hi then Some (mk hi) else None).

(** *** Posts *)

(** The filter of [GET /posts]. *)
Definition posts_list_filter (search : value) : filter :=
  if truthy search then
    [Or [("title", regex search); ("content", regex search);
         ("author", regex search)]]
  else [].

(** The filter of [GET /posts/search/advanced], built field by field. *)
Definition posts_search_filter (title author content date_from date_to : value)
  : filter :=
  let filter : filter := [] in
  let filter :=
    if truthy title then push_clause filter "title" (regex title)
    else filter in
  let filter :=
    if truthy author then push_clause filter "author" (regex author)
    else filter in
  let filter :=
    if truthy content then push_clause filter "content" (regex content)
    else filter in
  let filter :=
    if truthy date_from || truthy date_to then
      push_clause filter "created_at"
        (bounds date_from date_to (fun v => BDate (new_Date v)))
    else filter in
  filter.

(** [GET /posts]. *)
Definition get_posts (query : value) : handler :=
  try_catch
    (search <- lift (prop query "search") ;;
     page <- lift (prop_default query "page" (VNum (of_Z 1))) ;;
     limit <- lift (prop_default query "limit" (VNum (of_Z 10))) ;;
     let pageNum := parseInt page in
     let limitNum := parseInt limit in
     let skip := mul (sub pageNum (of_Z 1)) limitNum in
     let filter := posts_list_filter search in
     posts <- db_find Posts filter "_id" (Some skip) limitNum ;;
     total <- db_countDocuments Posts filter ;;
     ret (json 200 [success true;
                    ("data", ODocs posts);
                    ("pagination", pagination pageNum limitNum total);
                    ("search_query", OJs (or_else search VNull))]))
    (internal "Gagal mengambil data posts").

(** [GET /posts/:id]. *)
Definition get_post (id : string) : handler :=
  try_catch
    (if negb (isValid id) then ret (failure 400 "ID post tidak valid")
     else
       o <- lift (new_ObjectId id) ;;
       post <- db_findOne Posts (by_id o) ;;
       match post with
       | None => ret (failure 404 "Post tidak ditemukan")
       | Some p => ret (json 200 [success true; ("data", ODoc p)])
       end)
    (internal "Gagal mengambil data post").

(** [GET /posts/search/advanced]. *)
Definition search_posts (query : value) : handler :=
  try_catch
    (title <- lift (prop query "title") ;;
     author <- lift (prop query "author") ;;
     content <- lift (prop query "content") ;;
     date_from <- lift (prop query "date_from") ;;
     date_to <- lift (prop query "date_to") ;;
     if negb (truthy title) && negb (truthy author) && negb (truthy content)
        && negb (truthy date_from) && negb (truthy date_to)
     then ret (failure 400 "Minimal satu parameter pencarian harus diisi")
     else
       let filter :=
         posts_search_filter title author content date_from date_to in
       posts <- db_find Posts filter "_id" None (of_Z 50) ;;
       ret (json 200 [success true;
                      message (found (List.length posts) "posts");
                      ("data", ODocs posts);
                      ("filter_used", OFilter filter)]))
    (internal "Gagal mencari posts").

(** [{ ...v, k: x }] as a document to write. *)
Definition spread (v : value) : document :=
  apply_set (map (fun kv => (fst kv, BJs (snd kv))) (own_entries v)) [].

(** [!v || Object.keys(v).length === 0]. *)
Definition is_empty_body (v : value) : bool :=
  negb (truthy v) || (Z.of_nat (List.length (own_entries v)) =? 0).

(** [PUT /posts/:id]; [now] is the clock reading of [new Date()]. *)
Definition put_post (id : string) (updateData : value) (now : Z) : handler :=
  try_catch
    (if negb (isValid id) then ret (failure 400 "ID post tidak valid")
     else if is_empty_body updateData then
       ret (failure 400 "Data untuk update tidak boleh kosong")
     else
       o <- lift (new_ObjectId id) ;;
       existingPost <- db_findOne Posts (by_id o) ;;
       match existingPost with
       | None => ret (failure 404 "Post tidak ditemukan")
       | Some _ =>
           let dataToUpdate :=
             set_field "updated_at" (BDate (Some now)) (spread updateData) in
           o <- lift (new_ObjectId id) ;;
           result <- db_updateOne Posts (by_id o) dataToUpdate ;;
           if modifiedCount result =? 0 then
             ret (failure 400 "Tidak ada perubahan data")
           else
             o <- lift (new_ObjectId id) ;;
             updatedPost <- db_findOne Posts (by_id o) ;;
             ret (json 200 [success true;
                            message "Post berhasil diupdate";
                            ("data", out_doc updatedPost)])
       end)
    (internal "Gagal mengupdate post").

(** [DELETE /posts/:id]. *)
Definition delete_post (id : string) : handler :=
  try_catch
    (if negb (isValid id) then ret (failure 400 "ID post tidak valid")
     else
       o <- lift (new_ObjectId id) ;;
       existingPost <- db_findOne Posts (by_id o) ;;
       match existingPost with
       | None => ret (failure 404 "Post tidak ditemukan")
       | Some p =>
           o <- lift (new_ObjectId id) ;;
           _ <- db_deleteOne Posts (by_id o) ;;
           ret (json 200 [success true;
                          message "Post berhasil dihapus";
                          ("deleted_data", ODoc p)])
       end)
    (internal "Gagal menghapus post").

(** *** Products *)

Definition invalid_produk (errors : list string) : response :=
  json 400 [success false;
            message "Data produk tidak valid";
            ("errors", OJs (VArr (map VStr errors)))].

(** [v ? v.trim() : ''], the optional text fields. *)
Definition trim_or_empty (v : value) : result string :=
  if truthy v then call_trim v else Ok "".

(** The fields both product writes take from the request body. *)
Definition produk_fields (dataProduk : value) : result document :=
  rbind (prop dataProduk "kode_produk") (fun kode =>
  rbind (call_trim kode) (fun kode =>
  rbind (prop dataProduk "nama_produk") (fun nama =>
  rbind (call_trim nama) (fun nama =>
  rbind (prop dataProduk "kategori") (fun kategori =>
  rbind (call_trim kategori) (fun kategori =>
  rbind (prop dataProduk "harga") (fun harga =>
  rbind (prop dataProduk "stok") (fun stok =>
  rbind (prop dataProduk "deskripsi") (fun deskripsi =>
  rbind (trim_or_empty deskripsi) (fun deskripsi =>
  rbind (prop dataProduk "supplier") (fun supplier =>
  rbind (trim_or_empty supplier) (fun supplier =>
  Ok [("kode_produk", BJs (VStr kode));
      ("nama_produk", BJs (VStr nama));
      ("kategori", BJs (VStr kategori));
      ("harga", BJs (VNum (parseFloat harga)));
      ("stok", BJs (VNum (parseInt stok)));
      ("deskripsi", BJs (VStr deskripsi));
      ("supplier", BJs (VStr supplier))])))))))))))).

Definition trimmed_kode (dataProduk : value) : result string :=
  rbind (prop dataProduk "kode_produk") call_trim.

Definition harga_bound (v : value) : bson := BJs (VNum (parseFloat v)).

(** The filter of [GET /api/produk]. *)
Definition produk_list_filter (search kategori min_harga max_harga : value)
  : filter :=
  let filter : filter := [] in
  let filter :=
    if truthy search then
      filter ++ [Or [("nama_produk", regex search);
                     ("deskripsi", regex search)]]
    else filter in
  let filter :=
    if truthy kategori then push_clause filter "kategori" (regex kategori)
    else filter in
  let filter :=
    if truthy min_harga || truthy max_harga then
      push_clause filter "harga" (bounds min_harga max_harga harga_bound)
    else filter in
  filter.

(** The filter of [GET /api/produk/search/advanced]. *)
Definition produk_search_filter
    (nama kode kategori min_harga max_harga supplier stok_kosong : value)
  : filter :=
  let filter : filter := [] in
  let filter :=
    if truthy nama then push_clause filter "nama_produk" (regex nama)
    else filter in
  let filter :=
    if truthy kode then push_clause filter "kode_produk" (regex kode)
    else filter in
  let filter :=
    if truthy kategori then push_clause filter "kategori" (regex kategori)
    else filter in
  let filter :=
    if truthy supplier then push_clause filter "supplier" (regex supplier)
    else filter in
  let filter :=
    if truthy min_harga || truthy max_harga then
      push_clause filter "harga" (bounds min_harga max_harga harga_bound)
    else filter in
  let filter :=
    if value_eqb stok_kosong (VStr "true") then
      push_clause filter "stok" (Range None (Some (BJs (VNum (of_Z 0)))))
    else filter in
  filter.

(** [GET /api/produk]. *)
Definition get_produk_list (query : value) : handler :=
  try_catch
    (search <- lift (prop query "search") ;;
     kategori <- lift (prop query "kategori") ;;
     min_harga <- lift (prop query "min_harga") ;;
     max_harga <- lift (prop query "max_harga") ;;
     page <- lift (prop_default query "page" (VNum (of_Z 1))) ;;
     limit <- lift (prop_default query "limit" (VNum (of_Z 10))) ;;
     let pageNum := parseInt page in
     let limitNum := parseInt limit in
     let skip := mul (sub pageNum (of_Z 1)) limitNum in
     let filter := produk_list_filter search kategori min_harga max_harga in
     produk <- db_find Produk filter "tanggal_dibuat" (Some skip) limitNum ;;
     total <- db_countDocuments Produk filter ;;
     ret (json 200 [success true;
                    message (found (List.length produk) "produk");
                    ("data", ODocs produk);
                    ("pagination", pagination pageNum limitNum total);
                    ("filters_applied",
                     OJs (VObj [("search", or_else search VNull);
                                ("kategori", or_else kategori VNull);
                                ("min_harga", or_else min_harga VNull);
                                ("max_harga", or_else max_harga VNull)]))]))
    (internal "Gagal mengambil data produk").

(** [GET /api/produk/:id]. *)
Definition get_produk (id : string) : handler :=
  try_catch
    (if negb (isValid id) then
       ret (failure 400
              "ID produk tidak valid. Gunakan format ObjectId yang benar.")
     else
       o <- lift (new_ObjectId id) ;;
       produk <- db_findOne Produk (by_id o) ;;
       match produk with
       | None => ret (failure 404 "Produk dengan ID tersebut tidak ditemukan")
       | Some p => ret (json 200 [success true;
                                  message "Produk berhasil ditemukan";
                                  ("data", ODoc p)])
       end)
    (internal "Gagal mengambil data produk").

(** [POST /api/produk]; [t1] and [t2] are the two clock readings and
    [insertedId] the identifier the driver generates for the document. *)
Definition post_produk (dataProduk : value) (t1 t2 : Z) (insertedId : N)
  : handler :=
  try_catch
    (errors <- lift (Validator.validateProduk dataProduk) ;;
     if 0 <? Z.of_nat (List.length errors) then ret (invalid_produk errors)
     else
       kode <- lift (trimmed_kode dataProduk) ;;
       existingProduk <-
         db_findOne Produk [Field "kode_produk" (Eq (BJs (VStr kode)))] ;;
       match existingProduk with
       | Some _ =>
           ret (failure 409
                  "Kode produk sudah digunakan. Gunakan kode yang berbeda.")
       | None =>
           fields <- lift (produk_fields dataProduk) ;;
           let produkBaru :=
             fields ++ [("tanggal_dibuat", BDate (Some t1));
                        ("tanggal_diupdate", BDate (Some t2));
                        ("status", BJs (VStr "aktif"))] in
           let stored := ("_id", BOid insertedId) :: produkBaru in
           _ <- db_insertOne Produk stored ;;
           ret (json 201 [success true;
                          message "Produk berhasil ditambahkan";
                          ("data", ODoc stored)])
       end)
    (fun err =>
       if error_code err =? 11000
       then failure 409 "Kode produk sudah digunakan"
       else internal "Gagal menambahkan produk" err).

(** [PUT /api/produk/:id]. *)
Definition put_produk (id : string) (dataProduk : value) (now : Z) : handler :=
  try_catch
    (if negb (isValid id) then ret (failure 400 "ID produk tidak valid")
     else
       errors <- lift (Validator.validateProduk dataProduk) ;;
       if 0 <? Z.of_nat (List.length errors) then ret (invalid_produk errors)
       else
         o <- lift (new_ObjectId id) ;;
         existingProduk <- db_findOne Produk (by_id o) ;;
         match existingProduk with
         | None => ret (failure 404 "Produk tidak ditemukan")
         | Some _ =>
             kode <- lift (trimmed_kode dataProduk) ;;
             o <- lift (new_ObjectId id) ;;
             duplicateCheck <-
               db_findOne Produk [Field "kode_produk" (Eq (BJs (VStr kode)));
                                  Field "_id" (Ne (BOid o))] ;;
             match duplicateCheck with
             | Some _ =>
                 ret (failure 409
                        "Kode produk sudah digunakan oleh produk lain")
             | None =>
                 fields <- lift (produk_fields dataProduk) ;;
                 let updateData :=
                   fields ++ [("tanggal_diupdate", BDate (Some now))] in
                 o <- lift (new_ObjectId id) ;;
                 result <- db_updateOne Produk (by_id o) updateData ;;
                 if modifiedCount result =? 0 then
                   ret (failure 400
                          "Tidak ada perubahan data atau data sama dengan sebelumnya")
                 else
                   o <- lift (new_ObjectId id) ;;
                   updatedProduk <- db_findOne Produk (by_id o) ;;
                   ret (json 200 [success true;
                                  message "Produk berhasil diupdate";
                                  ("data", out_doc updatedProduk)])
             end
         end)
    (internal "Gagal mengupdate produk").

(** [DELETE /api/produk/:id]. *)
Definition delete_produk (id : string) : handler :=
  try_catch
    (if negb (isValid id) then ret (failure 400 "ID produk tidak valid")
     else
       o <- lift (new_ObjectId id) ;;
       existingProduk <- db_findOne Produk (by_id o) ;;
       match existingProduk with
       | None => ret (failure 404 "Produk tidak ditemukan")
       | Some p =>
           o <- lift (new_ObjectId id) ;;
           _ <- db_deleteOne Produk (by_id o) ;;
           ret (json 200 [success true;
                          message "Produk berhasil dihapus";
                          ("deleted_data", ODoc p)])
       end)
    (internal "Gagal menghapus produk").

(** [GET /api/produk/search/advanced]. *)
Definition search_produk (query : value) : handler :=
  try_catch
    (nama <- lift (prop query "nama") ;;
     kode <- lift (prop query "kode") ;;
     kategori <- lift (prop query "kategori") ;;
     min_harga <- lift (prop query "min_harga") ;;
     max_harga <- lift (prop query "max_harga") ;;
     supplier <- lift (prop query "supplier") ;;
     stok_kosong <- lift (prop query "stok_kosong") ;;
     if negb (truthy nama) && negb (truthy kode) && negb (truthy kategori)
        && negb (truthy min_harga) && negb (truthy max_harga)
        && negb (truthy supplier) && negb (truthy stok_kosong)
     then ret (failure 400 "Minimal satu parameter pencarian harus diisi")
     else
       let filter :=
         produk_search_filter nama kode kategori min_harga max_harga
           supplier stok_kosong in
       produk <- db_find Produk filter "tanggal_dibuat" None (of_Z 100) ;;
       ret (json 200 [success true;
                      message (found (List.length produk) "produk");
                      ("data", ODocs produk);
                      ("filters_applied", OFilter filter)]))
    (internal "Gagal mencari produk").

End Handlers.
End Server.

(* ------------------------------------------------------------------ *)
(** ** A reference platform *)

(** One concrete platform, used to run the handlers on examples: identifiers
    are strings of 24 hexadecimal digits, dates are read in the form
    [YYYY-MM-DD], and a pattern made of letters, digits and spaces matches
    the strings that contain it, whatever the case. *)
Module Reference.
Import Chars.

Definition hex24 (s : string) : option N :=
  let cs := list_ascii_of_string s in
  match take_digits hex_val cs with
  | (ds, []) => if Nat.eqb (List.length ds) 24
                then Some (Z.to_N (digits_value 16 ds)) else None
  | _ => None
  end.

(** Days from 1970-01-01 to the given civil date. *)
Definition days_from_civil (y m d : Z) : Z :=
  let y := if m <=? 2 then y - 1 else y in
  let era := y / 400 in
  let yoe := y - era * 400 in
  let doy := (153 * (if 2 <? m then m - 3 else m + 9) + 2) / 5 + d - 1 in
  let doe := yoe * 365 + yoe / 4 - yoe / 100 + doy in
  era * 146097 + doe - 719468.

Definition iso_date (s : string) : option Z :=
  match list_ascii_of_string s with
  | [y1; y2; y3; y4; "-"%char; m1; m2; "-"%char; d1; d2] =>
      match take_digits digit_val [y1; y2; y3; y4],
            take_digits digit_val [m1; m2],
            take_digits digit_val [d1; d2] with
      | ([a; b; c; d], []), ([e; f], []), ([g; h], []) =>
          let y := digits_value 10 [a; b; c; d] in
          let m := digits_value 10 [e; f] in
          let dd := digits_value 10 [g; h] in
          if (1 <=? m) && (m <=? 12) && (1 <=? dd) && (dd <=? 31)
          then Some (days_from_civil y m dd * 86400000) else None
      | _, _, _ => None
      end
  | _ => None
  end.

Definition lower (c : ascii) : ascii :=
  let n := code c in
  if (65 <=? n) && (n <=? 90) then ascii_of_nat (Z.to_nat (n + 32)) else c.

Definition is_plain (c : ascii) : bool :=
  let n := code c in
  ((48 <=? n) && (n <=? 57)) || ((65 <=? n) && (n <=? 90))
  || ((97 <=? n) && (n <=? 122)) || (n =? 32).

Fixpoint is_prefix (p cs : list ascii) : bool :=
  match p, cs with
  | [], _ => true
  | a :: p', c :: cs' => Ascii.eqb a c && is_prefix p' cs'
  | _ :: _, [] => false
  end.

Fixpoint contains (p cs : list ascii) : bool :=
  is_prefix p cs
  || match cs with
     | [] => false
     | _ :: r => contains p r
     end.

Definition literal_regex (p : string) : option (string -> bool) :=
  let pc := list_ascii_of_string p in
  if forallb is_plain pc then
    Some (fun s => contains (map lower pc) (map lower (list_ascii_of_string s)))
  else None.

Definition platform : Platform :=
  {| ObjectId_parse := hex24;
     Date_parse := iso_date;
     regex_compile := literal_regex |}.

End Reference.

(* ------------------------------------------------------------------ *)
(** ** The stated properties, as definitions *)

Module Rules.
Import Chars Num JS Validator.

(** A text field the validator can examine: absent or otherwise falsy, or a
    string. *)
Definition text_ok (v : value) : bool :=
  negb (truthy v) || match v with VStr _ => true | _ => false end.

(** Payloads on which the validator returns: an object (anything but
    [undefined] and [null]) whose three text fields can be examined. *)
Definition well_typed (data : value) : bool :=
  negb (nullish data)
  && text_ok (get data "kode_produk")
  && text_ok (get data "nama_produk")
  && text_ok (get data "kategori").

(** Rule 1 and rule 3 fail: absent, or blank after trimming. *)
Definition blank (v : value) : bool :=
  match v with
  | VStr s => String.eqb (trim s) ""
  | _ => true
  end.

(** Rule 2 fails: absent, or fewer than 3 characters after trimming. *)
Definition short (v : value) : bool :=
  match v with
  | VStr s => str_length (trim s) <? 3
  | _ => true
  end.

(** The conditions of the fourth and fifth [if] of the validator. *)
Definition harga_rejected (v : value) : bool :=
  negb (truthy v) || isNaN v || le (parseFloat v) (of_Z 0).

Definition stok_rejected (v : value) : bool :=
  is_undefined v || isNaN v || lt (parseInt v) (of_Z 0).

Definition keep (b : bool) (m : string) : list string :=
  if b then [m] else [].

(** Every rule judged on its own field, the messages in rule order. *)
Definition rule_errors (data : value) : list string :=
  keep (blank (get data "kode_produk")) msg_kode
  ++ keep (short (get data "nama_produk")) msg_nama
  ++ keep (blank (get data "kategori")) msg_kategori
  ++ keep (harga_rejected (get data "harga")) msg_harga
  ++ keep (stok_rejected (get data "stok")) msg_stok.

(** The five rules as the specification words them. *)
Definition nonblank_text (v : value) : Prop :=
  exists s, v = VStr s /\ trim s <> "".

Definition text_of_3 (v : value) : Prop :=
  exists s, v = VStr s /\ 3 <= str_length (trim s).

Definition positive_number (v : value) : Prop :=
  exists n, v = VNum n /\ lt (of_Z 0) n = true.

Definition is_integer (q : Q) : Prop := exists z, (q == inject_Z z)%Q.

Definition nonneg_integer (v : value) : Prop :=
  exists q, v = VNum (Fin q) /\ is_integer q /\ (0 <= q)%Q.

Definition satisfies_rules (data : value) : Prop :=
  nullish data = false
  /\ nonblank_text (get data "kode_produk")
  /\ text_of_3 (get data "nama_produk")
  /\ nonblank_text (get data "kategori")
  /\ positive_number (get data "harga")
  /\ nonneg_integer (get data "stok").

(** [nama_produk] missing, or shorter than 3 characters once trimmed. *)
Definition nama_missing_or_short (data : value) : Prop :=
  get data "nama_produk" = VUndefined
  \/ exists s, get data "nama_produk" = VStr s /\ str_length (trim s) < 3.

(** [stok] absent, not numeric, or a number with a negative integer part. *)
Definition stok_unacceptable (v : value) : Prop :=
  v = VUndefined
  \/ isNaN v = true
  \/ exists q, v = VNum (Fin q) /\ (q <= inject_Z (-1))%Q.

Definition nonneg_number (v : value) : Prop :=
  exists q, v = VNum (Fin q) /\ (0 <= q)%Q.

End Rules.


(** *** Words for the handlers' contracts *)

Module Contract.
Import Chars Num JS Store Server.

(** Integer ceiling of [n / l], for a positive [l]. *)
Definition ceil_div (n l : Z) : Z := - ((- n) / l).

(** The document carries the identifier [o] / the product code [k], as the
    store's equality match sees it. *)
Definition has_id (o : N) (d : document) : bool :=
  eq_match (BOid o) (field "_id" d).

Definition has_kode (k : string) (d : document) : bool :=
  eq_match (BJs (VStr k)) (field "kode_produk" d).

(** [a] may come before [b] when sorting by the field [k], largest first. *)
Definition newer_first (k : string) (a b : document) : Prop :=
  key_le (field k b) (field k a) = true.

Definition says (r : response) (k : string) (x : out) : Prop :=
  lookup k (body r) = Some x.

(** A 400 answer with [success: false] that leaves the world as it was: the
    store keeps its state and no operation was issued. *)
Definition rejected (h : handler) (w : world) : Prop :=
  status (fst (h w)) = 400
  /\ says (fst (h w)) "success" (OJs (VBool false))
  /\ snd (h w) = w.

(** What a delete request for identifier [o] on collection [c] must do. *)
Definition delete_outcome (c : collection) (h : handler) (o : N) (w : world)
  : Prop :=
  let coll := coll_of c (store w) in
  match List.find (has_id o) coll with
  | None =>
      status (fst (h w)) = 404
      /\ says (fst (h w)) "success" (OJs (VBool false))
      /\ store (snd (h w)) = store w
  | Some d =>
      status (fst (h w)) = 200
      /\ says (fst (h w)) "deleted_data" (ODoc d)
      /\ coll_of c (store (snd (h w))) = remove_first (has_id o) coll
      /\ Permutation coll (d :: coll_of c (store (snd (h w))))
      /\ (forall c', c' <> c ->
                     coll_of c' (store (snd (h w))) = coll_of c' (store w))
      /\ kode_index (store (snd (h w))) = kode_index (store w)
  end.

(** The query asks for the integer [n] under the key [k] ([dflt] when the
    key is absent). *)
Definition requested (query : value) (k : string) (dflt n : Z) : Prop :=
  parseInt (default (get query k) (VNum (of_Z dflt))) = of_Z n.

(** Page [p] of size [l] of a result list. *)
Definition page_of (p l : Z) (sorted : list document) : list document :=
  firstn (Z.to_nat l) (skipn (Z.to_nat ((p - 1) * l)) sorted).

(** The pagination block for page [p] of size [l] over [n] documents. *)
Definition page_meta (p l n : Z) : out :=
  OJs (VObj [("current_page", VNum (of_Z p));
             ("total_pages", VNum (of_Z (ceil_div n l)));
             ("total_data", VNum (of_Z n));
             ("per_page", VNum (of_Z l));
             ("has_next", VBool (p <? ceil_div n l));
             ("has_prev", VBool (1 <? p))]).

Definition count (m : document -> bool) (coll : list document) : Z :=
  Z.of_nat (List.length (List.filter m coll)).

(** What a list request for page [p] of size [l] must answer, the store
    reading the filter [f] as the predicate [m] and sorting by [k]. *)
Definition list_outcome (c : collection) (h : handler) (f : filter)
    (m : document -> bool) (k : string) (p l : Z) (w : world) : Prop :=
  let coll := coll_of c (store w) in
  status (fst (h w)) = 200
  /\ says (fst (h w)) "data" (ODocs (page_of p l (sort_desc k (List.filter m coll))))
  /\ says (fst (h w)) "pagination" (page_meta p l (count m coll))
  /\ trace (snd (h w))
     = trace w ++ [OpFind c f k (Some (of_Z ((p - 1) * l))) (of_Z l);
                   OpCount c f]
  /\ store (snd (h w)) = store w.

(** At least one search parameter is given. *)
Definition posts_search_given (query : value) : bool :=
  truthy (get query "title") || truthy (get query "author")
  || truthy (get query "content") || truthy (get query "date_from")
  || truthy (get query "date_to").

Definition produk_search_given (query : value) : bool :=
  truthy (get query "nama") || truthy (get query "kode")
  || truthy (get query "kategori") || truthy (get query "min_harga")
  || truthy (get query "max_harga") || truthy (get query "supplier")
  || truthy (get query "stok_kosong").

Definition posts_search_filter_of {P : Platform} (query : value) : filter :=
  posts_search_filter (get query "title") (get query "author")
    (get query "content") (get query "date_from") (get query "date_to").

Definition produk_search_filter_of (query : value) : filter :=
  produk_search_filter (get query "nama") (get query "kode")
    (get query "kategori") (get query "min_harga") (get query "max_harga")
    (get query "supplier") (get query "stok_kosong").

Definition produk_list_filter_of (query : value) : filter :=
  produk_list_filter (get query "search") (get query "kategori")
    (get query "min_harga") (get query "max_harga").

(** The [n] first of the matching documents, largest key [k] first. *)
Definition top (n : Z) (k : string) (m : document -> bool)
    (coll : list document) : list document :=
  firstn (Z.to_nat n) (sort_desc k (List.filter m coll)).

(** What an advanced search capped at [n] documents must answer; [echo] is
    the key under which the filter is sent back. *)
Definition search_outcome (c : collection) (h : handler) (f : filter)
    (m : document -> bool) (k : string) (n : Z) (echo : string) (w : world)
  : Prop :=
  status (fst (h w)) = 200
  /\ says (fst (h w)) "data" (ODocs (top n k m (coll_of c (store w))))
  /\ says (fst (h w)) echo (OFilter f)
  /\ trace (snd (h w)) = trace w ++ [OpFind c f k None (of_Z n)]
  /\ store (snd (h w)) = store w.

(** A date parameter that is given but cannot be read as a date. *)
Definition unparseable {P : Platform} (v : value) : Prop :=
  truthy v = true /\ new_Date v = None.

(** The product code a payload asks for, once trimmed. *)
Definition kode_of (data : value) : option string :=
  match get data "kode_produk" with
  | VStr s => Some (trim s)
  | _ => None
  end.

(** The fields a product update writes. *)
Definition written_by_update : list string :=
  ["kode_produk"; "nama_produk"; "kategori"; "harga"; "stok"; "deskripsi";
   "supplier"; "tanggal_diupdate"].

(** What a successful update of the product [o] at clock reading [now] does
    to the world: one document [old] becomes [new], in place; everything
    else stays. *)
Definition update_frame (o : N) (now : Z) (w w' : world) (r : response)
  : Prop :=
  exists old new before after,
    List.find (has_id o) (produk (store w)) = Some old
    /\ produk (store w) = before ++ old :: after
    /\ produk (store w') = before ++ new :: after
    /\ posts (store w') = posts (store w)
    /\ kode_index (store w') = kode_index (store w)
    /\ says r "data" (ODoc new)
    /\ field "_id" new = field "_id" old
    /\ field "tanggal_dibuat" new = field "tanggal_dibuat" old
    /\ field "tanggal_diupdate" new = Some (BDate (Some now))
    /\ (forall k, ~ In k written_by_update -> field k new = field k old).

End Contract.

(* ------------------------------------------------------------------ *)
(** ** Sample requests and worlds *)

Module Examples.
Import Chars Num JS Store Server.

Definition P0 : Platform := Reference.platform.

Definition empty : world :=
  {| store := {| posts := []; produk := []; kode_index := true |};
     trace := [] |}.

Definition pen : value :=
  VObj [("kode_produk", VStr "P1"); ("nama_produk", VStr "Pen");
        ("kategori", VStr "Office"); ("harga", VNum (of_Z 5));
        ("stok", VNum (of_Z 10))].

Definition pen_without_stok : value :=
  VObj [("kode_produk", VStr "P1"); ("nama_produk", VStr "Pen");
        ("kategori", VStr "Office"); ("harga", VNum (of_Z 5))].

Definition pencil : value :=
  VObj [("kode_produk", VStr "P2"); ("nama_produk", VStr "Pencil");
        ("kategori", VStr "Office"); ("harga", VNum (of_Z 3));
        ("stok", VNum (of_Z 7))].

(** The pen under another name, and a payload that would move the pencil to
    the pen's code. *)
Definition marker : value :=
  VObj [("kode_produk", VStr "P1"); ("nama_produk", VStr "Marker");
        ("kategori", VStr "Office"); ("harga", VNum (of_Z 5));
        ("stok", VNum (of_Z 10))].

Definition pencil_as_P1 : value :=
  VObj [("kode_produk", VStr " P1 "); ("nama_produk", VStr "Pencil");
        ("kategori", VStr "Office"); ("harga", VNum (of_Z 3));
        ("stok", VNum (of_Z 7))].

Definition id1 : string := "000000000000000000000001".
Definition id2 : string := "000000000000000000000002".

(** The store after the pen was created at time 1000 under identifier 1,
    then the pencil at time 2000 under identifier 2. *)
Definition with_pen : world :=
  snd (post_produk (P := P0) pen 1000 1000 1 empty).

Definition with_two : world :=
  snd (post_produk (P := P0) pencil 2000 2000 2 with_pen).

Definition pen_doc : document :=
  [("_id", BOid 1); ("kode_produk", BJs (VStr "P1"));
   ("nama_produk", BJs (VStr "Pen")); ("kategori", BJs (VStr "Office"));
   ("harga", BJs (VNum (of_Z 5))); ("stok", BJs (VNum (of_Z 10)));
   ("deskripsi", BJs (VStr "")); ("supplier", BJs (VStr ""));
   ("tanggal_dibuat", BDate (Some 1000));
   ("tanggal_diupdate", BDate (Some 1000)); ("status", BJs (VStr "aktif"))].

Definition pencil_doc : document :=
  [("_id", BOid 2); ("kode_produk", BJs (VStr "P2"));
   ("nama_produk", BJs (VStr "Pencil")); ("kategori", BJs (VStr "Office"));
   ("harga", BJs (VNum (of_Z 3))); ("stok", BJs (VNum (of_Z 7)));
   ("deskripsi", BJs (VStr "")); ("supplier", BJs (VStr ""));
   ("tanggal_dibuat", BDate (Some 2000));
   ("tanggal_diupdate", BDate (Some 2000)); ("status", BJs (VStr "aktif"))].

Definition hello : document :=
  [("_id", BOid 7); ("title", BJs (VStr "Hello"));
   ("content", BJs (VStr "First post")); ("author", BJs (VStr "Ana"));
   ("created_at", BDate (Some 1000)); ("updated_at", BDate (Some 1000))].

Definition with_post : world :=
  {| store := {| posts := [hello]; produk := []; kode_index := true |};
     trace := [] |}.

Definition second_page : list (string * value) :=
  [("page", VStr "2"); ("limit", VStr "1")].

Definition since_abc : list (string * value) := [("date_from", VStr "abc")].

Definition until_abc : list (string * value) := [("date_to", VStr "abc")].

Definition by_title : list (string * value) := [("title", VStr "hello")].

Definition between_4_and_6 : list (string * value) :=
  [("min_harga", VStr "4"); ("max_harga", VStr "6")].

Definition thousand : list (string * value) := [("limit", VStr "1000")].

(** How the store reads the filters of the sample searches. *)
Definition since_abc_matcher (d : document) : bool :=
  range_match (Some (BDate None)) None (field "created_at" d) && true.

Definition by_title_matcher (d : document) : bool :=
  regex_match
    (fun s => Reference.contains
                (map Reference.lower (list_ascii_of_string "hello"))
                (map Reference.lower (list_ascii_of_string s)))
    (field "title" d) && true.

(** Numbers of either sign, in and out of the range of plain rendering. *)
Definition samples : list number :=
  [Fin (3 # 2); of_Z (-5); Fin (1 # 1000000); Fin (1 # 10000000);
   Fin (-15 # 100000000); of_Z (10 ^ 21); of_Z (123 * 10 ^ 19);
   Fin (-1 # 2); of_Z 100; Fin (-12345 # 100); of_Z (-75 * 10 ^ 20);
   of_Z 0; NaN; Inf false; Inf true].

End Examples.

(* ------------------------------------------------------------------ *)
(** ** Start-up, and the remaining routes *)

Module Boot.

(** The delay before the next attempt of [connectWithRetry(retries)], in
    milliseconds: [Math.min(30000, 1000 * Math.pow(2, retries))].  The
    counter starts at 0 and only ever grows by one. *)
Definition retry_delay (retries : Z) : Z := Z.min 30000 (1000 * 2 ^ retries).

(** The seconds announced in the log: [Math.round(delay / 1000)]. *)
Definition announced_seconds (retries : Z) : Z :=
  (2 * retry_delay retries + 1000) / 2000.

(** The delays [connectWithRetry(retries)] goes through when this attempt
    and the following ones fail, [failures] in all: each failure schedules
    [connectWithRetry(retries + 1)] after its delay. *)
Fixpoint waits (failures : nat) (retries : Z) : list Z :=
  match failures with
  | O => []
  | S n => retry_delay retries :: waits n (retries + 1)
  end.

Definition total_wait (failures : nat) : Z :=
  fold_right Z.add 0 (waits failures 0).

End Boot.

Module Service.
Import Chars Num JS Store Server.

Fixpoint remove_field (k : string) (d : document) : document :=
  match d with
  | [] => []
  | (j, v) :: r => if String.eqb j k then remove_field k r
                   else (j, v) :: remove_field k r
  end.

(** The document as the store keeps it: the driver gives it a generated
    identifier when it has none ([_id] absent or [null]), and the identifier
    comes first.  The server refuses an array as identifier. *)
Definition with_id (generated : N) (d : document) : result document :=
  match field "_id" d with
  | None | Some (BJs VNull) | Some (BJs VUndefined) =>
      Ok (("_id", BOid generated) :: remove_field "_id" d)
  | Some (BJs (VArr _)) => Throw BadValue
  | Some v => Ok (("_id", v) :: remove_field "_id" d)
  end.

Section Routes.
Context {P : Platform}.

(** [insertOne(d)] for a document that may lack its identifier; the result
    is the stored document, [insertedId] included. *)
Definition db_insertNew (c : collection) (d : document) (generated : N)
  : M document :=
  writing (OpInsertOne c d) c
    (fun s => rbind (with_id generated d) (fun stored =>
              rbind (insertOne (uniq_of c s) (coll_of c s) stored)
                    (fun l => Ok (stored, l)))).

(** [POST /posts]; [t1] and [t2] are the two clock readings and [generated]
    the identifier the driver has ready. *)
Definition post_post (dataBaru : value) (t1 t2 : Z) (generated : N)
  : handler :=
  try_catch
    (if is_empty_body dataBaru then
       ret (failure 400 "Body request tidak boleh kosong")
     else
       let postBaru :=
         set_field "updated_at" (BDate (Some t2))
           (set_field "created_at" (BDate (Some t1)) (spread dataBaru)) in
       stored <- db_insertNew Posts postBaru generated ;;
       ret (json 201 [success true;
                      message "Post berhasil dibuat";
                      ("data", ODoc stored)]))
    (internal "Gagal membuat post").

Definition endpoints : value :=
  VObj
    [("posts_crud",
      VArr [VStr "GET /posts - Ambil semua posts (dengan search & pagination)";
            VStr "GET /posts/:id - Ambil post berdasarkan ID";
            VStr "GET /posts/search/advanced - Pencarian lanjutan posts";
            VStr "POST /posts - Buat post baru";
            VStr "PUT /posts/:id - Update post";
            VStr "DELETE /posts/:id - Hapus post"]);
     ("produk_crud",
      VArr [VStr "GET /api/produk - Ambil semua produk (dengan search & filter)";
            VStr "GET /api/produk/:id - Ambil produk berdasarkan ID";
            VStr
              "GET /api/produk/search/advanced - Pencarian lanjutan produk";
            VStr "POST /api/produk - Tambah produk baru";
            VStr "PUT /api/produk/:id - Update produk";
            VStr "DELETE /api/produk/:id - Hapus produk"]);
     ("system", VArr [VStr "GET /health - Health check & statistics"])].

(** [GET /health]; [stamp] is [new Date().toISOString()].  The handler runs
    once the database handle is set, so [db ? 'Connected' : 'Disconnected']
    reads ['Connected']. *)
Definition health (stamp : string) : handler :=
  try_catch
    (postsCount <- db_countDocuments Posts [] ;;
     produkCount <- db_countDocuments Produk [] ;;
     ret (json 200
            [("status", OJs (VStr "OK"));
             ("timestamp", OJs (VStr stamp));
             ("database", OJs (VStr "Connected"));
             ("statistics",
              OJs (VObj [("total_posts", VNum (of_Z postsCount));
                         ("total_produk", VNum (of_Z produkCount))]));
             ("endpoints", OJs endpoints)]))
    (fun err =>
       json 500 [("status", OJs (VStr "ERROR"));
                 ("timestamp", OJs (VStr stamp));
                 ("database", OJs (VStr "Error"));
                 ("error", OErr err)]).

(** The handler of last resort, for a request no route matches. *)
Definition not_found (method path : string) : response :=
  failure 404
    ("Endpoint " ++ method ++ " " ++ path ++ " tidak ditemukan")%string.

End Routes.
End Service.

(** *** Words for what the handlers keep and never do *)

Module Behaviour.
Import Chars Num JS Store Server Contract.

(** The computation leaves the aspect [f] of the database as it was,
    whatever it returns or throws. *)
Definition preserves {X A : Type} (f : db -> X) (m : M A) : Prop :=
  forall w, f (store (snd (m w))) = f (store w).

(** Every value the computation returns satisfies [Q]. *)
Definition always {A : Type} (Q : A -> Prop) (m : M A) : Prop :=
  forall w, match fst (m w) with Ok a => Q a | Throw _ => True end.

(** The [success] flag says whether the status is a 2xx one, and the status
    is one of the six the handlers use. *)
Definition flagged (r : response) : Prop :=
  says r "success" (OJs (VBool (status r <? 300)))
  /\ In (status r) [200; 201; 400; 404; 409; 500].

Definition well_flagged (h : handler) : Prop :=
  forall w, flagged (fst (h w)).

Definition other (c : collection) : collection :=
  match c with Posts => Produk | Produk => Posts end.

(** The handler works on the collection [c] only: the other collection and
    the index stay as they were. *)
Definition confined (c : collection) (h : handler) : Prop :=
  forall w,
    coll_of (other c) (store (snd (h w))) = coll_of (other c) (store w)
    /\ kode_index (store (snd (h w))) = kode_index (store w).

(** The handler reads only. *)
Definition read_only (h : handler) : Prop :=
  forall w, store (snd (h w)) = store w.

(** The document a product create writes, from the fields read off the
    payload. *)
Definition created_produk (n : N) (fs : document) (t1 t2 : Z) : document :=
  ("_id", BOid n)
  :: fs ++ [("tanggal_dibuat", BDate (Some t1));
            ("tanggal_diupdate", BDate (Some t2));
            ("status", BJs (VStr "aktif"))].

(** The document a product update leaves. *)
Definition updated_produk (fs : document) (now : Z) (old : document)
  : document :=
  apply_set (fs ++ [("tanggal_diupdate", BDate (Some now))]) old.

(** The post a create hands to the store, and the post an update leaves. *)
Definition stamped_post (body : value) (t1 t2 : Z) : document :=
  set_field "updated_at" (BDate (Some t2))
    (set_field "created_at" (BDate (Some t1)) (spread body)).

Definition updated_post (body : value) (now : Z) (old : document)
  : document :=
  apply_set (set_field "updated_at" (BDate (Some now)) (spread body)) old.

(** What a look-up by the identifier [o] on collection [c] must answer:
    the first document under that identifier, or 404; one query is issued
    and the store keeps its state. *)
Definition lookup_outcome (c : collection) (h : handler) (o : N) (w : world)
  : Prop :=
  match List.find (has_id o) (coll_of c (store w)) with
  | None =>
      status (fst (h w)) = 404
      /\ says (fst (h w)) "success" (OJs (VBool false))
  | Some d =>
      status (fst (h w)) = 200
      /\ says (fst (h w)) "success" (OJs (VBool true))
      /\ says (fst (h w)) "data" (ODoc d)
  end
  /\ trace (snd (h w)) = trace w ++ [OpFindOne c (by_id o)]
  /\ store (snd (h w)) = store w.

(** The answer [r] shows the document [d], which carries the identifier
    [o]. *)
Definition shows (r : response) (o : N) (d : document) : Prop :=
  says r "data" (ODoc d) /\ field "_id" d = Some (BOid o).

(** No two documents of the collection have the same [_id] field. *)
Definition ids_unique (coll : list document) : Prop :=
  NoDup (map (field "_id") coll).

(** A product document as the validator's rules leave it: a code and a
    category that are not empty, a name of 3 characters at least, a price
    that is positive and a stock that is not negative, either of which may
    be [NaN]. *)
Definition sound_produk (d : document) : Prop :=
  exists kode nama kategori harga stok,
    field "kode_produk" d = Some (BJs (VStr kode)) /\ kode <> ""
    /\ field "nama_produk" d = Some (BJs (VStr nama))
    /\ 3 <= str_length nama
    /\ field "kategori" d = Some (BJs (VStr kategori)) /\ kategori <> ""
    /\ field "harga" d = Some (BJs (VNum harga))
    /\ (harga = NaN \/ lt (of_Z 0) harga = true)
    /\ field "stok" d = Some (BJs (VNum stok))
    /\ (stok = NaN \/ le (of_Z 0) stok = true).


(** The keys of a product document, in the order a create writes them. *)
Definition produk_keys : list string :=
  ["_id"; "kode_produk"; "nama_produk"; "kategori"; "harga"; "stok";
   "deskripsi"; "supplier"; "tanggal_dibuat"; "tanggal_diupdate"; "status"].

(** The price of the document is a number within the bounds that are given
    (a bound is given when its parameter is truthy); [NaN] is left to the
    store's order, which puts it below every number. *)
Definition within_price (lo hi : value) (d : document) : Prop :=
  exists x,
    field "harga" d = Some (BJs (VNum x))
    /\ (truthy lo = true ->
        parseFloat lo = NaN \/ le (parseFloat lo) x = true)
    /\ (truthy hi = true -> x = NaN \/ le x (parseFloat hi) = true).

(** The stock of the document is a number that is zero or less (or [NaN],
    as above). *)
Definition out_of_stock (d : document) : Prop :=
  exists x,
    field "stok" d = Some (BJs (VNum x))
    /\ (x = NaN \/ le x (of_Z 0) = true).

(** The pagination block in whole numbers, for page [p] of size [l] over
    [n] documents: [has_next] tells whether documents remain beyond the
    page. *)
Definition page_block (p l n : Z) : out :=
  OJs (VObj [("current_page", VNum (of_Z p));
             ("total_pages", VNum (of_Z ((n + l - 1) / l)));
             ("total_data", VNum (of_Z n));
             ("per_page", VNum (of_Z l));
             ("has_next", VBool (p * l <? n));
             ("has_prev", VBool (1 <? p))]).

(** The number of documents on page [p] of size [l] of [n] documents. *)
Definition page_size (p l n : Z) : Z := Z.min l (Z.max 0 (n - (p - 1) * l)).

(** The stored document does not already carry the clock reading [now] as
    its update stamp. *)
Definition stamp_differs (old : document) (now : Z) : Prop :=
  match field "tanggal_diupdate" old with
  | Some (BDate t) => date_ms t <> now
  | _ => True
  end.

(** The numbers the health check reports. *)
Definition statistics (s : db) : out :=
  OJs (VObj [("total_posts",
              VNum (of_Z (Z.of_nat (List.length (posts s)))));
             ("total_produk",
              VNum (of_Z (Z.of_nat (List.length (produk s)))))]).

(** [a] comes strictly before [b] when sorting by the field [k], largest
    first: the key of [a] is above the key of [b], and they do not tie. *)
Definition strictly_newer (k : string) (a b : document) : Prop :=
  key_le (field k b) (field k a) = true
  /\ key_le (field k a) (field k b) = false.

Fixpoint has_dot (s : string) : bool :=
  match s with
  | EmptyString => false
  | String c r => Ascii.eqb c "."%char || has_dot r
  end.

(** A name the store takes as a top-level field name in a [$set]: not
    empty, not beginning with a dollar sign, without a dot. *)
Definition top_level_name (k : string) : bool :=
  match k with
  | EmptyString => false
  | String c _ => negb (Ascii.eqb c "$"%char) && negb (has_dot k)
  end.

(** Every property of the body has a top-level name. *)
Definition top_level_body (body : value) : Prop :=
  forallb top_level_name (map fst (own_entries body)) = true.

(** The document is filed under an object identifier. *)
Definition identified (d : document) : Prop :=
  exists o, field "_id" d = Some (BOid o).

(** The product collection is in order: every document is identified and
    sound, and no two share an identifier or a code. *)
Definition catalogue_ok (coll : list document) : Prop :=
  Forall identified coll
  /\ Forall sound_produk coll
  /\ NoDup (map (field "_id") coll)
  /\ NoDup (map (field "kode_produk") coll).

Section Criteria.
Context {P : Platform}.

(** The field [k] of the document matches the pattern given as parameter
    [v]: it is a string the compiled pattern accepts, or an array holding
    one. *)
Definition text_matches (v : value) (k : string) (d : document) : Prop :=
  exists p m,
    v = VStr p /\ regex_compile p = Some m
    /\ regex_match m (field k d) = true.

(** [created_at] is a date within the bounds that are given, each read
    with [new Date]. *)
Definition within_dates (from to : value) (d : document) : Prop :=
  exists t,
    field "created_at" d = Some (BDate t)
    /\ (truthy from = true -> date_ms (new_Date from) <= date_ms t)
    /\ (truthy to = true -> date_ms t <= date_ms (new_Date to)).

End Criteria.

Section Routes.
Context {P : Platform}.

(** A request to one of the routes; the clock readings, the identifier the
    driver has ready and the time stamp come with it. *)
Inductive request :=
| GetPosts (query : value)
| GetPost (id : string)
| SearchPosts (query : value)
| PostPost (body : value) (t1 t2 : Z) (generated : N)
| PutPost (id : string) (body : value) (now : Z)
| DeletePost (id : string)
| GetProdukList (query : value)
| GetProduk (id : string)
| SearchProduk (query : value)
| PostProduk (data : value) (t1 t2 : Z) (generated : N)
| PutProduk (id : string) (data : value) (now : Z)
| DeleteProduk (id : string)
| Health (stamp : string).

Definition serve (q : request) : handler :=
  match q with
  | GetPosts query => get_posts query
  | GetPost id => get_post id
  | SearchPosts query => search_posts query
  | PostPost body t1 t2 generated => Service.post_post body t1 t2 generated
  | PutPost id body now => put_post id body now
  | DeletePost id => delete_post id
  | GetProdukList query => get_produk_list query
  | GetProduk id => get_produk id
  | SearchProduk query => search_produk query
  | PostProduk data t1 t2 generated => post_produk data t1 t2 generated
  | PutProduk id data now => put_produk id data now
  | DeleteProduk id => delete_produk id
  | Health stamp => Service.health stamp
  end.

(** The world after the requests were served one after the other. *)
Definition serve_all (qs : list request) (w : world) : world :=
  fold_left (fun w q => snd (serve q w)) qs w.

(** The four routes on documents, for either collection. *)
Definition create_in (c : collection) (data : value) (t1 t2 : Z)
    (generated : N) : handler :=
  match c with
  | Posts => Service.post_post data t1 t2 generated
  | Produk => post_produk data t1 t2 generated
  end.

Definition fetch_from (c : collection) (id : string) : handler :=
  match c with Posts => get_post id | Produk => get_produk id end.

Definition update_in (c : collection) (id : string) (data : value)
    (now : Z) : handler :=
  match c with
  | Posts => put_post id data now
  | Produk => put_produk id data now
  end.

Definition delete_from (c : collection) (id : string) : handler :=
  match c with Posts => delete_post id | Produk => delete_produk id end.

(** The list route of either collection, with its filter and sort key. *)
Definition list_from (c : collection) (query : value) : handler :=
  match c with
  | Posts => get_posts query
  | Produk => get_produk_list query
  end.

Definition list_filter (c : collection) (query : value) : filter :=
  match c with
  | Posts => posts_list_filter (get query "search")
  | Produk => produk_list_filter_of query
  end.

Definition sort_key (c : collection) : string :=
  match c with Posts => "_id" | Produk => "tanggal_dibuat" end.

(** The matching documents of the collection, as the list route orders
    them. *)
Definition listing (c : collection) (m : document -> bool) (w : world)
  : list document :=
  sort_desc (sort_key c) (List.filter m (coll_of c (store w))).

(** [s] is the matching documents of the collection in strictly decreasing
    order of the sort key; there is such an arrangement only when no two of
    them tie, and then the store can return no other. *)
Definition strict_listing (c : collection) (m : document -> bool)
    (w : world) (s : list document) : Prop :=
  Permutation s (List.filter m (coll_of c (store w)))
  /\ StronglySorted (strictly_newer (sort_key c)) s.

(** A body the update route goes on with: not empty for a post, passing the
    validator for a product. *)
Definition acceptable (c : collection) (data : value) : Prop :=
  match c with
  | Posts => is_empty_body data = false
  | Produk => Validator.validateProduk data = Ok []
  end.

End Routes.

End Behaviour.

Module MoreExamples.
Import Chars Num JS Store Server Service Contract Behaviour Examples.

(** A pen whose description is a number, and one with a field the routes do
    not know. *)
Definition pen_described_by_number : value :=
  VObj [("kode_produk", VStr "P1"); ("nama_produk", VStr "Pen");
        ("kategori", VStr "Office"); ("harga", VNum (of_Z 5));
        ("stok", VNum (of_Z 10)); ("deskripsi", VNum (of_Z 7))].

Definition pen_with_extras : value :=
  VObj [("kode_produk", VStr " P1 "); ("nama_produk", VStr "Pen");
        ("kategori", VStr "Office"); ("harga", VStr "5");
        ("stok", VNum (of_Z 10)); ("status", VStr "nonaktif");
        ("admin", VBool true)].

(** Four product requests in a row. *)
Definition busy_day : list request :=
  [PostProduk pen 1000 1000 1; PostProduk pencil 2000 2000 2;
   PutProduk id1 marker 5000; PostProduk pen 6000 6000 3;
   DeleteProduk id2].

Definition no_parameters : list (string * value) := [("sort", VStr "asc")].

Definition priced_4_to_6 : list (string * value) :=
  [("min_harga", VStr "4"); ("max_harga", VStr "6")].

Definition sold_out : list (string * value) := [("stok_kosong", VStr "true")].

Definition sold_out_yes : list (string * value) := [("stok_kosong", VStr "1")].

(** The pen and the pencil, and a sold-out eraser. *)
Definition eraser_doc : document :=
  [("_id", BOid 3); ("kode_produk", BJs (VStr "P3"));
   ("nama_produk", BJs (VStr "Eraser")); ("kategori", BJs (VStr "Office"));
   ("harga", BJs (VNum (of_Z 1))); ("stok", BJs (VNum (of_Z 0)));
   ("deskripsi", BJs (VStr "")); ("supplier", BJs (VStr ""));
   ("tanggal_dibuat", BDate (Some 3000));
   ("tanggal_diupdate", BDate (Some 3000)); ("status", BJs (VStr "aktif"))].

Definition with_three : world :=
  {| store := {| posts := []; produk := [pen_doc; pencil_doc; eraser_doc];
                 kode_index := true |};
     trace := [] |}.

Definition whole_list : list (string * value) := [("limit", VStr "0")].

Definition page_zero : list (string * value) := [("page", VStr "0")].

Definition first_of_two : list (string * value) :=
  [("page", VStr "1"); ("limit", VStr "2")].

Definition second_of_two : list (string * value) :=
  [("page", VStr "2"); ("limit", VStr "2")].

Definition id7 : string := "000000000000000000000007".

Definition nothing : value := VObj [].

Definition retitle : value := VObj [("title", VStr "Hi")].

Definition news : value :=
  VObj [("title", VStr "News"); ("created_at", VStr "yesterday")].

Definition pen_tagged : value :=
  VObj [("admin", VBool true); ("kode_produk", VStr "P1");
        ("nama_produk", VStr "Pen"); ("kategori", VStr "Office");
        ("harga", VNum (of_Z 5)); ("stok", VNum (of_Z 10));
        ("status", VStr "nonaktif")].

Definition first_page : list (string * value) := [("page", VStr "1")].

Definition hello_from_1970 : list (string * value) :=
  [("title", VStr "hello"); ("date_from", VStr "1970-01-01")].

End MoreExamples.
(* ------------------------------------------------------------------ *)
(** ** Facts about numbers *)

Module NumFacts.
Import Num Contract.

Lemma Qlt_bool_iff (p q : Q) : Qlt_bool p q = true <-> (p < q)%Q.
Proof.
  unfold Qlt_bool. rewrite negb_true_iff.
  split; intro H.
  - apply Qnot_le_lt. intro L. apply Qle_bool_iff in L. congruence.
  - destruct (Qle_bool q p) eqn:E; [|reflexivity].
    apply Qle_bool_iff in E. exfalso. exact (Qlt_not_le _ _ H E).
Qed.

Lemma lt_of_Z (a b : Z) : lt (of_Z a) (of_Z b) = (a <? b).
Proof.
  unfold lt, of_Z, Qlt_bool, Qle_bool, inject_Z. simpl.
  rewrite !Z.mul_1_r. destruct (Z.ltb_spec a b), (Z.leb_spec b a); simpl; lia.
Qed.

Lemma le_of_Z (a b : Z) : le (of_Z a) (of_Z b) = (a <=? b).
Proof.
  unfold le, of_Z, Qle_bool, inject_Z. simpl. now rewrite !Z.mul_1_r.
Qed.

Lemma leading_digit_fuel_lower (fuel : nat) :
  forall i, 1 <= i -> 1 <= leading_digit_fuel fuel i.
Proof.
  induction fuel as [|f IH]; intros i Hi; simpl; [exact Hi|].
  destruct (Z.ltb_spec i 10); [exact Hi|].
  apply IH. apply Z.div_le_lower_bound; lia.
Qed.

Lemma first_sig_fuel_nonneg (fuel : nat) :
  forall a b, 0 <= a -> 0 < b -> 0 <= first_sig_fuel fuel a b.
Proof.
  induction fuel as [|f IH]; intros a b Ha Hb; simpl; [lia|].
  destruct (Z.leb_spec b (a * 10)).
  - apply Z.div_pos; lia.
  - apply IH; lia.
Qed.

(** [parseInt] never turns a non-negative number into a negative one. *)
Lemma parseInt_number_nonneg (q : Q) :
  (0 <= q)%Q -> lt (parseInt_number (Fin q)) (of_Z 0) = false.
Proof.
  destruct q as [n d]. intro Hn. unfold Qle in Hn. simpl in Hn.
  rewrite Z.mul_1_r in Hn.
  unfold parseInt_number. simpl Qnum. simpl Qden.
  destruct (Z.eqb_spec (Z.abs n) 0); [now rewrite lt_of_Z|].
  assert (Hs : Z.sgn n = 1) by (apply Z.sgn_pos; lia).
  rewrite Hs, !Z.mul_1_l.
  destruct (ten_pow_21 * Z.pos d <=? Z.abs n) eqn:Big.
  - rewrite lt_of_Z. apply Z.ltb_ge.
    apply Z.leb_le in Big. unfold ten_pow_21 in Big.
    pose proof (leading_digit_fuel_lower
                  (S (Z.to_nat (Z.log2 (Z.abs n / Z.pos d))))
                  (Z.abs n / Z.pos d)) as L.
    unfold leading_digit.
    assert (1 <= Z.abs n / Z.pos d)
      by (apply Z.div_le_lower_bound; lia).
    lia.
  - destruct (Z.abs n * ten_pow_6 <? Z.pos d).
    + rewrite lt_of_Z. apply Z.ltb_ge. unfold first_sig.
      apply first_sig_fuel_nonneg; lia.
    + rewrite lt_of_Z. apply Z.ltb_ge. unfold Qtrunc. simpl.
      apply Z.quot_pos; lia.
Qed.

(** A number at most [-1] keeps a negative integer part. *)
Lemma parseInt_number_neg (q : Q) :
  (q <= inject_Z (-1))%Q -> lt (parseInt_number (Fin q)) (of_Z 0) = true.
Proof.
  destruct q as [n d]. intro Hn. unfold Qle in Hn. simpl in Hn.
  unfold parseInt_number. simpl Qnum. simpl Qden.
  assert (Hd : n <= - Z.pos d) by lia.
  destruct (Z.eqb_spec (Z.abs n) 0); [lia|].
  assert (Hs : Z.sgn n = -1) by (apply Z.sgn_neg; lia).
  rewrite Hs.
  assert (Hq : 1 <= Z.abs n / Z.pos d)
    by (apply Z.div_le_lower_bound; lia).
  destruct (ten_pow_21 * Z.pos d <=? Z.abs n) eqn:Big.
  - rewrite lt_of_Z. apply Z.ltb_lt.
    pose proof (leading_digit_fuel_lower
                  (S (Z.to_nat (Z.log2 (Z.abs n / Z.pos d))))
                  (Z.abs n / Z.pos d) Hq) as L.
    unfold leading_digit. lia.
  - destruct (Z.ltb_spec (Z.abs n * ten_pow_6) (Z.pos d)) as [T|T].
    + unfold ten_pow_6 in T. lia.
    + rewrite lt_of_Z. apply Z.ltb_lt. unfold Qtrunc. simpl.
      replace n with (- Z.abs n) by lia.
      rewrite Z.quot_opp_l by lia.
      rewrite Z.quot_div_nonneg by lia. lia.
Qed.

Lemma Qred_inject_Z (z : Z) : Qred (inject_Z z) = inject_Z z.
Proof. apply Qred_identity. simpl. apply Z.gcd_1_r. Qed.

Lemma Qred_of_integer (q : Q) (z : Z) :
  (q == inject_Z z)%Q -> Qred q = inject_Z z.
Proof. intro H. rewrite (Qred_complete _ _ H). apply Qred_inject_Z. Qed.

Lemma sub_of_Z (a b : Z) : sub (of_Z a) (of_Z b) = of_Z (a - b).
Proof.
  unfold sub, of_Z. f_equal. apply Qred_of_integer.
  unfold Qminus, Z.sub. now rewrite inject_Z_plus, inject_Z_opp.
Qed.

Lemma mul_of_Z (a b : Z) : mul (of_Z a) (of_Z b) = of_Z (a * b).
Proof.
  unfold mul, of_Z. f_equal. apply Qred_of_integer.
  now rewrite inject_Z_mult.
Qed.

(** [Math.ceil(n / l)] on integers is the integer ceiling of the quotient. *)
Lemma ceil_div_of_Z (n l : Z) :
  0 < l -> ceil (div (of_Z n) (of_Z l)) = of_Z (ceil_div n l).
Proof.
  intro Hl. unfold div, of_Z.
  assert (Hz : is_zero (inject_Z l) = false).
  { unfold is_zero, Qeq_bool, inject_Z. simpl. apply Z.eqb_neq. lia. }
  rewrite Hz. unfold ceil, of_Z. do 2 f_equal.
  rewrite (Qceiling_comp _ _ (Qred_correct _)).
  unfold ceil_div, Qceiling, Qfloor, Qdiv, Qmult, Qinv, Qopp, inject_Z.
  destruct l as [|p|p]; try lia. simpl.
  now rewrite Z.mul_1_r.
Qed.

Lemma ceil_div_bounds (n l : Z) :
  0 < l -> (ceil_div n l - 1) * l < n <= ceil_div n l * l.
Proof.
  intro Hl. unfold ceil_div.
  pose proof (Z.div_mod (- n) l ltac:(lia)) as D.
  pose proof (Z.mod_pos_bound (- n) l Hl) as B. nia.
Qed.

Lemma Qle_bool_total (p q : Q) : Qle_bool p q = true \/ Qle_bool q p = true.
Proof.
  destruct (Qlt_le_dec q p) as [H|H].
  - right. apply Qle_bool_iff. now apply Qlt_le_weak.
  - left. now apply Qle_bool_iff.
Qed.

End NumFacts.

(* ------------------------------------------------------------------ *)
(** ** The coercions on sample inputs *)

Module JSChecks.
Import Chars Num JS Store Examples.

Example trim_strips_both_ends : trim "  ab c  " = "ab c".
Proof. reflexivity. Qed.

Example parseInt_of_strings :
  map (fun s => parseInt (VStr s))
      ["12"; " -7px"; "0x1F"; "abc"; ""; "1e3"; "0x"; "1.9"]
  = [of_Z 12; of_Z (-7); of_Z 31; NaN; NaN; of_Z 1; NaN; of_Z 1].
Proof. reflexivity. Qed.

Example parseFloat_of_strings :
  map (fun s => parseFloat (VStr s))
      ["12"; " -7.5px"; "0x1F"; "abc"; ".5"; "."; "1.e2"; "1e"; "-Infinityx"]
  = [of_Z 12; Fin (-15 # 2); of_Z 0; NaN; Fin (1 # 2); NaN; of_Z 100;
     of_Z 1; Inf true].
Proof. reflexivity. Qed.

Example Number_of_strings :
  map (fun s => ToNumber (VStr s))
      ["12"; " -7.5 "; "0x1F"; "abc"; ""; "1e3"; "1e"; "0b101"; "-0x10";
       "12px"]
  = [of_Z 12; Fin (-15 # 2); of_Z 31; NaN; of_Z 0; of_Z 1000; NaN; of_Z 5;
     NaN; NaN].
Proof. reflexivity. Qed.

Example rendering_of_numbers :
  map Number_toString samples
  = ["1.5"; "-5"; "0.000001"; "1e-7"; "-1.5e-7"; "1e+21"; "1.23e+21";
     "-0.5"; "100"; "-123.45"; "-7.5e+21"; "0"; "NaN"; "Infinity";
     "-Infinity"].
Proof. reflexivity. Qed.

(** On a number, [parseInt] and [parseFloat] are what reading the number's
    rendering gives. *)
Example parseInt_reads_the_rendering :
  map (fun n => parseInt_chars (list_ascii_of_string (Number_toString n)))
      samples
  = map (fun n => parseInt (VNum n)) samples.
Proof. reflexivity. Qed.

Example parseFloat_reads_the_rendering :
  forallb (fun n =>
             num_same
               (parseFloat_chars (list_ascii_of_string (Number_toString n)))
               (parseFloat (VNum n)))
          samples = true.
Proof. reflexivity. Qed.

Example isNaN_of_values :
  map isNaN [VArr []; VArr [VNum (of_Z 5)]; VObj []; VNull; VUndefined;
             VStr "12abc"; VStr ""; VBool true]
  = [false; false; true; false; true; true; false; false].
Proof. reflexivity. Qed.

End JSChecks.

(* ------------------------------------------------------------------ *)
(** ** Facts about the validator *)

Module ValidatorFacts.
Import Chars Num JS Validator Rules NumFacts.

(** One text rule: the condition of the [if] either throws (a truthy field
    that is not a string) or is the rule's verdict. *)
Lemma text_condition (v : value) (test : string -> bool) :
  test (trim "") = true ->
  (if negb (truthy v) then Ok true
   else rbind (call_trim v) (fun t => Ok (test t)))
  = if text_ok v
    then Ok (match v with VStr s => test (trim s) | _ => true end)
    else Throw TypeError.
Proof.
  intro Hempty. unfold text_ok.
  destruct v as [| |b|n|s|items|props]; simpl; try reflexivity.
  - now destruct b.
  - destruct n as [| |q]; simpl; try reflexivity. now destruct (is_zero q).
  - destruct s; simpl; [now rewrite Hempty | reflexivity].
Qed.

Lemma push_keep (l : list string) (b : bool) (m : string) :
  (if b then push l m else l) = l ++ keep b m.
Proof. destruct b; simpl; [reflexivity | now rewrite app_nil_r]. Qed.

(** The validator is a total function of the payload: it throws exactly on
    the payloads that are not well typed, and otherwise returns the messages
    of the violated rules, each judged on its own, in rule order. *)
Lemma validateProduk_eq (data : value) :
  validateProduk data
  = if well_typed data then Ok (rule_errors data) else Throw TypeError.
Proof.
  unfold validateProduk, well_typed, prop.
  destruct (nullish data); [reflexivity|]. cbn [rbind negb andb].
  rewrite (text_condition (get data "kode_produk")
             (fun t => String.eqb t "")) by reflexivity.
  destruct (text_ok (get data "kode_produk")); [|reflexivity].
  cbn [rbind andb].
  rewrite (text_condition (get data "nama_produk")
             (fun t => str_length t <? 3)) by reflexivity.
  destruct (text_ok (get data "nama_produk")); [|reflexivity].
  cbn [rbind andb].
  rewrite (text_condition (get data "kategori")
             (fun t => String.eqb t "")) by reflexivity.
  destruct (text_ok (get data "kategori")); [|reflexivity].
  cbn [rbind]. f_equal.
  rewrite !push_keep. unfold rule_errors, blank, short, harga_rejected,
    stok_rejected. cbn [app]. now rewrite <- !app_assoc.
Qed.

Lemma in_rule_errors_nama (data : value) :
  In msg_nama (rule_errors data) <-> short (get data "nama_produk") = true.
Proof.
  unfold rule_errors, keep.
  destruct (blank (get data "kode_produk")),
           (short (get data "nama_produk")),
           (blank (get data "kategori")),
           (harga_rejected (get data "harga")),
           (stok_rejected (get data "stok")); cbn;
    unfold msg_kode, msg_nama, msg_kategori, msg_harga, msg_stok;
    split; intro H; try reflexivity; try discriminate;
    repeat (destruct H as [H|H]; try discriminate H); tauto.
Qed.

Lemma in_rule_errors_stok (data : value) :
  In msg_stok (rule_errors data) <-> stok_rejected (get data "stok") = true.
Proof.
  unfold rule_errors, keep.
  destruct (blank (get data "kode_produk")),
           (short (get data "nama_produk")),
           (blank (get data "kategori")),
           (harga_rejected (get data "harga")),
           (stok_rejected (get data "stok")); cbn;
    unfold msg_kode, msg_nama, msg_kategori, msg_harga, msg_stok;
    split; intro H; try reflexivity; try discriminate;
    repeat (destruct H as [H|H]; try discriminate H); tauto.
Qed.

Lemma rule_errors_nil (data : value) :
  rule_errors data = []
  <-> blank (get data "kode_produk") = false
      /\ short (get data "nama_produk") = false
      /\ blank (get data "kategori") = false
      /\ harga_rejected (get data "harga") = false
      /\ stok_rejected (get data "stok") = false.
Proof.
  unfold rule_errors, keep.
  destruct (blank (get data "kode_produk")),
           (short (get data "nama_produk")),
           (blank (get data "kategori")),
           (harga_rejected (get data "harga")),
           (stok_rejected (get data "stok")); cbn;
    split; intro H; try discriminate; try tauto;
    destruct H as (H1 & H2 & H3 & H4 & H5); discriminate.
Qed.

Lemma nonblank_text_ok (v : value) :
  nonblank_text v -> text_ok v = true /\ blank v = false.
Proof.
  intros (s & -> & Hs). unfold text_ok, blank. split.
  - apply orb_true_r.
  - now apply String.eqb_neq.
Qed.

Lemma text_of_3_ok (v : value) :
  text_of_3 v -> text_ok v = true /\ short v = false.
Proof.
  intros (s & -> & Hs). unfold text_ok, short. split.
  - apply orb_true_r.
  - apply Z.ltb_ge. exact Hs.
Qed.

Lemma positive_number_accepted (v : value) :
  positive_number v -> harga_rejected v = false.
Proof.
  intros (n & -> & Hn). unfold harga_rejected. cbn [parseFloat].
  destruct n as [| [|] |q]; try discriminate Hn; try reflexivity.
  cbn [truthy isNaN ToNumber is_nan negb orb].
  cbn [lt of_Z] in Hn. apply Qlt_bool_iff in Hn.
  assert (Hz : is_zero q = false).
  { unfold is_zero. destruct (Qeq_bool q 0) eqn:E; [|reflexivity].
    apply Qeq_bool_iff in E. rewrite E in Hn. now apply Qlt_irrefl in Hn. }
  rewrite Hz. cbn [negb orb le of_Z].
  destruct (Qle_bool q (inject_Z 0)) eqn:E; [|reflexivity].
  apply Qle_bool_iff in E. exfalso. exact (Qlt_not_le _ _ Hn E).
Qed.

Lemma nonneg_number_accepted (v : value) :
  nonneg_number v -> stok_rejected v = false.
Proof.
  intros (q & -> & Hq). unfold stok_rejected.
  cbn [is_undefined isNaN ToNumber is_nan orb parseInt].
  now apply parseInt_number_nonneg.
Qed.

Lemma stok_unacceptable_rejected (v : value) :
  stok_unacceptable v -> stok_rejected v = true.
Proof.
  unfold stok_rejected. intros [-> | [H | (q & -> & Hq)]].
  - reflexivity.
  - rewrite H. apply orb_true_iff. left. apply orb_true_r.
  - cbn [is_undefined isNaN ToNumber is_nan orb parseInt].
    now apply parseInt_number_neg.
Qed.

End ValidatorFacts.

(* ------------------------------------------------------------------ *)
(** ** Facts about the store *)

Module StoreFacts.
Import Chars Num JS Store Server Contract NumFacts.

Lemma as_integer_of_Z (z : Z) : as_integer (of_Z z) = Some z.
Proof.
  unfold as_integer, of_Z, Qfloor, inject_Z. rewrite Z.div_1_r.
  now rewrite Qeq_bool_refl.
Qed.

Lemma num_total_le_total (a b : number) :
  num_total_le a b = true \/ num_total_le b a = true.
Proof.
  destruct a as [|[|]|p], b as [|[|]|q]; cbn; auto.
  apply Qle_bool_total.
Qed.

(** The sort order compares any two keys. *)
Lemma key_le_total (x y : option bson) :
  key_le x y = true \/ key_le y x = true.
Proof.
  unfold key_le.
  destruct (Z.ltb_spec (rank x) (rank y)); [now left|].
  destruct (Z.ltb_spec (rank y) (rank x)); [now right|].
  destruct x as [[[| |a|a|a|a|a]|a|a]|], y as [[[| |b|b|b|b|b]|b|b]|];
    cbn in *; try lia; auto.
  - destruct a, b; auto.
  - apply num_total_le_total.
  - apply String.leb_total.
  - destruct (N.leb_spec a b); [now left|]. right. apply N.leb_le. lia.
Qed.

Lemma insert_desc_perm (k : string) (d : document) (l : list document) :
  Permutation (insert_desc k d l) (d :: l).
Proof.
  induction l as [|e r IH]; simpl; [apply Permutation_refl|].
  destruct (key_le (field k e) (field k d)); [apply Permutation_refl|].
  apply perm_trans with (e :: d :: r); [now apply perm_skip | apply perm_swap].
Qed.

Lemma sort_desc_perm (k : string) (l : list document) :
  Permutation (sort_desc k l) l.
Proof.
  induction l as [|d l IH]; simpl; [apply perm_nil|].
  apply perm_trans with (d :: sort_desc k l);
    [apply insert_desc_perm | now apply perm_skip].
Qed.

Lemma insert_desc_hd (k : string) (a d : document) (l : list document) :
  HdRel (newer_first k) a l -> newer_first k a d ->
  HdRel (newer_first k) a (insert_desc k d l).
Proof.
  intros Hl Hd. destruct l as [|e r]; simpl; [now constructor|].
  destruct (key_le (field k e) (field k d)); constructor;
    [exact Hd | now inversion Hl].
Qed.

Lemma insert_desc_sorted (k : string) (d : document) (l : list document) :
  Sorted (newer_first k) l -> Sorted (newer_first k) (insert_desc k d l).
Proof.
  induction l as [|e r IH]; intro S; simpl.
  - repeat constructor.
  - destruct (key_le (field k e) (field k d)) eqn:E.
    + constructor; [exact S | constructor; exact E].
    + inversion S as [|? ? Sr Hr]; subst. constructor; [now apply IH|].
      apply insert_desc_hd; [exact Hr|]. unfold newer_first.
      destruct (key_le_total (field k e) (field k d)); congruence.
Qed.

(** The result of [.sort({k: -1})] has the documents it was given, largest
    key first. *)
Lemma sort_desc_sorted (k : string) (l : list document) :
  Sorted (newer_first k) (sort_desc k l).
Proof.
  induction l as [|d l IH]; simpl; [constructor|].
  now apply insert_desc_sorted.
Qed.

Lemma Sorted_firstn {A} (R : A -> A -> Prop) (n : nat) (l : list A) :
  Sorted R l -> Sorted R (firstn n l).
Proof.
  revert l. induction n as [|n IH]; intros l S; simpl; [constructor|].
  destruct l as [|a l]; [constructor|].
  inversion S as [|? ? Sl Hl]; subst. constructor; [now apply IH|].
  destruct n; simpl; [constructor|].
  destruct l; [constructor|]. inversion Hl; subst. now constructor.
Qed.

Lemma Sorted_skipn {A} (R : A -> A -> Prop) (n : nat) (l : list A) :
  Sorted R l -> Sorted R (skipn n l).
Proof.
  revert l. induction n as [|n IH]; intros l S; simpl; [exact S|].
  destruct l as [|a l]; [constructor|].
  inversion S; subst. now apply IH.
Qed.

Lemma find_pointwise {A} (f g : A -> bool) (l : list A) :
  (forall x, f x = g x) -> List.find f l = List.find g l.
Proof.
  intro E. induction l as [|x l IH]; simpl; [reflexivity|].
  now rewrite E, IH.
Qed.

Lemma remove_first_pointwise (f g : document -> bool) (l : list document) :
  (forall x, f x = g x) -> remove_first f l = remove_first g l.
Proof.
  intro E. induction l as [|x l IH]; simpl; [reflexivity|].
  now rewrite E, IH.
Qed.

Lemma replace_first_pointwise (f g : document -> bool) (n : document)
    (l : list document) :
  (forall x, f x = g x) -> replace_first f n l = replace_first g n l.
Proof.
  intro E. induction l as [|x l IH]; simpl; [reflexivity|].
  now rewrite E, IH.
Qed.

Lemma remove_first_perm (m : document -> bool) (l : list document)
    (d : document) :
  List.find m l = Some d -> Permutation l (d :: remove_first m l).
Proof.
  induction l as [|x l IH]; simpl; [discriminate|].
  destruct (m x).
  - intro E. injection E as ->. apply Permutation_refl.
  - intro E. apply perm_trans with (x :: d :: remove_first m l).
    + apply perm_skip. now apply IH.
    + apply perm_swap.
Qed.

Lemma find_exists {A} (m : A -> bool) (l : list A) (x : A) :
  In x l -> m x = true -> exists y, List.find m l = Some y.
Proof.
  induction l as [|a l IH]; simpl; [tauto|].
  intros [-> | Hin] Hm.
  - rewrite Hm. now exists x.
  - destruct (m a); [now exists a | now apply IH].
Qed.

Lemma replace_first_split (m : document -> bool) (n : document)
    (l : list document) (d : document) :
  List.find m l = Some d ->
  exists before after,
    l = before ++ d :: after /\ replace_first m n l = before ++ n :: after.
Proof.
  induction l as [|x l IH]; simpl; [discriminate|].
  destruct (m x).
  - intro E. injection E as ->. now exists [], l.
  - intro E. destruct (IH E) as (b & a & -> & ->). now exists (x :: b), a.
Qed.

Lemma find_replace_first (m : document -> bool) (n : document)
    (l : list document) (d : document) :
  List.find m l = Some d -> m n = true ->
  List.find m (replace_first m n l) = Some n.
Proof.
  induction l as [|x l IH]; simpl; [discriminate|].
  destruct (m x) eqn:E; simpl.
  - intros _ ->. reflexivity.
  - intros F Hn. rewrite E. now apply IH.
Qed.

Lemma field_set_field (k j : string) (v : bson) (d : document) :
  field k (set_field j v d) = if String.eqb k j then Some v else field k d.
Proof.
  unfold field. induction d as [|[i u] d IH]; simpl.
  - reflexivity.
  - destruct (String.eqb_spec i j) as [->|Hij]; simpl.
    + now destruct (String.eqb k j).
    + destruct (String.eqb_spec k i) as [->|Hki].
      * destruct (String.eqb_spec i j); [contradiction | reflexivity].
      * exact IH.
Qed.

Lemma field_apply_set_other (k : string) (set d : document) :
  ~ In k (map fst set) -> field k (apply_set set d) = field k d.
Proof.
  unfold apply_set. revert d.
  induction set as [|[j v] set IH]; intros d Hk; simpl; [reflexivity|].
  rewrite IH by (intro H; apply Hk; now right).
  rewrite field_set_field.
  destruct (String.eqb_spec k j) as [->|]; [|reflexivity].
  exfalso. apply Hk. now left.
Qed.

Lemma field_apply_set_last (k : string) (v : bson) (set d : document) :
  field k (apply_set (set ++ [(k, v)]) d) = Some v.
Proof.
  unfold apply_set. rewrite fold_left_app. simpl.
  rewrite field_set_field. now rewrite String.eqb_refl.
Qed.

Section WithPlatform.
Context {P : Platform}.

Lemma findOne_by_id (coll : list document) (o : N) :
  findOne coll (by_id o) = Ok (List.find (has_id o) coll).
Proof.
  unfold findOne, by_id. cbn [filter_matcher clause_matcher cond_matcher].
  f_equal. apply find_pointwise. intro d. apply andb_true_r.
Qed.

Lemma deleteOne_by_id (coll : list document) (o : N) :
  deleteOne coll (by_id o) = Ok (remove_first (has_id o) coll).
Proof.
  unfold deleteOne, by_id. cbn [filter_matcher clause_matcher cond_matcher].
  f_equal. apply remove_first_pointwise. intro d. apply andb_true_r.
Qed.

Lemma findOne_other_with_kode (coll : list document) (k : string) (o : N) :
  findOne coll [Field "kode_produk" (Eq (BJs (VStr k)));
                Field "_id" (Ne (BOid o))]
  = Ok (List.find (fun d => has_kode k d && negb (has_id o d)) coll).
Proof.
  unfold findOne. cbn [filter_matcher clause_matcher cond_matcher].
  f_equal. apply find_pointwise. intro d. unfold has_kode, has_id.
  now rewrite andb_true_r.
Qed.

Lemma findOne_with_kode (coll : list document) (k : string) :
  findOne coll [Field "kode_produk" (Eq (BJs (VStr k)))]
  = Ok (List.find (has_kode k) coll).
Proof.
  unfold findOne. cbn [filter_matcher clause_matcher cond_matcher].
  f_equal. apply find_pointwise. intro d. apply andb_true_r.
Qed.

Lemma updateOne_by_id (uniq : list string) (coll : list document) (o : N)
    (set : document) :
  updateOne uniq coll (by_id o) set
  = match List.find (has_id o) coll with
    | None => Ok {| matchedCount := 0; modifiedCount := 0; updated := coll |}
    | Some d =>
        let d' := apply_set set d in
        if doc_eqb d' d then
          Ok {| matchedCount := 1; modifiedCount := 0; updated := coll |}
        else if negb (bson_eqb (index_key "_id" d') (index_key "_id" d))
        then Throw ImmutableField
        else if existsb (fun k =>
                  negb (bson_eqb (index_key k d') (index_key k d))
                  && key_taken k (index_key k d') coll) uniq
        then Throw DuplicateKey
        else Ok {| matchedCount := 1; modifiedCount := 1;
                   updated := replace_first (has_id o) d' coll |}
    end.
Proof.
  unfold updateOne, by_id. cbn [filter_matcher clause_matcher cond_matcher].
  rewrite (find_pointwise _ (has_id o)) by (intro; apply andb_true_r).
  destruct (List.find (has_id o) coll); [|reflexivity].
  cbv zeta.
  now rewrite (replace_first_pointwise _ (has_id o))
    by (intro; apply andb_true_r).
Qed.

Lemma find_page (coll : list document) (f : filter) (k : string) (s n : Z)
    (m : document -> bool) :
  filter_matcher f = Some m -> 0 <= s -> 1 <= n ->
  find coll f k (Some (of_Z s)) (of_Z n)
  = Ok (firstn (Z.to_nat n)
          (skipn (Z.to_nat s) (sort_desc k (List.filter m coll)))).
Proof.
  intros Hm Hs Hn. unfold find. rewrite Hm, !as_integer_of_Z.
  destruct (Z.ltb_spec s 0); [lia|]. unfold apply_limit.
  destruct (Z.eqb_spec n 0); [lia|]. now rewrite Z.abs_eq by lia.
Qed.

Lemma find_top (coll : list document) (f : filter) (k : string) (n : Z)
    (m : document -> bool) :
  filter_matcher f = Some m -> 1 <= n ->
  find coll f k None (of_Z n)
  = Ok (firstn (Z.to_nat n) (sort_desc k (List.filter m coll))).
Proof.
  intros Hm Hn. unfold find. rewrite Hm, !as_integer_of_Z.
  cbn [Z.ltb Z.compare Z.to_nat skipn]. unfold apply_limit.
  destruct (Z.eqb_spec n 0); [lia|]. now rewrite Z.abs_eq by lia.
Qed.

Lemma countDocuments_matching (coll : list document) (f : filter)
    (m : document -> bool) :
  filter_matcher f = Some m -> countDocuments coll f = Ok (count m coll).
Proof. intro Hm. unfold countDocuments. now rewrite Hm. Qed.

Lemma new_ObjectId_parsed (id : string) (o : N) :
  ObjectId_parse id = Some o -> isValid id = true /\ new_ObjectId id = Ok o.
Proof. unfold isValid, new_ObjectId. now intros ->. Qed.

End WithPlatform.
End StoreFacts.

(* ------------------------------------------------------------------ *)
(** ** Facts about the handlers *)

Module HandlerFacts.
Import Chars Num JS Store Server Contract Rules NumFacts StoreFacts
  ValidatorFacts.

(** Closes a branch whose answer [E] has another status than the one
    assumed in [H]. *)
Ltac wrong_status E H :=
  cbn in E; inversion E; subst; cbn in H; discriminate H.

Lemma produk_fields_keys (data : value) (fs : document) :
  produk_fields data = Ok fs ->
  map fst fs = ["kode_produk"; "nama_produk"; "kategori"; "harga"; "stok";
                "deskripsi"; "supplier"].
Proof.
  unfold produk_fields, prop. destruct (nullish data); [discriminate|].
  cbn [rbind].
  repeat match goal with
         | |- context [rbind ?x _] => destruct x; cbn [rbind]; try discriminate
         end.
  intro E. injection E as <-. reflexivity.
Qed.

Lemma trimmed_kode_of (data : value) (k : string) :
  nullish data = false -> kode_of data = Some k -> trimmed_kode data = Ok k.
Proof.
  unfold kode_of, trimmed_kode, prop. intros -> H. cbn [rbind].
  destruct (get data "kode_produk"); try discriminate H.
  now injection H as <-.
Qed.

Lemma produk_fields_kode (data : value) (fs : document) (k : string) :
  produk_fields data = Ok fs -> trimmed_kode data = Ok k ->
  field "kode_produk" fs = Some (BJs (VStr k)).
Proof.
  unfold produk_fields, trimmed_kode, prop.
  destruct (nullish data); [discriminate|]. cbn [rbind].
  destruct (call_trim (get data "kode_produk")) as [k'|]; [|discriminate].
  cbn [rbind]. intros Hfs Hk. injection Hk as ->.
  repeat match type of Hfs with
         | context [rbind ?x _] =>
             destruct x; cbn [rbind] in Hfs; try discriminate Hfs
         end.
  injection Hfs as <-. reflexivity.
Qed.

(** A payload that passes validation is an object with a string
    [kode_produk]. *)
Lemma valid_payload_kode (data : value) :
  Validator.validateProduk data = Ok [] ->
  nullish data = false /\ exists k, kode_of data = Some k.
Proof.
  rewrite validateProduk_eq. destruct (well_typed data) eqn:T; [|discriminate].
  intro E. injection E as E. apply rule_errors_nil in E.
  destruct E as (B & _). unfold well_typed in T.
  destruct (nullish data); [discriminate T|]. split; [reflexivity|].
  unfold kode_of, blank in *.
  destruct (get data "kode_produk"); try discriminate B. eauto.
Qed.

Lemma has_kode_stored (k : string) (d : document) :
  field "kode_produk" d = Some (BJs (VStr k)) -> has_kode k d = true.
Proof.
  unfold has_kode. intros ->. cbn. apply String.eqb_refl.
Qed.

Lemma field_cons_other (k j : string) (v : bson) (d : document) :
  k <> j -> field k ((j, v) :: d) = field k d.
Proof.
  intro H. unfold field. cbn [lookup].
  now destruct (String.eqb_spec k j).
Qed.

Lemma field_app_found (k : string) (v : bson) (d e : document) :
  field k d = Some v -> field k (d ++ e) = Some v.
Proof.
  unfold field. induction d as [|[j u] d IH]; cbn [lookup app];
    [discriminate|].
  destruct (String.eqb k j); [trivial | exact IH].
Qed.

Lemma in_firstn {A} (n : nat) (l : list A) (x : A) :
  In x (firstn n l) -> In x l.
Proof.
  intro H. rewrite <- (firstn_skipn n l). apply in_or_app. now left.
Qed.

Lemma find_app_last {A} (m : A -> bool) (l : list A) (x : A) :
  m x = true -> exists y, List.find m (l ++ [x]) = Some y.
Proof.
  intro H. apply find_exists with x; [|exact H].
  apply in_or_app. right. now left.
Qed.

Section WithPlatform.
Context {P : Platform}.

(** A successful create leaves, at the end of the collection, a document
    filed under the payload's trimmed code. *)
Lemma post_produk_created (data : value) (t1 t2 : Z) (nid : N)
    (w w' : world) (r : response) :
  post_produk data t1 t2 nid w = (r, w') ->
  status r = 201 ->
  exists k stored,
    kode_of data = Some k
    /\ has_kode k stored = true
    /\ produk (store w') = produk (store w) ++ [stored].
Proof.
  intros E H. unfold post_produk, try_catch in E.
  unfold bind at 1, lift at 1 in E.
  destruct (Validator.validateProduk data) as [errs|e] eqn:V.
  2:{ cbn [fst snd] in E. injection E as <- <-.
      destruct (error_code e =? 11000); discriminate H. }
  destruct errs as [|m errs]; [|wrong_status E H].
  destruct (valid_payload_kode data V) as (Hobj & k & Hk).
  pose proof (trimmed_kode_of data k Hobj Hk) as Tk.
  cbn [List.length Z.of_nat Z.ltb Z.compare] in E.
  unfold bind at 1, lift at 1 in E. rewrite Tk in E.
  unfold bind at 1 in E. unfold db_findOne at 1, reading at 1 in E.
  rewrite findOne_with_kode in E.
  destruct (List.find (has_kode k) (coll_of Produk (store w)));
    [wrong_status E H|].
  unfold bind at 1, lift at 1 in E.
  destruct (produk_fields data) as [fs|e] eqn:Hfs.
  2:{ cbn [fst snd] in E. injection E as <- <-.
      destruct (error_code e =? 11000); discriminate H. }
  unfold bind at 1 in E. unfold db_insertOne at 1, writing at 1 in E.
  cbn [store issue] in E. unfold insertOne in E.
  destruct (existsb _ _).
  { cbn in E. injection E as <- <-. discriminate H. }
  cbn [rbind] in E. unfold ret in E. cbn [coll_of with_coll] in E.
  injection E as <- <-.
  exists k. eexists. split; [exact Hk|]. split; [|reflexivity].
  apply has_kode_stored.
  rewrite field_cons_other by discriminate.
  apply field_app_found. now apply produk_fields_kode with data.
Qed.

(** A create whose code is already filed is answered 409, the store left as
    it was. *)
Lemma post_produk_conflict (data : value) (t1 t2 : Z) (nid : N) (w : world)
    (k : string) (d : document) :
  Validator.validateProduk data = Ok [] ->
  kode_of data = Some k ->
  In d (produk (store w)) -> has_kode k d = true ->
  status (fst (post_produk data t1 t2 nid w)) = 409
  /\ store (snd (post_produk data t1 t2 nid w)) = store w.
Proof.
  intros V Hk Hin Hd.
  destruct (valid_payload_kode data V) as (Hobj & _).
  pose proof (trimmed_kode_of data k Hobj Hk) as Tk.
  destruct (find_exists (has_kode k) _ d Hin Hd) as (y & Hy).
  unfold post_produk, try_catch, bind, lift, db_findOne, reading.
  rewrite V. cbn [List.length Z.of_nat Z.ltb Z.compare].
  rewrite Tk, findOne_with_kode. cbn [coll_of]. rewrite Hy.
  cbn. split; reflexivity.
Qed.

(** An update towards a code filed under another identifier is answered
    409, the store left as it was. *)
Lemma put_produk_conflict (id : string) (o : N) (data : value) (now : Z)
    (w : world) (k : string) (target other : document) :
  ObjectId_parse id = Some o ->
  Validator.validateProduk data = Ok [] ->
  kode_of data = Some k ->
  List.find (has_id o) (produk (store w)) = Some target ->
  In other (produk (store w)) ->
  has_kode k other = true -> has_id o other = false ->
  status (fst (put_produk id data now w)) = 409
  /\ store (snd (put_produk id data now w)) = store w.
Proof.
  intros Hid V Hk Ht Hin Hc Ho.
  destruct (new_ObjectId_parsed id o Hid) as [Vid Nid].
  destruct (valid_payload_kode data V) as (Hobj & _).
  pose proof (trimmed_kode_of data k Hobj Hk) as Tk.
  destruct (find_exists (fun d => has_kode k d && negb (has_id o d)) _ other
              Hin) as (y & Hy); [now rewrite Hc, Ho|].
  unfold put_produk, try_catch, bind, lift, db_findOne, reading.
  rewrite Vid, V, Nid. cbn [negb List.length Z.of_nat Z.ltb Z.compare].
  rewrite findOne_by_id. cbn [coll_of]. rewrite Ht, Tk.
  cbn [store issue]. rewrite findOne_other_with_kode. cbn [coll_of].
  rewrite Hy. cbn. split; reflexivity.
Qed.

(** A successful update rewrites one document in place and nothing else. *)
Lemma put_produk_frame (id : string) (data : value) (now : Z) (w w' : world)
    (r : response) :
  put_produk id data now w = (r, w') ->
  status r = 200 ->
  exists o, ObjectId_parse id = Some o /\ update_frame o now w w' r.
Proof.
  intros E H. unfold put_produk, try_catch in E.
  destruct (ObjectId_parse id) as [o|] eqn:Hid.
  2:{ unfold isValid in E. rewrite Hid in E. wrong_status E H. }
  destruct (new_ObjectId_parsed id o Hid) as [V N]. rewrite V in E.
  cbn [negb] in E. unfold bind at 1, lift at 1 in E.
  destruct (Validator.validateProduk data) as [errs|e]; [|wrong_status E H].
  destruct (0 <? Z.of_nat (List.length errs)); [wrong_status E H|].
  rewrite N in E. unfold bind at 1, lift at 1 in E. unfold bind at 1 in E.
  unfold db_findOne at 1, reading at 1 in E. rewrite findOne_by_id in E.
  destruct (List.find (has_id o) (coll_of Produk (store w))) as [old|] eqn:F;
    [|wrong_status E H].
  unfold bind at 1, lift at 1 in E.
  destruct (trimmed_kode data) as [k|e]; [|wrong_status E H].
  unfold bind at 1, lift at 1 in E. unfold bind at 1 in E.
  unfold db_findOne at 1, reading at 1 in E. cbn [store issue] in E.
  rewrite findOne_other_with_kode in E.
  destruct (List.find (fun d => has_kode k d && negb (has_id o d))
              (coll_of Produk (store w))); [wrong_status E H|].
  unfold bind at 1, lift at 1 in E.
  destruct (produk_fields data) as [fs|e] eqn:Hfs; [|wrong_status E H].
  unfold bind at 1, lift at 1 in E. unfold bind at 1 in E.
  unfold db_updateOne at 1, writing at 1 in E. cbn [store issue] in E.
  rewrite updateOne_by_id in E. rewrite F in E. cbv zeta in E.
  set (new := apply_set (fs ++ [("tanggal_diupdate", BDate (Some now))]) old)
    in E.
  destruct (doc_eqb new old); [wrong_status E H|].
  destruct (negb (bson_eqb (index_key "_id" new) (index_key "_id" old)));
    [wrong_status E H|].
  destruct (existsb _ _); [wrong_status E H|].
  cbn [rbind updated modifiedCount Z.eqb] in E.
  unfold bind at 1, lift at 1 in E. unfold bind at 1 in E.
  unfold db_findOne at 1, reading at 1 in E.
  cbn [store issue with_coll coll_of produk] in E.
  rewrite findOne_by_id in E.
  assert (Hkeys := produk_fields_keys data fs Hfs).
  assert (Hother : forall j, ~ In j written_by_update ->
                             field j new = field j old).
  { intros j Hj. apply field_apply_set_other.
    now rewrite map_app, Hkeys. }
  assert (Hid_same : field "_id" new = field "_id" old).
  { apply Hother. cbn. intuition discriminate. }
  assert (Hdibuat : field "tanggal_dibuat" new = field "tanggal_dibuat" old).
  { apply Hother. cbn. intuition discriminate. }
  assert (Hnew : has_id o new = true).
  { unfold has_id. rewrite Hid_same. apply (find_some _ _ F). }
  cbn [coll_of] in F.
  rewrite (find_replace_first _ _ _ _ F Hnew) in E.
  unfold ret in E. cbn [out_doc] in E. injection E as <- <-.
  exists o. split; [reflexivity|].
  destruct (replace_first_split (has_id o) new _ _ F)
    as (before & after & Hb & Ha).
  exists old, new, before, after. cbn [store posts produk kode_index].
  repeat split; try assumption.
  apply field_apply_set_last.
Qed.

Lemma pagination_of_Z (p l n : Z) :
  1 <= l -> pagination (of_Z p) (of_Z l) n = page_meta p l n.
Proof.
  intro Hl. unfold pagination, page_meta, gt.
  rewrite ceil_div_of_Z by lia. now rewrite !lt_of_Z.
Qed.

Lemma skip_of_Z (p l : Z) :
  mul (sub (of_Z p) (of_Z 1)) (of_Z l) = of_Z ((p - 1) * l).
Proof. now rewrite sub_of_Z, mul_of_Z. Qed.

(** [GET /posts] for page [p] of size [l]. *)
Lemma get_posts_page (q : list (string * value)) (p l : Z)
    (m : document -> bool) (w : world) :
  requested (VObj q) "page" 1 p -> requested (VObj q) "limit" 10 l ->
  1 <= p -> 1 <= l ->
  filter_matcher (posts_list_filter (get (VObj q) "search")) = Some m ->
  list_outcome Posts (get_posts (VObj q))
    (posts_list_filter (get (VObj q) "search")) m "_id" p l w.
Proof.
  intros Hp Hl Pp Pl Hm. unfold requested in *.
  unfold list_outcome, says, get_posts, try_catch, bind, lift,
    prop_default, db_find, db_countDocuments, reading, ret.
  unfold prop. cbn [nullish rbind]. rewrite Hp, Hl, skip_of_Z.
  rewrite (find_page _ _ _ _ _ m Hm) by nia.
  cbn [store issue fst snd]. rewrite (countDocuments_matching _ _ m Hm).
  rewrite pagination_of_Z by exact Pl.
  cbn [fst snd status json body lookup String.eqb Ascii.eqb Bool.eqb success
       store trace issue].
  repeat split. now rewrite <- app_assoc.
Qed.

(** [GET /api/produk] for page [p] of size [l]. *)
Lemma get_produk_page (q : list (string * value)) (p l : Z)
    (m : document -> bool) (w : world) :
  let f := produk_list_filter (get (VObj q) "search")
             (get (VObj q) "kategori") (get (VObj q) "min_harga")
             (get (VObj q) "max_harga") in
  requested (VObj q) "page" 1 p -> requested (VObj q) "limit" 10 l ->
  1 <= p -> 1 <= l ->
  filter_matcher f = Some m ->
  list_outcome Produk (get_produk_list (VObj q)) f m "tanggal_dibuat" p l w.
Proof.
  intros f Hp Hl Pp Pl Hm. unfold requested in *.
  unfold list_outcome, says, get_produk_list, try_catch, bind, lift,
    prop_default, db_find, db_countDocuments, reading, ret.
  unfold prop. cbn [nullish rbind]. fold f. rewrite Hp, Hl, skip_of_Z.
  rewrite (find_page _ _ _ _ _ m Hm) by nia.
  cbn [store issue fst snd]. rewrite (countDocuments_matching _ _ m Hm).
  rewrite pagination_of_Z by exact Pl.
  cbn [fst snd status json body lookup String.eqb Ascii.eqb Bool.eqb success
       message store trace issue].
  repeat split. now rewrite <- app_assoc.
Qed.

(** [GET /posts/search/advanced] with a parameter given and a filter the
    store accepts. *)
Lemma search_posts_run (q : list (string * value)) (m : document -> bool)
    (w : world) :
  posts_search_given (VObj q) = true ->
  filter_matcher (posts_search_filter_of (VObj q)) = Some m ->
  search_outcome Posts (search_posts (VObj q))
    (posts_search_filter_of (VObj q)) m "_id" 50 "filter_used" w.
Proof.
  intros G Hm. unfold posts_search_given in G.
  unfold search_outcome, says, search_posts, try_catch, bind, lift, prop,
    db_find, reading, ret.
  cbn [nullish].
  replace (negb (truthy (get (VObj q) "title"))
           && negb (truthy (get (VObj q) "author"))
           && negb (truthy (get (VObj q) "content"))
           && negb (truthy (get (VObj q) "date_from"))
           && negb (truthy (get (VObj q) "date_to"))) with false.
  2:{ rewrite <- !negb_orb, G. reflexivity. }
  fold (posts_search_filter_of (VObj q)).
  rewrite (find_top _ _ _ _ m Hm) by lia.
  cbn [fst snd status json body lookup String.eqb Ascii.eqb Bool.eqb success
       message store trace issue].
  repeat split.
Qed.

(** [GET /api/produk/search/advanced], likewise. *)
Lemma search_produk_run (q : list (string * value)) (m : document -> bool)
    (w : world) :
  produk_search_given (VObj q) = true ->
  filter_matcher (produk_search_filter_of (VObj q)) = Some m ->
  search_outcome Produk (search_produk (VObj q))
    (produk_search_filter_of (VObj q)) m "tanggal_dibuat" 100
    "filters_applied" w.
Proof.
  intros G Hm. unfold produk_search_given in G.
  unfold search_outcome, says, search_produk, try_catch, bind, lift, prop,
    db_find, reading, ret.
  cbn [nullish].
  replace (negb (truthy (get (VObj q) "nama"))
           && negb (truthy (get (VObj q) "kode"))
           && negb (truthy (get (VObj q) "kategori"))
           && negb (truthy (get (VObj q) "min_harga"))
           && negb (truthy (get (VObj q) "max_harga"))
           && negb (truthy (get (VObj q) "supplier"))
           && negb (truthy (get (VObj q) "stok_kosong"))) with false.
  2:{ rewrite <- !negb_orb, G. reflexivity. }
  fold (produk_search_filter_of (VObj q)).
  rewrite (find_top _ _ _ _ m Hm) by lia.
  cbn [fst snd status json body lookup String.eqb Ascii.eqb Bool.eqb success
       message store trace issue].
  repeat split.
Qed.

(** What [top] returns: at most [n] documents, all of them matching
    documents of the collection, largest key first. *)
Lemma top_facts (n : Z) (k : string) (m : document -> bool)
    (coll : list document) :
  Z.of_nat (List.length (top n k m coll)) <= Z.max 0 n
  /\ (forall d, In d (top n k m coll) -> In d coll /\ m d = true)
  /\ Sorted (newer_first k) (top n k m coll).
Proof.
  unfold top. split; [|split].
  - pose proof (firstn_le_length (Z.to_nat n)
                  (sort_desc k (List.filter m coll))). lia.
  - intros d H. apply filter_In.
    apply (Permutation_in _ (sort_desc_perm k _)).
    now apply in_firstn in H.
  - apply Sorted_firstn, sort_desc_sorted.
Qed.

(** The first page holds every matching document once the page size reaches
    their number. *)
Lemma page_of_all (l : Z) (sorted : list document) :
  Z.of_nat (List.length sorted) <= l -> page_of 1 l sorted = sorted.
Proof.
  intro H. unfold page_of. cbn [Z.sub Z.add Z.opp Z.mul Z.to_nat skipn].
  apply firstn_all2. lia.
Qed.

(** The no-change guard of the two update handlers: when the store reports
    that no document was modified, the answer is 400. *)
Lemma put_post_zero_modified (id : string) (o : N) (data : value) (now : Z)
    (w : world) (old : document) (r : update_result) :
  ObjectId_parse id = Some o ->
  is_empty_body data = false ->
  List.find (has_id o) (posts (store w)) = Some old ->
  updateOne (uniq_of Posts (store w)) (posts (store w)) (by_id o)
    (set_field "updated_at" (BDate (Some now)) (spread data)) = Ok r ->
  modifiedCount r = 0 ->
  status (fst (put_post id data now w)) = 400
  /\ says (fst (put_post id data now w)) "message"
       (OJs (VStr "Tidak ada perubahan data")).
Proof.
  intros Hid Hbody Hold Hup Hzero.
  destruct (new_ObjectId_parsed id o Hid) as [Vid Nid].
  unfold says, put_post, try_catch, bind, lift, db_findOne, db_updateOne,
    reading, writing.
  rewrite Vid, Hbody, Nid. cbn [negb]. rewrite findOne_by_id.
  cbn [coll_of]. rewrite Hold. cbn [store issue coll_of].
  rewrite Hup. cbn [rbind]. rewrite Hzero. split; reflexivity.
Qed.

Lemma put_produk_zero_modified (id : string) (o : N) (data : value) (now : Z)
    (w : world) (k : string) (old fs : document) (r : update_result) :
  ObjectId_parse id = Some o ->
  Validator.validateProduk data = Ok [] ->
  kode_of data = Some k ->
  List.find (has_id o) (produk (store w)) = Some old ->
  List.find (fun d => has_kode k d && negb (has_id o d)) (produk (store w))
  = None ->
  produk_fields data = Ok fs ->
  updateOne (uniq_of Produk (store w)) (produk (store w)) (by_id o)
    (fs ++ [("tanggal_diupdate", BDate (Some now))]) = Ok r ->
  modifiedCount r = 0 ->
  status (fst (put_produk id data now w)) = 400
  /\ says (fst (put_produk id data now w)) "message"
       (OJs (VStr "Tidak ada perubahan data atau data sama dengan sebelumnya")).
Proof.
  intros Hid V Hk Hold Hdup Hfs Hup Hzero.
  destruct (new_ObjectId_parsed id o Hid) as [Vid Nid].
  destruct (valid_payload_kode data V) as (Hobj & _).
  pose proof (trimmed_kode_of data k Hobj Hk) as Tk.
  unfold says, put_produk, try_catch, bind, lift, db_findOne, db_updateOne,
    reading, writing.
  rewrite Vid, V, Nid. cbn [negb List.length Z.of_nat Z.ltb Z.compare].
  rewrite findOne_by_id. cbn [coll_of]. rewrite Hold, Tk.
  cbn [store issue]. rewrite findOne_other_with_kode. cbn [coll_of].
  rewrite Hdup, Hfs. cbn [store issue coll_of]. rewrite Hup.
  cbn [rbind]. rewrite Hzero. split; reflexivity.
Qed.

End WithPlatform.
End HandlerFacts.

(* ------------------------------------------------------------------ *)
(** ** The handlers on sample requests *)

Module Scenarios.
Import Chars Num JS Store Server Contract Examples.

(** Creating the pen answers 201 with [status: "aktif"]; the stored document
    is the one sent back. *)
Example create_pen :
  fst (post_produk (P := P0) pen 1000 1000 1 empty)
  = json 201 [success true; message "Produk berhasil ditambahkan";
              ("data", ODoc pen_doc)]
  /\ produk (store with_pen) = [pen_doc]
  /\ field "status" pen_doc = Some (BJs (VStr "aktif")).
Proof. repeat split. Qed.

Example create_pen_again :
  status (fst (post_produk (P := P0) pen 2000 2000 2 with_pen)) = 409.
Proof. reflexivity. Qed.

Example stored_products : produk (store with_two) = [pen_doc; pencil_doc].
Proof. reflexivity. Qed.

(** A payload that breaks every rule gets every message, in rule order. *)
Example create_nothing :
  fst (post_produk (P := P0) (VObj []) 1000 1000 1 empty)
  = invalid_produk [Validator.msg_kode; Validator.msg_nama;
                    Validator.msg_kategori; Validator.msg_harga;
                    Validator.msg_stok].
Proof. reflexivity. Qed.

(** Only the pen (price 5) lies between 4 and 6. *)
Example price_range :
  says (fst (get_produk_list (P := P0) (VObj between_4_and_6) with_two))
    "data" (ODocs [pen_doc]).
Proof. reflexivity. Qed.

(** The newest product comes first. *)
Example newest_first :
  says (fst (get_produk_list (P := P0) (VObj []) with_two))
    "data" (ODocs [pencil_doc; pen_doc]).
Proof. reflexivity. Qed.

Example get_missing_product :
  fst (get_produk (P := P0) id2 with_pen)
  = failure 404 "Produk dengan ID tersebut tidak ditemukan".
Proof. reflexivity. Qed.

Example delete_missing_post :
  fst (delete_post (P := P0) id1 with_post)
  = failure 404 "Post tidak ditemukan"
  /\ store (snd (delete_post (P := P0) id1 with_post)) = store with_post.
Proof. split; reflexivity. Qed.

Example search_without_parameters :
  fst (search_produk (P := P0) (VObj []) with_two)
  = failure 400 "Minimal satu parameter pencarian harus diisi"
  /\ snd (search_produk (P := P0) (VObj []) with_two) = with_two.
Proof. split; reflexivity. Qed.

(** A pattern the store rejects surfaces as a 500. *)
Example search_with_bad_pattern :
  status (fst (search_posts (P := P0) (VObj [("title", VStr "(")]) with_post))
  = 500.
Proof. reflexivity. Qed.

End Scenarios.

(* ------------------------------------------------------------------ *)
(** ** What a handler body can do to the world *)

Module Effects.
Import Chars Num JS Store Server Service Contract Behaviour.

Section Preserved.
Context {X : Type} (f : db -> X).

Lemma preserves_ret {A} (a : A) : preserves f (ret a).
Proof. now intro w. Qed.

Lemma preserves_lift {A} (r : result A) : preserves f (lift r).
Proof. now intro w. Qed.

Lemma preserves_reading {A} (o : op) (r : db -> result A) :
  preserves f (reading o r).
Proof. now intro w. Qed.

Lemma preserves_bind {A B} (m : M A) (k : A -> M B) :
  preserves f m -> (forall a, preserves f (k a)) -> preserves f (bind m k).
Proof.
  intros Hm Hk w. unfold bind. specialize (Hm w).
  destruct (m w) as [[a|e] w1]; cbn [snd] in *.
  - now rewrite Hk.
  - exact Hm.
Qed.

Lemma preserves_writing {A} (o : op) (c : collection)
    (r : db -> result (A * list document)) :
  (forall l s, f (with_coll c l s) = f s) -> preserves f (writing o c r).
Proof.
  intros Hc w. unfold writing.
  destruct (r (store w)) as [[a l]|e]; cbn; [apply Hc | reflexivity].
Qed.

Lemma preserves_try_catch (m : M response) (h : exn -> response) (w : world) :
  preserves f m -> f (store (snd (try_catch m h w))) = f (store w).
Proof.
  intro Hm. unfold try_catch. specialize (Hm w).
  now destruct (m w) as [[r|e] w1].
Qed.

End Preserved.

Lemma always_ret {A} (Q : A -> Prop) (a : A) : Q a -> always Q (ret a).
Proof. now intros H w. Qed.

Lemma always_bind {A B} (Q : B -> Prop) (m : M A) (k : A -> M B) :
  (forall a, always Q (k a)) -> always Q (bind m k).
Proof.
  intros Hk w. unfold bind.
  destruct (m w) as [[a|e] w1]; [apply Hk | exact I].
Qed.

Lemma always_try_catch (Q : response -> Prop) (m : M response)
    (h : exn -> response) (w : world) :
  always Q m -> (forall e, Q (h e)) -> Q (fst (try_catch m h w)).
Proof.
  intros Hm Hh. unfold try_catch. specialize (Hm w).
  destruct (m w) as [[r|e] w1]; [exact Hm | apply Hh].
Qed.

Lemma flagged_failure (st : Z) (m : string) :
  In st [400; 404; 409; 500] -> flagged (failure st m).
Proof.
  intro H. split.
  - cbn in H. cbn. unfold says. cbn.
    destruct H as [<-|[<-|[<-|[<-|[]]]]]; reflexivity.
  - cbn in *. tauto.
Qed.

Lemma flagged_internal (m : string) (e : exn) : flagged (internal m e).
Proof. split; [reflexivity | cbn; tauto]. Qed.

(** Walks through a handler body: a bind, a return, a store operation, or a
    branch on the value at hand. *)
Ltac step_preserves :=
  cbv beta zeta;
  lazymatch goal with
  | |- preserves _ (bind _ _) => apply preserves_bind; [|intro]
  | |- preserves _ (ret _) => apply preserves_ret
  | |- preserves _ (lift _) => apply preserves_lift
  | |- preserves _ (reading _ _) => apply preserves_reading
  | |- preserves _ (writing _ _ _) =>
      apply preserves_writing; intros ? []; reflexivity
  | |- preserves _ (if ?b then _ else _) => destruct b
  | |- preserves _ (match ?x with _ => _ end) => destruct x
  end.

Ltac step_flagged :=
  cbv beta zeta;
  lazymatch goal with
  | |- always _ (bind _ _) => apply always_bind; intro
  | |- always _ (ret (failure _ _)) =>
      apply always_ret, flagged_failure; cbn; tauto
  | |- always _ (ret _) =>
      apply always_ret; split; [reflexivity | cbn; tauto]
  | |- always _ (if ?b then _ else _) => destruct b
  | |- always _ (match ?x with _ => _ end) => destruct x
  end.

Ltac read_only_body :=
  intro w; apply (preserves_try_catch (fun s : db => s));
  unfold db_find, db_countDocuments, db_findOne;
  repeat step_preserves.

Ltac confined_body :=
  intro w; split;
  [ apply (preserves_try_catch (coll_of _))
  | apply (preserves_try_catch kode_index) ];
  unfold db_findOne, db_insertNew, db_insertOne, db_updateOne, db_deleteOne;
  repeat step_preserves.

Section WithPlatform.
Context {P : Platform}.

Lemma get_posts_reads (query : value) : read_only (get_posts query).
Proof. unfold get_posts. read_only_body. Qed.

Lemma get_post_reads (id : string) : read_only (get_post id).
Proof. unfold get_post. read_only_body. Qed.

Lemma search_posts_reads (query : value) : read_only (search_posts query).
Proof. unfold search_posts. read_only_body. Qed.

Lemma get_produk_list_reads (query : value) :
  read_only (get_produk_list query).
Proof. unfold get_produk_list. read_only_body. Qed.

Lemma get_produk_reads (id : string) : read_only (get_produk id).
Proof. unfold get_produk. read_only_body. Qed.

Lemma search_produk_reads (query : value) : read_only (search_produk query).
Proof. unfold search_produk. read_only_body. Qed.

Lemma health_reads (stamp : string) : read_only (health stamp).
Proof. unfold health. read_only_body. Qed.

Lemma post_post_confined (body : value) (t1 t2 : Z) (generated : N) :
  confined Posts (post_post body t1 t2 generated).
Proof. unfold post_post. confined_body. Qed.

Lemma put_post_confined (id : string) (body : value) (now : Z) :
  confined Posts (put_post id body now).
Proof. unfold put_post. confined_body. Qed.

Lemma delete_post_confined (id : string) : confined Posts (delete_post id).
Proof. unfold delete_post. confined_body. Qed.

Lemma post_produk_confined (data : value) (t1 t2 : Z) (generated : N) :
  confined Produk (post_produk data t1 t2 generated).
Proof. unfold post_produk. confined_body. Qed.

Lemma put_produk_confined (id : string) (data : value) (now : Z) :
  confined Produk (put_produk id data now).
Proof. unfold put_produk. confined_body. Qed.

Lemma delete_produk_confined (id : string) :
  confined Produk (delete_produk id).
Proof. unfold delete_produk. confined_body. Qed.

End WithPlatform.
End Effects.

(* ------------------------------------------------------------------ *)
(** ** The writing handlers, case by case *)

Module Runs.
Import Chars Num JS Store Server Service Contract Behaviour Rules NumFacts
  StoreFacts ValidatorFacts HandlerFacts.

(** Closes a branch that answers without having written. *)
Ltac no_write E :=
  left; cbn in E; inversion E; subst; split; [cbn; discriminate | reflexivity].

Lemma eq_match_index_key (k : string) (b : bson) (d : document) :
  is_null b = false ->
  bson_eqb (index_key k d) b = true -> eq_match b (field k d) = true.
Proof.
  intros Hb H. unfold index_key in H. unfold eq_match.
  destruct (field k d) as [x|].
  - destruct x as [v| |]; try exact H.
    destruct v; try exact H. now rewrite H.
  - destruct b as [v| |]; try discriminate H.
    destruct v; try discriminate H; discriminate Hb.
Qed.

Lemma key_taken_false (k : string) (b : bson) (coll : list document) :
  is_null b = false ->
  List.find (fun d => eq_match b (field k d)) coll = None ->
  key_taken k b coll = false.
Proof.
  intros Hb F. unfold key_taken.
  destruct (existsb _ coll) eqn:E; [|reflexivity].
  apply existsb_exists in E. destruct E as (d & Hd & He).
  pose proof (find_none _ _ F d Hd) as Hn. cbn beta in Hn.
  now rewrite (eq_match_index_key k b d Hb He) in Hn.
Qed.

Lemma has_id_field (o : N) (d : document) :
  has_id o d = true <-> field "_id" d = Some (BOid o).
Proof.
  unfold has_id, eq_match. split.
  - destruct (field "_id" d) as [x|]; [|discriminate].
    destruct x as [v| |n]; cbn.
    + destruct v; try discriminate. cbn.
      match goal with
      | |- existsb ?f ?l = true -> _ =>
          assert (existsb f l = false) as -> by (induction l; auto)
      end. discriminate.
    + discriminate.
    + intro H. apply N.eqb_eq in H. now subst.
  - intros ->. cbn. apply N.eqb_refl.
Qed.

Lemma with_coll_same (c : collection) (s : db) :
  with_coll c (coll_of c s) s = s.
Proof. now destruct c, s. Qed.

Lemma key_taken_id (o : N) (coll : list document) :
  key_taken "_id" (BOid o) coll = false <->
  (forall d, In d coll -> has_id o d = false).
Proof.
  unfold key_taken. split.
  - intros H d Hd. destruct (has_id o d) eqn:Hh; [|reflexivity].
    apply has_id_field in Hh.
    assert (existsb (fun d => bson_eqb (index_key "_id" d) (BOid o)) coll
            = true) as Hx.
    { apply existsb_exists. exists d. split; [exact Hd|].
      unfold index_key. rewrite Hh. cbn. apply N.eqb_refl. }
    congruence.
  - intro H. apply key_taken_false; [reflexivity|].
    destruct (List.find _ coll) eqn:F; [|reflexivity].
    apply find_some in F. destruct F as [Hin Hm].
    specialize (H _ Hin). unfold has_id in H. congruence.
Qed.

Lemma index_key_oid (o : N) (d : document) :
  bson_eqb (index_key "_id" d) (BOid o) = true ->
  field "_id" d = Some (BOid o).
Proof.
  unfold index_key. destruct (field "_id" d) as [x|]; [|discriminate].
  destruct x; try discriminate. cbn. intro H. apply N.eqb_eq in H.
  now subst.
Qed.

Lemma find_all_false {A} (m : A -> bool) (l : list A) :
  (forall d, In d l -> m d = false) -> List.find m l = None.
Proof.
  intro H. induction l as [|a l IH]; [reflexivity|]. cbn.
  rewrite (H a (or_introl eq_refl)). apply IH. intros d Hd. apply H.
  now right.
Qed.

Lemma find_app_fresh {A} (m : A -> bool) (l : list A) (x : A) :
  (forall d, In d l -> m d = false) -> m x = true ->
  List.find m (l ++ [x]) = Some x.
Proof.
  intros Hl Hx. induction l as [|a l IH]; cbn.
  - now rewrite Hx.
  - rewrite (Hl a (or_introl eq_refl)). apply IH.
    intros d Hd. apply Hl. now right.
Qed.

Lemma find_remove_first_none {B} (f : document -> B) (m : document -> bool)
    (l : list document) (d : document) :
  NoDup (map f l) -> List.find m l = Some d ->
  (forall x, m x = true -> f x = f d) ->
  List.find m (remove_first m l) = None.
Proof.
  intros Hn. revert d. induction l as [|a l IH]; intros d F Hm;
    [discriminate F|].
  cbn in F |- *. inversion Hn as [|? ? Ha Hl]; subst.
  destruct (m a) eqn:Ma.
  - injection F as <-.
    destruct (List.find m l) as [y|] eqn:Fy; [|reflexivity].
    apply find_some in Fy. destruct Fy as [Hy My].
    exfalso. apply Ha. rewrite <- (Hm y My). now apply in_map.
  - cbn. rewrite Ma. now apply IH with d.
Qed.

Section WithPlatform.
Context {P : Platform}.

(** A product create either answers without writing, or appends the
    document made of the payload's fields. *)
Lemma post_produk_cases (data : value) (t1 t2 : Z) (n : N) (w w' : world)
    (r : response) :
  post_produk data t1 t2 n w = (r, w') ->
  (status r <> 201 /\ store w' = store w)
  \/ exists k fs,
       Validator.validateProduk data = Ok []
       /\ trimmed_kode data = Ok k
       /\ produk_fields data = Ok fs
       /\ List.find (has_kode k) (produk (store w)) = None
       /\ key_taken "_id" (BOid n) (produk (store w)) = false
       /\ r = json 201 [success true;
                        message "Produk berhasil ditambahkan";
                        ("data", ODoc (created_produk n fs t1 t2))]
       /\ store w'
          = with_coll Produk
              (produk (store w) ++ [created_produk n fs t1 t2]) (store w).
Proof.
  intro E. unfold post_produk, try_catch in E.
  unfold bind at 1, lift at 1 in E.
  destruct (Validator.validateProduk data) as [errs|e] eqn:V.
  2:{ destruct (error_code e =? 11000); no_write E. }
  destruct errs as [|m errs]; [|no_write E].
  cbn [List.length Z.of_nat Z.ltb Z.compare] in E.
  unfold bind at 1, lift at 1 in E.
  destruct (trimmed_kode data) as [k|e] eqn:Tk.
  2:{ destruct (error_code e =? 11000); no_write E. }
  unfold bind at 1 in E. unfold db_findOne at 1, reading at 1 in E.
  rewrite findOne_with_kode in E.
  destruct (List.find (has_kode k) (coll_of Produk (store w))) eqn:F;
    [no_write E|].
  unfold bind at 1, lift at 1 in E.
  destruct (produk_fields data) as [fs|e] eqn:Hfs.
  2:{ destruct (error_code e =? 11000); no_write E. }
  unfold bind at 1 in E. unfold db_insertOne at 1, writing at 1 in E.
  cbn [store issue] in E. unfold insertOne in E.
  cbn [existsb] in E.
  destruct (key_taken "_id" _ (coll_of Produk (store w))) eqn:K.
  { cbn in E. no_write E. }
  cbn [orb] in E.
  destruct (existsb _ _).
  { cbn in E. no_write E. }
  cbn [rbind] in E. unfold ret in E. cbn [coll_of] in E.
  injection E as <- <-. right. exists k, fs.
  repeat match goal with |- _ /\ _ => split end; try reflexivity; assumption.
Qed.

(** The create goes through when the payload is valid, its code is not
    filed yet and the identifier is new. *)
Lemma post_produk_creates (data : value) (t1 t2 : Z) (n : N) (w : world)
    (k : string) (fs : document) :
  Validator.validateProduk data = Ok [] ->
  trimmed_kode data = Ok k ->
  produk_fields data = Ok fs ->
  List.find (has_kode k) (produk (store w)) = None ->
  key_taken "_id" (BOid n) (produk (store w)) = false ->
  post_produk data t1 t2 n w
  = (json 201 [success true;
               message "Produk berhasil ditambahkan";
               ("data", ODoc (created_produk n fs t1 t2))],
     {| store := with_coll Produk
                   (produk (store w) ++ [created_produk n fs t1 t2])
                   (store w);
        trace := trace w
                 ++ [OpFindOne Produk
                       [Field "kode_produk" (Eq (BJs (VStr k)))];
                     OpInsertOne Produk (created_produk n fs t1 t2)] |}).
Proof.
  intros V Tk Hfs F K. unfold post_produk, try_catch.
  unfold bind at 1, lift at 1. rewrite V.
  cbn [List.length Z.of_nat Z.ltb Z.compare].
  unfold bind at 1, lift at 1. rewrite Tk.
  unfold bind at 1. unfold db_findOne at 1, reading at 1.
  rewrite findOne_with_kode. cbn [coll_of]. rewrite F.
  unfold bind at 1, lift at 1. rewrite Hfs.
  unfold bind at 1. unfold db_insertOne at 1, writing at 1.
  cbn [store issue coll_of]. unfold insertOne.
  fold (created_produk n fs t1 t2).
  assert (Hk : index_key "kode_produk" (created_produk n fs t1 t2)
               = BJs (VStr k)).
  { unfold index_key, created_produk.
    rewrite field_cons_other by discriminate.
    rewrite (field_app_found _ (BJs (VStr k)));
      [reflexivity | now apply produk_fields_kode with data]. }
  assert (X : existsb
                (fun j => key_taken j
                            (index_key j (created_produk n fs t1 t2))
                            (produk (store w)))
                ("_id" :: uniq_of Produk (store w)) = false).
  { cbn [existsb]. change (index_key "_id" (created_produk n fs t1 t2))
      with (BOid n). rewrite K. cbn [orb]. unfold uniq_of.
    destruct (kode_index (store w)); [|reflexivity].
    cbn [existsb]. rewrite Hk.
    rewrite (key_taken_false "kode_produk" (BJs (VStr k))); [reflexivity..|].
    exact F. }
  rewrite X. cbn [rbind]. unfold ret. cbn [trace store issue].
  now rewrite <- app_assoc.
Qed.

(** A product update either answers without changing the store, or rewrites
    the target document in place. *)
Lemma put_produk_cases (id : string) (data : value) (now : Z) (w w' : world)
    (r : response) :
  put_produk id data now w = (r, w') ->
  (status r <> 200 /\ store w' = store w)
  \/ exists o k fs old,
       ObjectId_parse id = Some o
       /\ Validator.validateProduk data = Ok []
       /\ trimmed_kode data = Ok k
       /\ produk_fields data = Ok fs
       /\ List.find (has_id o) (produk (store w)) = Some old
       /\ List.find (fun d => has_kode k d && negb (has_id o d))
            (produk (store w)) = None
       /\ has_id o (updated_produk fs now old) = true
       /\ r = json 200 [success true;
                        message "Produk berhasil diupdate";
                        ("data", ODoc (updated_produk fs now old))]
       /\ store w'
          = with_coll Produk
              (replace_first (has_id o) (updated_produk fs now old)
                 (produk (store w))) (store w).
Proof.
  intro E. unfold put_produk, try_catch in E.
  destruct (ObjectId_parse id) as [o|] eqn:Hid.
  2:{ unfold isValid in E. rewrite Hid in E. no_write E. }
  destruct (new_ObjectId_parsed id o Hid) as [V N]. rewrite V in E.
  cbn [negb] in E. unfold bind at 1, lift at 1 in E.
  destruct (Validator.validateProduk data) as [errs|e] eqn:Hv; [|no_write E].
  destruct errs as [|m errs]; [|no_write E].
  cbn [List.length Z.of_nat Z.ltb Z.compare] in E.
  rewrite N in E. unfold bind at 1, lift at 1 in E. unfold bind at 1 in E.
  unfold db_findOne at 1, reading at 1 in E. rewrite findOne_by_id in E.
  destruct (List.find (has_id o) (coll_of Produk (store w))) as [old|] eqn:F;
    [|no_write E].
  unfold bind at 1, lift at 1 in E.
  destruct (trimmed_kode data) as [k|e] eqn:Tk; [|no_write E].
  unfold bind at 1, lift at 1 in E. unfold bind at 1 in E.
  unfold db_findOne at 1, reading at 1 in E. cbn [store issue] in E.
  rewrite findOne_other_with_kode in E.
  destruct (List.find (fun d => has_kode k d && negb (has_id o d))
              (coll_of Produk (store w))) eqn:D; [no_write E|].
  unfold bind at 1, lift at 1 in E.
  destruct (produk_fields data) as [fs|e] eqn:Hfs; [|no_write E].
  unfold bind at 1, lift at 1 in E. unfold bind at 1 in E.
  unfold db_updateOne at 1, writing at 1 in E. cbn [store issue] in E.
  rewrite updateOne_by_id in E. rewrite F in E. cbv zeta in E.
  fold (updated_produk fs now old) in E.
  set (new := updated_produk fs now old) in *.
  destruct (doc_eqb new old).
  { cbn in E. inversion E; subst. left. split; [cbn; discriminate|].
    cbn. apply (with_coll_same Produk). }
  destruct (negb (bson_eqb (index_key "_id" new) (index_key "_id" old)));
    [no_write E|].
  destruct (existsb _ _); [no_write E|].
  cbn [rbind updated modifiedCount Z.eqb] in E.
  unfold bind at 1, lift at 1 in E. unfold bind at 1 in E.
  unfold db_findOne at 1, reading at 1 in E.
  cbn [store issue with_coll coll_of produk] in E.
  rewrite findOne_by_id in E.
  assert (Hkeys := produk_fields_keys data fs Hfs).
  assert (Hid_same : field "_id" new = field "_id" old).
  { apply field_apply_set_other. rewrite map_app, Hkeys. cbn.
    intuition discriminate. }
  assert (Hnew : has_id o new = true).
  { unfold has_id. rewrite Hid_same. apply (find_some _ _ F). }
  cbn [coll_of] in F, D.
  rewrite (find_replace_first _ _ _ _ F Hnew) in E.
  unfold ret in E. cbn [out_doc] in E. injection E as <- <-.
  right. exists o, k, fs, old.
  repeat match goal with |- _ /\ _ => split end; try reflexivity; assumption.
Qed.

(** A post create either answers without writing, or appends the stamped
    body under its identifier. *)
Lemma post_post_cases (body : value) (t1 t2 : Z) (n : N) (w w' : world)
    (r : response) :
  post_post body t1 t2 n w = (r, w') ->
  (status r <> 201 /\ store w' = store w)
  \/ exists stored,
       is_empty_body body = false
       /\ with_id n (stamped_post body t1 t2) = Ok stored
       /\ key_taken "_id" (index_key "_id" stored) (posts (store w)) = false
       /\ r = json 201 [success true;
                        message "Post berhasil dibuat";
                        ("data", ODoc stored)]
       /\ store w' = with_coll Posts (posts (store w) ++ [stored]) (store w).
Proof.
  intro E. unfold post_post, try_catch in E.
  destruct (is_empty_body body) eqn:B; [no_write E|].
  cbv zeta in E. fold (stamped_post body t1 t2) in E.
  unfold bind at 1 in E. unfold db_insertNew at 1, writing at 1 in E.
  destruct (with_id n (stamped_post body t1 t2)) as [stored|e] eqn:Hs.
  2:{ cbn in E. no_write E. }
  cbn [rbind] in E. unfold insertOne in E. cbn [existsb uniq_of] in E.
  rewrite orb_false_r in E.
  destruct (key_taken "_id" _ _) eqn:K.
  { cbn in E. no_write E. }
  cbn [rbind] in E. unfold ret in E. cbn [coll_of] in E, K.
  injection E as <- <-. right. exists stored.
  repeat match goal with |- _ /\ _ => split end; try reflexivity; assumption.
Qed.

Lemma post_post_creates (body : value) (t1 t2 : Z) (n : N) (w : world)
    (stored : document) :
  is_empty_body body = false ->
  with_id n (stamped_post body t1 t2) = Ok stored ->
  key_taken "_id" (index_key "_id" stored) (posts (store w)) = false ->
  post_post body t1 t2 n w
  = (json 201 [success true;
               message "Post berhasil dibuat";
               ("data", ODoc stored)],
     {| store := with_coll Posts (posts (store w) ++ [stored]) (store w);
        trace := trace w ++ [OpInsertOne Posts (stamped_post body t1 t2)] |}).
Proof.
  intros B Hs K. unfold post_post, try_catch. rewrite B.
  cbv zeta. fold (stamped_post body t1 t2).
  unfold bind at 1. unfold db_insertNew at 1, writing at 1.
  rewrite Hs. cbn [rbind]. unfold insertOne. cbn [existsb uniq_of coll_of].
  rewrite orb_false_r, K. reflexivity.
Qed.

(** A post update either answers without changing the store, or rewrites
    the target post in place. *)
Lemma put_post_cases (id : string) (body : value) (now : Z) (w w' : world)
    (r : response) :
  put_post id body now w = (r, w') ->
  (status r <> 200 /\ store w' = store w)
  \/ exists o old,
       ObjectId_parse id = Some o
       /\ is_empty_body body = false
       /\ List.find (has_id o) (posts (store w)) = Some old
       /\ has_id o (updated_post body now old) = true
       /\ r = json 200 [success true;
                        message "Post berhasil diupdate";
                        ("data", ODoc (updated_post body now old))]
       /\ store w'
          = with_coll Posts
              (replace_first (has_id o) (updated_post body now old)
                 (posts (store w))) (store w).
Proof.
  intro E. unfold put_post, try_catch in E.
  destruct (ObjectId_parse id) as [o|] eqn:Hid.
  2:{ unfold isValid in E. rewrite Hid in E. no_write E. }
  destruct (new_ObjectId_parsed id o Hid) as [V N]. rewrite V in E.
  cbn [negb] in E.
  destruct (is_empty_body body) eqn:B; [no_write E|].
  rewrite N in E. unfold bind at 1, lift at 1 in E. unfold bind at 1 in E.
  unfold db_findOne at 1, reading at 1 in E. rewrite findOne_by_id in E.
  destruct (List.find (has_id o) (coll_of Posts (store w))) as [old|] eqn:F;
    [|no_write E].
  cbv zeta in E.
  unfold bind at 1, lift at 1 in E. unfold bind at 1 in E.
  unfold db_updateOne at 1, writing at 1 in E. cbn [store issue] in E.
  rewrite updateOne_by_id in E. rewrite F in E. cbv zeta in E.
  fold (updated_post body now old) in E.
  set (new := updated_post body now old) in *.
  destruct (doc_eqb new old).
  { cbn in E. inversion E; subst. left. split; [cbn; discriminate|].
    cbn. apply (with_coll_same Posts). }
  destruct (bson_eqb (index_key "_id" new) (index_key "_id" old)) eqn:I;
    [|no_write E].
  cbn [negb uniq_of existsb] in E.
  cbn [rbind updated modifiedCount Z.eqb] in E.
  unfold bind at 1, lift at 1 in E. unfold bind at 1 in E.
  unfold db_findOne at 1, reading at 1 in E.
  cbn [store issue with_coll coll_of posts] in E.
  rewrite findOne_by_id in E.
  assert (Hold : field "_id" old = Some (BOid o)).
  { apply has_id_field. apply (find_some _ _ F). }
  assert (Hnew : has_id o new = true).
  { apply has_id_field. apply index_key_oid.
    unfold index_key at 2 in I. now rewrite Hold in I. }
  cbn [coll_of] in F.
  rewrite (find_replace_first _ _ _ _ F Hnew) in E.
  unfold ret in E. cbn [out_doc] in E. injection E as <- <-.
  right. exists o, old.
  repeat match goal with |- _ /\ _ => split end; try reflexivity; assumption.
Qed.

(** Deleting either answers without changing the store, or takes out the
    first document under the identifier. *)
Lemma delete_post_cases (id : string) (w w' : world) (r : response) :
  delete_post id w = (r, w') ->
  (status r <> 200 /\ store w' = store w)
  \/ exists o d,
       ObjectId_parse id = Some o
       /\ List.find (has_id o) (posts (store w)) = Some d
       /\ r = json 200 [success true;
                        message "Post berhasil dihapus";
                        ("deleted_data", ODoc d)]
       /\ store w'
          = with_coll Posts (remove_first (has_id o) (posts (store w)))
              (store w).
Proof.
  intro E. unfold delete_post, try_catch in E.
  destruct (ObjectId_parse id) as [o|] eqn:Hid.
  2:{ unfold isValid in E. rewrite Hid in E. no_write E. }
  destruct (new_ObjectId_parsed id o Hid) as [V N]. rewrite V in E.
  cbn [negb] in E.
  rewrite N in E. unfold bind at 1, lift at 1 in E. unfold bind at 1 in E.
  unfold db_findOne at 1, reading at 1 in E. rewrite findOne_by_id in E.
  destruct (List.find (has_id o) (coll_of Posts (store w))) as [d|] eqn:F;
    [|no_write E].
  unfold bind at 1, lift at 1 in E. unfold bind at 1 in E.
  unfold db_deleteOne at 1, writing at 1 in E. cbn [store issue] in E.
  rewrite deleteOne_by_id in E. cbn [rbind] in E. unfold ret in E.
  injection E as <- <-. right. exists o, d. cbn [coll_of] in *.
  repeat match goal with |- _ /\ _ => split end; try reflexivity; assumption.
Qed.

Lemma delete_produk_cases (id : string) (w w' : world) (r : response) :
  delete_produk id w = (r, w') ->
  (status r <> 200 /\ store w' = store w)
  \/ exists o d,
       ObjectId_parse id = Some o
       /\ List.find (has_id o) (produk (store w)) = Some d
       /\ r = json 200 [success true;
                        message "Produk berhasil dihapus";
                        ("deleted_data", ODoc d)]
       /\ store w'
          = with_coll Produk (remove_first (has_id o) (produk (store w)))
              (store w).
Proof.
  intro E. unfold delete_produk, try_catch in E.
  destruct (ObjectId_parse id) as [o|] eqn:Hid.
  2:{ unfold isValid in E. rewrite Hid in E. no_write E. }
  destruct (new_ObjectId_parsed id o Hid) as [V N]. rewrite V in E.
  cbn [negb] in E.
  rewrite N in E. unfold bind at 1, lift at 1 in E. unfold bind at 1 in E.
  unfold db_findOne at 1, reading at 1 in E. rewrite findOne_by_id in E.
  destruct (List.find (has_id o) (coll_of Produk (store w))) as [d|] eqn:F;
    [|no_write E].
  unfold bind at 1, lift at 1 in E. unfold bind at 1 in E.
  unfold db_deleteOne at 1, writing at 1 in E. cbn [store issue] in E.
  rewrite deleteOne_by_id in E. cbn [rbind] in E. unfold ret in E.
  injection E as <- <-. right. exists o, d. cbn [coll_of] in *.
  repeat match goal with |- _ /\ _ => split end; try reflexivity; assumption.
Qed.

(** Looking a document up by a well-formed identifier. *)
Lemma get_post_run (id : string) (o : N) (w : world) :
  ObjectId_parse id = Some o ->
  get_post id w
  = (match List.find (has_id o) (posts (store w)) with
     | None => failure 404 "Post tidak ditemukan"
     | Some p => json 200 [success true; ("data", ODoc p)]
     end, issue (OpFindOne Posts (by_id o)) w).
Proof.
  intro Hid. destruct (new_ObjectId_parsed id o Hid) as [V N].
  unfold get_post, try_catch. rewrite V. cbn [negb]. rewrite N.
  unfold bind at 1, lift at 1. unfold bind at 1.
  unfold db_findOne at 1, reading at 1. rewrite findOne_by_id.
  cbn [coll_of]. now destruct (List.find _ _).
Qed.

Lemma get_produk_run (id : string) (o : N) (w : world) :
  ObjectId_parse id = Some o ->
  get_produk id w
  = (match List.find (has_id o) (produk (store w)) with
     | None => failure 404 "Produk dengan ID tersebut tidak ditemukan"
     | Some p => json 200 [success true;
                           message "Produk berhasil ditemukan";
                           ("data", ODoc p)]
     end, issue (OpFindOne Produk (by_id o)) w).
Proof.
  intro Hid. destruct (new_ObjectId_parsed id o Hid) as [V N].
  unfold get_produk, try_catch. rewrite V. cbn [negb]. rewrite N.
  unfold bind at 1, lift at 1. unfold bind at 1.
  unfold db_findOne at 1, reading at 1. rewrite findOne_by_id.
  cbn [coll_of]. now destruct (List.find _ _).
Qed.

(** The update goes through when the target exists, the payload is valid,
    its code is free or the target's own, and the document changes. *)
Lemma put_produk_updates (id : string) (o : N) (data : value) (now : Z)
    (w : world) (k : string) (fs old : document) :
  ObjectId_parse id = Some o ->
  Validator.validateProduk data = Ok [] ->
  trimmed_kode data = Ok k ->
  produk_fields data = Ok fs ->
  List.find (has_id o) (produk (store w)) = Some old ->
  List.find (fun d => has_kode k d && negb (has_id o d)) (produk (store w))
  = None ->
  doc_eqb (updated_produk fs now old) old = false ->
  (kode_index (store w) = true ->
   bson_eqb (BJs (VStr k)) (index_key "kode_produk" old) = false ->
   key_taken "kode_produk" (BJs (VStr k)) (produk (store w)) = false) ->
  exists tr,
    put_produk id data now w
    = (json 200 [success true;
                 message "Produk berhasil diupdate";
                 ("data", ODoc (updated_produk fs now old))],
       {| store := with_coll Produk
                     (replace_first (has_id o) (updated_produk fs now old)
                        (produk (store w))) (store w);
          trace := tr |}).
Proof.
  intros Hid Hv Tk Hfs F D Hne Hu.
  destruct (new_ObjectId_parsed id o Hid) as [V N].
  eexists. unfold put_produk, try_catch. rewrite V. cbn [negb].
  unfold bind at 1, lift at 1. rewrite Hv.
  cbn [List.length Z.of_nat Z.ltb Z.compare].
  rewrite N. unfold bind at 1, lift at 1. unfold bind at 1.
  unfold db_findOne at 1, reading at 1. rewrite findOne_by_id.
  cbn [coll_of]. rewrite F.
  unfold bind at 1, lift at 1. rewrite Tk.
  unfold bind at 1, lift at 1. unfold bind at 1.
  unfold db_findOne at 1, reading at 1. cbn [store issue].
  rewrite findOne_other_with_kode. cbn [coll_of]. rewrite D.
  unfold bind at 1, lift at 1. rewrite Hfs.
  unfold bind at 1, lift at 1. unfold bind at 1.
  unfold db_updateOne at 1, writing at 1. cbn [store issue].
  rewrite updateOne_by_id. cbn [coll_of]. rewrite F. cbv zeta.
  fold (updated_produk fs now old).
  set (new := updated_produk fs now old) in *.
  rewrite Hne.
  assert (Hkeys := produk_fields_keys data fs Hfs).
  assert (Hid_same : field "_id" new = field "_id" old).
  { apply field_apply_set_other. rewrite map_app, Hkeys. cbn.
    intuition discriminate. }
  assert (Hold : field "_id" old = Some (BOid o)).
  { apply has_id_field. apply (find_some _ _ F). }
  assert (Hnew : has_id o new = true).
  { apply has_id_field. congruence. }
  assert (I : bson_eqb (index_key "_id" new) (index_key "_id" old) = true).
  { unfold index_key. rewrite Hid_same, Hold. cbn. apply N.eqb_refl. }
  rewrite I. cbn [negb].
  assert (Hk : index_key "kode_produk" new = BJs (VStr k)).
  { unfold index_key, new, updated_produk.
    pose proof (produk_fields_kode data fs k Hfs Tk) as Hkode.
    assert (E : exists rest, fs = ("kode_produk", BJs (VStr k)) :: rest
                             /\ map fst rest
                                = ["nama_produk"; "kategori"; "harga";
                                   "stok"; "deskripsi"; "supplier"]).
    { destruct fs as [|[j v] rest]; [discriminate Hkeys|].
      cbn in Hkeys. injection Hkeys as -> Hrest.
      cbn in Hkode. injection Hkode as ->. now exists rest. }
    destruct E as (rest & -> & Hrest).
    unfold apply_set. cbn [app fold_left fst snd].
    change (fold_left (fun acc kv => set_field (fst kv) (snd kv) acc)
              (rest ++ [("tanggal_diupdate", BDate (Some now))])
              (set_field "kode_produk" (BJs (VStr k)) old))
      with (apply_set (rest ++ [("tanggal_diupdate", BDate (Some now))])
              (set_field "kode_produk" (BJs (VStr k)) old)).
    rewrite field_apply_set_other.
    - rewrite field_set_field. reflexivity.
    - rewrite map_app, Hrest. cbn. intuition discriminate. }
  assert (X : existsb
                (fun j => negb (bson_eqb (index_key j new) (index_key j old))
                          && key_taken j (index_key j new)
                               (produk (store w)))
                (uniq_of Produk (store w)) = false).
  { unfold uniq_of. destruct (kode_index (store w)) eqn:Ki; [|reflexivity].
    cbn [existsb]. rewrite Hk, orb_false_r.
    destruct (bson_eqb (BJs (VStr k)) (index_key "kode_produk" old)) eqn:B;
      [reflexivity|].
    cbn [negb andb]. now apply Hu. }
  rewrite X. cbn [rbind updated modifiedCount Z.eqb].
  unfold bind at 1, lift at 1. unfold bind at 1.
  unfold db_findOne at 1, reading at 1.
  cbn [store issue with_coll coll_of produk].
  rewrite findOne_by_id. cbn [coll_of produk].
  rewrite (find_replace_first _ _ _ _ F Hnew).
  unfold ret. cbn [out_doc trace]. reflexivity.
Qed.

End WithPlatform.
End Runs.

(* ------------------------------------------------------------------ *)
(** ** What the product writes keep *)

Module Invariants.
Import Chars Num JS Store Server Service Contract Behaviour Rules NumFacts
  StoreFacts ValidatorFacts HandlerFacts Effects Runs.

Lemma not_le_zero (h : number) :
  le h (of_Z 0) = false -> h = NaN \/ lt (of_Z 0) h = true.
Proof.
  destruct h as [|n|q]; cbn; [now left| |].
  - intros ->. now right.
  - intro H. right. unfold Qlt_bool. now rewrite H.
Qed.

Lemma not_lt_zero (s : number) :
  lt s (of_Z 0) = false -> s = NaN \/ le (of_Z 0) s = true.
Proof.
  destruct s as [|n|q]; cbn; [now left| |].
  - intros ->. now right.
  - unfold Qlt_bool. intro H. right. now apply negb_false_iff in H.
Qed.

(** The fields read off a payload that passed the validator. *)
Lemma produk_fields_valid (data : value) (fs : document) :
  Validator.validateProduk data = Ok [] ->
  produk_fields data = Ok fs ->
  exists s1 s2 s3 x y,
    fs = [("kode_produk", BJs (VStr (trim s1)));
          ("nama_produk", BJs (VStr (trim s2)));
          ("kategori", BJs (VStr (trim s3)));
          ("harga", BJs (VNum (parseFloat (get data "harga"))));
          ("stok", BJs (VNum (parseInt (get data "stok"))));
          ("deskripsi", BJs (VStr x));
          ("supplier", BJs (VStr y))]
    /\ trim s1 <> "" /\ 3 <= str_length (trim s2) /\ trim s3 <> ""
    /\ le (parseFloat (get data "harga")) (of_Z 0) = false
    /\ lt (parseInt (get data "stok")) (of_Z 0) = false.
Proof.
  intros V Hfs. rewrite validateProduk_eq in V.
  destruct (well_typed data) eqn:W; [|discriminate V].
  injection V as V. apply rule_errors_nil in V.
  destruct V as (B1 & B2 & B3 & B4 & B5).
  unfold well_typed in W. apply andb_prop in W. destruct W as [W _].
  apply andb_prop in W. destruct W as [W _].
  apply andb_prop in W. destruct W as [W _].
  apply negb_true_iff in W.
  unfold produk_fields, prop in Hfs. rewrite W in Hfs. cbn [rbind] in Hfs.
  unfold blank in B1, B3. unfold short in B2.
  destruct (get data "kode_produk") as [| | | |s1| |]; try discriminate B1.
  destruct (get data "nama_produk") as [| | | |s2| |]; try discriminate B2.
  destruct (get data "kategori") as [| | | |s3| |]; try discriminate B3.
  cbn [call_trim rbind] in Hfs.
  destruct (trim_or_empty (get data "deskripsi")) as [x|];
    [|discriminate Hfs].
  cbn [rbind] in Hfs.
  destruct (trim_or_empty (get data "supplier")) as [y|];
    [|discriminate Hfs].
  cbn [rbind] in Hfs. injection Hfs as <-.
  exists s1, s2, s3, x, y. split; [reflexivity|].
  unfold harga_rejected in B4. unfold stok_rejected in B5.
  apply orb_false_elim in B4. destruct B4 as [_ B4].
  apply orb_false_elim in B5. destruct B5 as [_ B5].
  repeat split.
  - intro E. rewrite E in B1. discriminate B1.
  - apply Z.ltb_ge in B2. exact B2.
  - intro E. rewrite E in B3. discriminate B3.
  - exact B4.
  - exact B5.
Qed.

Lemma trim_or_empty_ok (v : value) :
  text_ok v = true -> exists x, trim_or_empty v = Ok x.
Proof.
  unfold text_ok, trim_or_empty. destruct (truthy v); cbn [negb orb].
  - destruct v; try discriminate. intros _. now eexists.
  - intros _. now eexists.
Qed.

Lemma trim_or_empty_fails (v : value) :
  text_ok v = false -> trim_or_empty v = Throw TypeError.
Proof.
  unfold text_ok, trim_or_empty. destruct (truthy v); cbn [negb orb].
  - now destruct v.
  - discriminate.
Qed.

(** On a payload that passed the validator, reading the fields only depends
    on the two optional texts. *)
Lemma produk_fields_optional (data : value) :
  Validator.validateProduk data = Ok [] ->
  produk_fields data
  = rbind (trim_or_empty (get data "deskripsi")) (fun x =>
    rbind (trim_or_empty (get data "supplier")) (fun y =>
    match get data "kode_produk", get data "nama_produk",
          get data "kategori" with
    | VStr s1, VStr s2, VStr s3 =>
        Ok [("kode_produk", BJs (VStr (trim s1)));
            ("nama_produk", BJs (VStr (trim s2)));
            ("kategori", BJs (VStr (trim s3)));
            ("harga", BJs (VNum (parseFloat (get data "harga"))));
            ("stok", BJs (VNum (parseInt (get data "stok"))));
            ("deskripsi", BJs (VStr x));
            ("supplier", BJs (VStr y))]
    | _, _, _ => Throw TypeError
    end)).
Proof.
  intro V. rewrite validateProduk_eq in V.
  destruct (well_typed data) eqn:W; [|discriminate V].
  injection V as V. apply rule_errors_nil in V.
  destruct V as (B1 & B2 & B3 & _).
  unfold well_typed in W. apply andb_prop in W. destruct W as [W _].
  apply andb_prop in W. destruct W as [W _].
  apply andb_prop in W. destruct W as [W _].
  apply negb_true_iff in W.
  unfold produk_fields, prop. rewrite W. cbn [rbind].
  unfold blank in B1, B3. unfold short in B2.
  destruct (get data "kode_produk") as [| | | |s1| |]; try discriminate B1.
  destruct (get data "nama_produk") as [| | | |s2| |]; try discriminate B2.
  destruct (get data "kategori") as [| | | |s3| |]; try discriminate B3.
  reflexivity.
Qed.

Lemma produk_fields_total (data : value) :
  Validator.validateProduk data = Ok [] ->
  text_ok (get data "deskripsi") = true ->
  text_ok (get data "supplier") = true ->
  exists fs, produk_fields data = Ok fs.
Proof.
  intros V D S.
  pose proof (produk_fields_optional data V) as E.
  destruct (trim_or_empty_ok _ D) as [x Hx].
  destruct (trim_or_empty_ok _ S) as [y Hy].
  rewrite Hx, Hy in E. cbn [rbind] in E.
  rewrite validateProduk_eq in V.
  destruct (well_typed data) eqn:W; [|discriminate V].
  injection V as V. apply rule_errors_nil in V.
  destruct V as (B1 & B2 & B3 & _).
  unfold blank in B1, B3. unfold short in B2.
  destruct (get data "kode_produk") as [| | | |s1| |]; try discriminate B1.
  destruct (get data "nama_produk") as [| | | |s2| |]; try discriminate B2.
  destruct (get data "kategori") as [| | | |s3| |]; try discriminate B3.
  eexists. exact E.
Qed.

Lemma produk_fields_untyped (data : value) :
  Validator.validateProduk data = Ok [] ->
  text_ok (get data "deskripsi") = false
  \/ text_ok (get data "supplier") = false ->
  produk_fields data = Throw TypeError.
Proof.
  intros V H. rewrite (produk_fields_optional data V).
  destruct H as [H|H].
  - now rewrite (trim_or_empty_fails _ H).
  - destruct (text_ok (get data "deskripsi")) eqn:D.
    + destruct (trim_or_empty_ok _ D) as [x ->].
      now rewrite (trim_or_empty_fails _ H).
    + now rewrite (trim_or_empty_fails _ D).
Qed.

Lemma sound_created (data : value) (fs : document) (n : N) (t1 t2 : Z) :
  Validator.validateProduk data = Ok [] ->
  produk_fields data = Ok fs ->
  sound_produk (created_produk n fs t1 t2).
Proof.
  intros V Hfs.
  destruct (produk_fields_valid data fs V Hfs)
    as (s1 & s2 & s3 & x & y & -> & H1 & H2 & H3 & H4 & H5).
  exists (trim s1), (trim s2), (trim s3), (parseFloat (get data "harga")),
    (parseInt (get data "stok")).
  repeat match goal with |- _ /\ _ => split end;
    try reflexivity; try assumption.
  - now apply not_le_zero.
  - now apply not_lt_zero.
Qed.

Lemma sound_updated (data : value) (fs : document) (now : Z)
    (old : document) :
  Validator.validateProduk data = Ok [] ->
  produk_fields data = Ok fs ->
  sound_produk (updated_produk fs now old).
Proof.
  intros V Hfs.
  destruct (produk_fields_valid data fs V Hfs)
    as (s1 & s2 & s3 & x & y & -> & H1 & H2 & H3 & H4 & H5).
  exists (trim s1), (trim s2), (trim s3), (parseFloat (get data "harga")),
    (parseInt (get data "stok")).
  unfold updated_produk, apply_set. cbn [fold_left app fst snd].
  repeat match goal with |- _ /\ _ => split end;
    try assumption;
    try (rewrite !field_set_field; reflexivity).
  - now apply not_le_zero.
  - now apply not_lt_zero.
Qed.

Lemma remove_first_split (m : document -> bool) (l : list document)
    (d : document) :
  List.find m l = Some d ->
  exists before after,
    l = before ++ d :: after /\ remove_first m l = before ++ after.
Proof.
  induction l as [|a l IH]; [discriminate|]. cbn. destruct (m a).
  - intro E. injection E as <-. now exists [], l.
  - intro F. destruct (IH F) as (b & c & -> & ->). now exists (a :: b), c.
Qed.

Lemma NoDup_snoc {A} (l : list A) (x : A) :
  NoDup l -> ~ In x l -> NoDup (l ++ [x]).
Proof.
  intros Hl Hx. apply (Permutation_NoDup (l := x :: l)).
  - apply Permutation_cons_append.
  - now constructor.
Qed.

Lemma NoDup_swap {A} (l1 l2 : list A) (x y : A) :
  NoDup (l1 ++ x :: l2) -> ~ In y (l1 ++ l2) -> NoDup (l1 ++ y :: l2).
Proof.
  intros Hl Hy. apply (Permutation_NoDup (l := y :: l1 ++ l2)).
  - apply Permutation_middle.
  - constructor; [exact Hy|]. now apply NoDup_remove_1 with x.
Qed.

Lemma catalogue_created (coll : list document) (data : value)
    (fs : document) (k : string) (n : N) (t1 t2 : Z) :
  catalogue_ok coll ->
  Validator.validateProduk data = Ok [] ->
  trimmed_kode data = Ok k ->
  produk_fields data = Ok fs ->
  List.find (has_kode k) coll = None ->
  key_taken "_id" (BOid n) coll = false ->
  catalogue_ok (coll ++ [created_produk n fs t1 t2]).
Proof.
  intros (I & S & Ni & Nk) V Tk Hfs F K.
  assert (Hk : field "kode_produk" (created_produk n fs t1 t2)
               = Some (BJs (VStr k))).
  { unfold created_produk. rewrite field_cons_other by discriminate.
    apply field_app_found. now apply produk_fields_kode with data. }
  repeat split.
  - apply Forall_app. split; [exact I|]. constructor; [|constructor].
    now exists n.
  - apply Forall_app. split; [exact S|]. constructor; [|constructor].
    now apply sound_created with data.
  - rewrite map_app. apply NoDup_snoc; [exact Ni|].
    cbn [map]. change (field "_id" (created_produk n fs t1 t2))
      with (Some (BOid n)).
    intro Hin. apply in_map_iff in Hin. destruct Hin as (d & Hd & Hin).
    apply has_id_field in Hd.
    rewrite (proj1 (key_taken_id n coll) K d Hin) in Hd. discriminate Hd.
  - rewrite map_app. apply NoDup_snoc; [exact Nk|].
    cbn [map]. rewrite Hk.
    intro Hin. apply in_map_iff in Hin. destruct Hin as (d & Hd & Hin).
    apply has_kode_stored in Hd.
    pose proof (find_none _ _ F d Hin) as Hn. congruence.
Qed.

Lemma catalogue_updated (coll : list document) (o : N) (k : string)
    (old new : document) :
  catalogue_ok coll ->
  List.find (has_id o) coll = Some old ->
  List.find (fun d => has_kode k d && negb (has_id o d)) coll = None ->
  has_id o new = true ->
  field "kode_produk" new = Some (BJs (VStr k)) ->
  sound_produk new ->
  catalogue_ok (replace_first (has_id o) new coll).
Proof.
  intros (I & S & Ni & Nk) F D Hnew Hk Hs.
  destruct (replace_first_split (has_id o) new coll old F)
    as (before & after & Hc & ->).
  assert (Hold : field "_id" old = Some (BOid o)).
  { apply has_id_field. apply (find_some _ _ F). }
  apply has_id_field in Hnew.
  subst coll. rewrite map_app in Ni, Nk. cbn [map] in Ni, Nk.
  apply Forall_app in I. destruct I as [I1 I2].
  apply Forall_app in S. destruct S as [S1 S2].
  inversion I2; subst. inversion S2; subst.
  repeat split.
  - apply Forall_app. split; [exact I1|]. constructor; [|assumption].
    now exists o.
  - apply Forall_app. split; [exact S1|]. now constructor.
  - rewrite map_app. cbn [map]. now rewrite Hnew, <- Hold.
  - rewrite map_app. cbn [map]. apply NoDup_swap with (1 := Nk).
    rewrite Hk, <- map_app. intro Hin.
    apply in_map_iff in Hin. destruct Hin as (d & Hd & Hin).
    apply has_kode_stored in Hd.
    assert (Hd' : In d (before ++ old :: after)).
    { apply in_app_or in Hin. apply in_or_app.
      destruct Hin; [now left | right; now right]. }
    pose proof (find_none _ _ D d Hd') as Hn. cbn beta in Hn.
    rewrite Hd in Hn. cbn [andb] in Hn. apply negb_false_iff in Hn.
    apply has_id_field in Hn.
    apply NoDup_remove_2 in Ni. apply Ni. rewrite <- map_app, Hold, <- Hn.
    now apply in_map.
Qed.

Lemma catalogue_deleted (coll : list document) (m : document -> bool)
    (d : document) :
  catalogue_ok coll -> List.find m coll = Some d ->
  catalogue_ok (remove_first m coll).
Proof.
  intros (I & S & Ni & Nk) F.
  destruct (remove_first_split m coll d F) as (before & after & -> & ->).
  rewrite map_app in Ni, Nk. cbn [map] in Ni, Nk.
  apply Forall_app in I. destruct I as [I1 I2].
  apply Forall_app in S. destruct S as [S1 S2].
  inversion I2; subst. inversion S2; subst.
  repeat split.
  - apply Forall_app. now split.
  - apply Forall_app. now split.
  - rewrite map_app. now apply NoDup_remove_1 in Ni.
  - rewrite map_app. now apply NoDup_remove_1 in Nk.
Qed.

Section WithPlatform.
Context {P : Platform}.

(** One request keeps the product collection in order. *)
Lemma serve_keeps_catalogue (q : request) (w : world) :
  catalogue_ok (produk (store w)) ->
  catalogue_ok (produk (store (snd (serve q w)))).
Proof.
  intro C.
  destruct q as [query|id|query|b t1 t2 generated|id b now|id
                 |query|id|query|data t1 t2 generated|id data now|id|stamp];
    cbn [serve].
  - now rewrite get_posts_reads.
  - now rewrite get_post_reads.
  - now rewrite search_posts_reads.
  - pose proof (proj1 (post_post_confined b t1 t2 generated w)) as H.
    cbn [other coll_of] in H. now rewrite H.
  - pose proof (proj1 (put_post_confined id b now w)) as H.
    cbn [other coll_of] in H. now rewrite H.
  - pose proof (proj1 (delete_post_confined id w)) as H.
    cbn [other coll_of] in H. now rewrite H.
  - now rewrite get_produk_list_reads.
  - now rewrite get_produk_reads.
  - now rewrite search_produk_reads.
  - destruct (post_produk data t1 t2 generated w) as [r w'] eqn:E.
    cbn [snd].
    destruct (post_produk_cases _ _ _ _ _ _ _ E) as [[_ ->]|X];
      [exact C|].
    destruct X as (k & fs & V & Tk & Hfs & F & K & _ & ->).
    cbn [with_coll produk]. now apply catalogue_created with data k.
  - destruct (put_produk id data now w) as [r w'] eqn:E. cbn [snd].
    destruct (put_produk_cases _ _ _ _ _ _ E) as [[_ ->]|X]; [exact C|].
    destruct X as (o & k & fs & old & _ & V & Tk & Hfs & F & D & Hnew & _
                   & ->).
    cbn [with_coll produk].
    apply catalogue_updated with k old; try assumption.
    + unfold updated_produk.
      assert (Hkeys := produk_fields_keys data fs Hfs).
      pose proof (produk_fields_kode data fs k Hfs Tk) as Hk.
      destruct (produk_fields_valid data fs V Hfs)
        as (s1 & s2 & s3 & x & y & -> & _).
      cbn in Hk. injection Hk as <-.
      unfold apply_set. cbn [fold_left app fst snd].
      rewrite !field_set_field. reflexivity.
    + now apply sound_updated with data.
  - destruct (delete_produk id w) as [r w'] eqn:E. cbn [snd].
    destruct (delete_produk_cases _ _ _ _ E) as [[_ ->]|X]; [exact C|].
    destruct X as (o & d & _ & F & _ & ->).
    cbn [with_coll produk]. now apply catalogue_deleted with d.
  - now rewrite health_reads.
Qed.

End WithPlatform.
End Invariants.

(* ------------------------------------------------------------------ *)
(** ** The retry schedule *)

Module BootFacts.
Import Boot.

Lemma pow2_from_5 (r : Z) : 5 <= r -> 32 <= 2 ^ r.
Proof.
  intro H. change 32 with (2 ^ 5). apply Z.pow_le_mono_r; lia.
Qed.

Lemma retry_delay_capped (r : Z) : 5 <= r -> retry_delay r = 30000.
Proof.
  intro H. unfold retry_delay. pose proof (pow2_from_5 r H). lia.
Qed.

Lemma retry_delay_small (r : Z) :
  0 <= r <= 4 -> retry_delay r = 1000 * 2 ^ r.
Proof.
  intro H. unfold retry_delay.
  assert (2 ^ r <= 2 ^ 4) by (apply Z.pow_le_mono_r; lia).
  change (2 ^ 4) with 16 in *. lia.
Qed.

Lemma sum_waits_capped (n : nat) (r : Z) :
  5 <= r -> fold_right Z.add 0 (waits n r) = 30000 * Z.of_nat n.
Proof.
  revert r. induction n as [|n IH]; intros r H; [reflexivity|].
  cbn [waits fold_right]. rewrite IH by lia.
  rewrite retry_delay_capped by exact H. lia.
Qed.

End BootFacts.

(* ------------------------------------------------------------------ *)
(** ** What a query returns *)

Module Queries.
Import Chars Num JS Store Server Service Contract Behaviour Rules NumFacts
  StoreFacts ValidatorFacts HandlerFacts.

Lemma in_skipn {A} (n : nat) (l : list A) (x : A) :
  In x (skipn n l) -> In x l.
Proof.
  intro H. rewrite <- (firstn_skipn n l). apply in_or_app. now right.
Qed.

Lemma num_total_le_lower (a x : number) :
  num_total_le a x = true -> a = NaN \/ le a x = true.
Proof.
  destruct a; [now left| |]; destruct x; cbn; try discriminate; auto.
Qed.

Lemma num_total_le_upper (x b : number) :
  num_total_le x b = true -> x = NaN \/ le x b = true.
Proof.
  destruct x; [now left| |]; destruct b; cbn; try discriminate; auto.
Qed.

Lemma ceil_div_whole (n l : Z) : 0 < l -> ceil_div n l = (n + l - 1) / l.
Proof.
  intro Hl. pose proof (ceil_div_bounds n l Hl) as B.
  apply Z.div_unique with (n + l - 1 - ceil_div n l * l); lia.
Qed.

Lemma has_next_whole (p n l : Z) :
  0 < l -> (p <? ceil_div n l) = (p * l <? n).
Proof.
  intro Hl. pose proof (ceil_div_bounds n l Hl) as B.
  destruct (Z.ltb_spec p (ceil_div n l)), (Z.ltb_spec (p * l) n);
    try reflexivity; nia.
Qed.

Lemma page_meta_block (p l n : Z) :
  1 <= l -> page_meta p l n = page_block p l n.
Proof.
  intro Hl. unfold page_meta, page_block.
  rewrite ceil_div_whole by lia. rewrite <- (has_next_whole p n l) by lia.
  now rewrite ceil_div_whole by lia.
Qed.

Lemma page_of_length (p l : Z) (s : list document) :
  1 <= p -> 1 <= l ->
  Z.of_nat (List.length (page_of p l s))
  = page_size p l (Z.of_nat (List.length s)).
Proof.
  intros Hp Hl. unfold page_of, page_size.
  rewrite length_firstn, length_skipn. nia.
Qed.

Lemma pages_adjoin (p l : Z) (s : list document) :
  1 <= p -> 1 <= l ->
  page_of p l s ++ page_of (p + 1) l s
  = firstn (Z.to_nat (2 * l)) (skipn (Z.to_nat ((p - 1) * l)) s).
Proof.
  intros Hp Hl. unfold page_of.
  replace (Z.to_nat ((p + 1 - 1) * l))
    with (Z.to_nat l + Z.to_nat ((p - 1) * l))%nat by nia.
  rewrite <- skipn_skipn.
  replace (Z.to_nat (2 * l)) with (Z.to_nat l + Z.to_nat l)%nat by lia.
  generalize (skipn (Z.to_nat ((p - 1) * l)) s) as t.
  generalize (Z.to_nat l) at 1 3 4 as a. generalize (Z.to_nat l) as b.
  intros b a. induction a as [|a IH]; intro t; [reflexivity|].
  destruct t as [|x t]; cbn.
  - now rewrite firstn_nil.
  - now rewrite IH.
Qed.

(** Taking one document out of a strictly ordered list. *)
Lemma strictly_ordered_without (k : string) (s1 s2 : list document)
    (d : document) :
  StronglySorted (strictly_newer k) (s1 ++ d :: s2) ->
  StronglySorted (strictly_newer k) (s1 ++ s2)
  /\ Forall (fun e => strictly_newer k e d) s1
  /\ Forall (strictly_newer k d) s2.
Proof.
  induction s1 as [|e s1 IH]; cbn [app]; intro H;
    inversion H as [|? ? Hs Hf]; subst.
  - repeat split; [exact Hs | constructor | exact Hf].
  - destruct (IH Hs) as (A & B & C).
    apply Forall_app in Hf. destruct Hf as [F1 F2].
    inversion F2 as [|? ? Hd F3]; subst.
    repeat split.
    + constructor; [exact A|]. apply Forall_app. now split.
    + now constructor.
    + exact C.
Qed.

Lemma insert_desc_between (k : string) (s1 s2 : list document)
    (d : document) :
  Forall (fun e => strictly_newer k e d) s1 ->
  Forall (strictly_newer k d) s2 ->
  insert_desc k d (s1 ++ s2) = s1 ++ d :: s2.
Proof.
  intros H1 H2. induction H1 as [|e s1 [_ He] _ IH]; cbn [app].
  - destruct H2 as [|e s2 [He _] _]; [reflexivity|].
    cbn [insert_desc]. now rewrite He.
  - cbn [insert_desc]. now rewrite He, IH.
Qed.

(** Documents whose keys do not tie have one sorted arrangement, which is
    the one the sort returns. *)
Lemma sort_desc_strict (k : string) (l s : list document) :
  Permutation s l -> StronglySorted (strictly_newer k) s ->
  sort_desc k l = s.
Proof.
  revert s. induction l as [|d l IH]; intros s Hp Hs.
  - apply Permutation_sym, Permutation_nil in Hp. now subst.
  - assert (Hin : In d s).
    { apply (Permutation_in d (Permutation_sym Hp)). now left. }
    apply in_split in Hin. destruct Hin as (s1 & s2 & ->).
    apply Permutation_sym, Permutation_cons_app_inv, Permutation_sym in Hp.
    destruct (strictly_ordered_without k s1 s2 d Hs) as (A & B & C).
    cbn [sort_desc fold_right]. fold (sort_desc k l).
    rewrite (IH (s1 ++ s2) Hp A). now apply insert_desc_between.
Qed.

Section WithPlatform.
Context {P : Platform}.

Lemma list_from_page (c : collection) (q : list (string * value)) (p l : Z)
    (m : document -> bool) (w : world) :
  requested (VObj q) "page" 1 p -> requested (VObj q) "limit" 10 l ->
  1 <= p -> 1 <= l ->
  filter_matcher (list_filter c (VObj q)) = Some m ->
  list_outcome c (list_from c (VObj q)) (list_filter c (VObj q)) m
    (sort_key c) p l w.
Proof.
  destruct c; cbn [list_from list_filter sort_key]; intros.
  - now apply get_posts_page.
  - now apply get_produk_page.
Qed.

(** The list route, whatever the page and the limit it was asked for. *)
Lemma list_from_eq (c : collection) (q : list (string * value)) (w : world) :
  let pageNum := parseInt (default (get (VObj q) "page") (VNum (of_Z 1))) in
  let limitNum :=
    parseInt (default (get (VObj q) "limit") (VNum (of_Z 10))) in
  let f := list_filter c (VObj q) in
  forall docs total,
    find (coll_of c (store w)) f (sort_key c)
      (Some (mul (sub pageNum (of_Z 1)) limitNum)) limitNum = Ok docs ->
    countDocuments (coll_of c (store w)) f = Ok total ->
    status (fst (list_from c (VObj q) w)) = 200
    /\ says (fst (list_from c (VObj q) w)) "data" (ODocs docs)
    /\ says (fst (list_from c (VObj q) w)) "pagination"
         (pagination pageNum limitNum total)
    /\ store (snd (list_from c (VObj q) w)) = store w.
Proof.
  intros pageNum limitNum f docs total F C. subst pageNum limitNum f.
  destruct c; cbn [list_from list_filter sort_key] in *;
    unfold says, get_posts, get_produk_list, try_catch, bind, lift,
      prop_default, db_find, db_countDocuments, reading, ret;
    unfold prop; cbn [nullish rbind];
    [|fold (produk_list_filter_of (VObj q))];
    rewrite F; cbn [store issue fst snd]; rewrite C;
    cbn; repeat split.
Qed.

Lemma list_from_fails (c : collection) (q : list (string * value))
    (w : world) (e : exn) :
  let pageNum := parseInt (default (get (VObj q) "page") (VNum (of_Z 1))) in
  let limitNum :=
    parseInt (default (get (VObj q) "limit") (VNum (of_Z 10))) in
  find (coll_of c (store w)) (list_filter c (VObj q)) (sort_key c)
    (Some (mul (sub pageNum (of_Z 1)) limitNum)) limitNum = Throw e ->
  status (fst (list_from c (VObj q) w)) = 500
  /\ says (fst (list_from c (VObj q) w)) "success" (OJs (VBool false))
  /\ store (snd (list_from c (VObj q) w)) = store w.
Proof.
  intros pageNum limitNum F. subst pageNum limitNum.
  destruct c; cbn [list_from list_filter sort_key] in *;
    unfold says, get_posts, get_produk_list, try_catch, bind, lift,
      prop_default, db_find, db_countDocuments, reading, ret;
    unfold prop; cbn [nullish rbind];
    [|fold (produk_list_filter_of (VObj q))];
    rewrite F; cbn; repeat split.
Qed.

(** Every document a query returns is in the collection and passes the
    filter. *)
Lemma find_ok_inv (coll : list document) (f : filter) (k : string)
    (s : option number) (n : number) (docs : list document) :
  find coll f k s n = Ok docs ->
  exists m,
    filter_matcher f = Some m
    /\ forall d, In d docs -> In d coll /\ m d = true.
Proof.
  unfold find. destruct (filter_matcher f) as [m|]; [|discriminate].
  destruct (as_integer _) as [s'|]; [|discriminate].
  destruct (as_integer n) as [n'|]; [|discriminate].
  destruct (s' <? 0); [discriminate|].
  intro E. injection E as <-. exists m. split; [reflexivity|].
  intros d Hd. apply filter_In.
  apply (Permutation_in _ (sort_desc_perm k _)).
  apply in_skipn with (Z.to_nat s').
  unfold apply_limit in Hd. destruct (n' =? 0); [exact Hd|].
  now apply in_firstn in Hd.
Qed.

(** A filter holds clause by clause. *)
Lemma filter_matcher_field (f : filter) (m : document -> bool) (k : string)
    (c : cond) :
  filter_matcher f = Some m -> In (Field k c) f ->
  exists mc,
    cond_matcher c = Some mc
    /\ forall d, m d = true -> mc (field k d) = true.
Proof.
  revert m. induction f as [|a f IH]; intros m Hm Hin; [contradiction|].
  cbn [filter_matcher] in Hm.
  destruct (clause_matcher a) as [ma|] eqn:Ha; [|discriminate].
  destruct (filter_matcher f) as [mf|]; [|discriminate].
  injection Hm as <-. destruct Hin as [->|Hin].
  - cbn [clause_matcher] in Ha.
    destruct (cond_matcher c) as [mc|]; [|discriminate].
    injection Ha as <-. exists mc. split; [reflexivity|].
    intros d Hd. now apply andb_prop in Hd.
  - destruct (IH mf eq_refl Hin) as (mc & Hc & Hmc).
    exists mc. split; [exact Hc|].
    intros d Hd. apply andb_prop in Hd. now apply Hmc.
Qed.

Lemma listed_products_match (q : list (string * value)) (w : world)
    (docs : list document) :
  says (fst (get_produk_list (VObj q) w)) "data" (ODocs docs) ->
  exists m,
    filter_matcher (produk_list_filter_of (VObj q)) = Some m
    /\ forall d, In d docs -> In d (produk (store w)) /\ m d = true.
Proof.
  unfold says, get_produk_list, try_catch, bind, lift, prop_default,
    db_find, db_countDocuments, reading, ret.
  unfold prop. cbn [nullish rbind].
  fold (produk_list_filter_of (VObj q)).
  destruct (find _ _ _ _ _) as [found|e] eqn:F; [|discriminate].
  destruct (countDocuments _ _) as [total|e]; [|discriminate].
  cbn. intro E. injection E as <-.
  exact (find_ok_inv _ _ _ _ _ _ F).
Qed.

Lemma searched_products_match (q : list (string * value)) (w : world)
    (docs : list document) :
  says (fst (search_produk (VObj q) w)) "data" (ODocs docs) ->
  exists m,
    filter_matcher (produk_search_filter_of (VObj q)) = Some m
    /\ forall d, In d docs -> In d (produk (store w)) /\ m d = true.
Proof.
  unfold says, search_produk, try_catch, bind, lift, db_find, reading, ret.
  unfold prop. cbn [nullish].
  fold (produk_search_filter_of (VObj q)).
  destruct (_ && _); [discriminate|].
  destruct (find _ _ _ _ _) as [found|e] eqn:F; [|discriminate].
  cbn. intro E. injection E as <-.
  exact (find_ok_inv _ _ _ _ _ _ F).
Qed.

Lemma searched_posts_match (q : list (string * value)) (w : world)
    (docs : list document) :
  says (fst (search_posts (VObj q) w)) "data" (ODocs docs) ->
  exists m,
    filter_matcher (posts_search_filter_of (VObj q)) = Some m
    /\ forall d, In d docs -> In d (posts (store w)) /\ m d = true.
Proof.
  unfold says, search_posts, try_catch, bind, lift, db_find, reading, ret.
  unfold prop. cbn [nullish].
  fold (posts_search_filter_of (VObj q)).
  destruct (_ && _); [discriminate|].
  destruct (find _ _ _ _ _) as [found|e] eqn:F; [|discriminate].
  cbn. intro E. injection E as <-.
  exact (find_ok_inv _ _ _ _ _ _ F).
Qed.

(** The clauses of the posts search filter. *)
Lemma posts_search_filter_text (title author content from to : value)
    (k : string) (v : value) :
  In (k, v) [("title", title); ("author", author); ("content", content)] ->
  truthy v = true ->
  In (Field k (regex v)) (posts_search_filter title author content from to).
Proof.
  unfold posts_search_filter, push_clause.
  intros [E|[E|[E|[]]]] T; injection E as <- <-; rewrite T;
    repeat match goal with
           | |- context [if ?b then _ else _] => destruct b
           end; cbn; tauto.
Qed.

Lemma posts_search_filter_dates (title author content from to : value) :
  truthy from || truthy to = true ->
  In (Field "created_at" (bounds from to (fun v => BDate (new_Date v))))
    (posts_search_filter title author content from to).
Proof.
  unfold posts_search_filter, push_clause. intros ->.
  apply in_or_app. right. now left.
Qed.

End WithPlatform.
End Queries.

(* ------------------------------------------------------------------ *)
(** ** Fields of written documents *)

Module Documents.
Import Chars Num JS Store Server Service Contract Behaviour StoreFacts
  HandlerFacts Runs.

Lemma field_none_iff (k : string) (d : document) :
  field k d = None <-> ~ In k (map fst d).
Proof.
  unfold field. induction d as [|[j v] d IH]; cbn.
  - tauto.
  - destruct (String.eqb_spec k j) as [->|N].
    + split; [discriminate | intro H; exfalso; apply H; now left].
    + rewrite IH. split.
      * intros H [E|E]; [now apply N|now apply H].
      * intros H E. apply H. now right.
Qed.

Lemma set_field_keys (k : string) (v : bson) (d : document) :
  NoDup (map fst d) -> NoDup (map fst (set_field k v d)).
Proof.
  induction d as [|[j u] d IH]; cbn; intro N.
  - repeat constructor. intros [].
  - inversion N as [|? ? Hj Hd]; subst.
    destruct (String.eqb_spec j k) as [->|E]; cbn; [exact N|].
    constructor; [|now apply IH].
    apply field_none_iff. rewrite field_set_field.
    destruct (String.eqb_spec j k); [contradiction|].
    now apply field_none_iff.
Qed.

Lemma apply_set_keys (set d : document) :
  NoDup (map fst d) -> NoDup (map fst (apply_set set d)).
Proof.
  unfold apply_set. revert d. induction set as [|[k v] set IH]; intros d N;
    [exact N|].
  cbn [fold_left fst snd]. apply IH. now apply set_field_keys.
Qed.

Lemma spread_keys (v : value) : NoDup (map fst (spread v)).
Proof. unfold spread. apply apply_set_keys. constructor. Qed.

Lemma apply_set_snoc (set : document) (k : string) (v : bson)
    (d : document) :
  apply_set (set ++ [(k, v)]) d = set_field k v (apply_set set d).
Proof. unfold apply_set. now rewrite fold_left_app. Qed.

Lemma field_app_later (k : string) (d e : document) :
  field k d = None -> field k (d ++ e) = field k e.
Proof.
  unfold field. induction d as [|[j v] d IH]; cbn; [reflexivity|].
  destruct (String.eqb k j); [discriminate | exact IH].
Qed.

(** A [$set] whose names are distinct writes each of its values. *)
Lemma field_apply_set_in (k : string) (v : bson) (set d : document) :
  NoDup (map fst set) -> field k set = Some v ->
  field k (apply_set set d) = Some v.
Proof.
  induction set as [|[j u] set IH] using rev_ind; [discriminate|].
  intros N F. rewrite apply_set_snoc, field_set_field.
  rewrite map_app in N. cbn [map fst] in N.
  destruct (String.eqb_spec k j) as [->|E].
  - assert (Hn : field j set = None).
    { apply field_none_iff. apply NoDup_remove_2 in N.
      now rewrite app_nil_r in N. }
    rewrite (field_app_later _ _ _ Hn) in F. cbn in F.
    now rewrite String.eqb_refl in F.
  - apply IH.
    + apply NoDup_remove_1 in N. now rewrite app_nil_r in N.
    + destruct (field k set) as [x|] eqn:Fx.
      * now rewrite (field_app_found _ _ _ _ Fx) in F.
      * rewrite (field_app_later _ _ _ Fx) in F. cbn in F.
        destruct (String.eqb_spec k j); [contradiction|discriminate].
Qed.

Lemma field_apply_set_none (k : string) (set d : document) :
  field k set = None -> field k (apply_set set d) = field k d.
Proof.
  intro F. apply field_apply_set_other. now apply field_none_iff.
Qed.

Lemma field_remove_field (k j : string) (d : document) :
  field k (remove_field j d)
  = if String.eqb k j then None else field k d.
Proof.
  unfold field. induction d as [|[i v] d IH]; cbn.
  - now destruct (String.eqb k j).
  - destruct (String.eqb_spec i j) as [->|E].
    + rewrite IH. destruct (String.eqb_spec k j); [reflexivity|].
      now destruct (String.eqb_spec k j).
    + cbn. rewrite IH. destruct (String.eqb_spec k i) as [->|E2].
      * now destruct (String.eqb_spec i j).
      * reflexivity.
Qed.

Lemma NoDup_map_same {A B} (f : A -> B) (l : list A) (a b : A) :
  NoDup (map f l) -> In a l -> In b l -> f a = f b -> a = b.
Proof.
  induction l as [|x l IH]; [contradiction|].
  cbn [map]. intros N Ha Hb E. inversion N as [|? ? Hx Hl]; subst.
  destruct Ha as [->|Ha], Hb as [->|Hb].
  - reflexivity.
  - exfalso. apply Hx. rewrite E. now apply in_map.
  - exfalso. apply Hx. rewrite <- E. now apply in_map.
  - now apply IH.
Qed.

(** Documents the store holds equal agree field by field. *)
Lemma doc_eqb_field (k : string) (d e : document) :
  doc_eqb d e = true ->
  match field k d, field k e with
  | Some x, Some y => bson_eqb x y = true
  | None, None => True
  | _, _ => False
  end.
Proof.
  unfold field. revert e. induction d as [|[j u] d IH]; intros [|[i v] e];
    cbn; try discriminate; [trivial|].
  intro H. apply andb_prop in H. destruct H as [H Hr].
  apply andb_prop in H. destruct H as [Hk Hv].
  apply String.eqb_eq in Hk. subst i.
  destruct (String.eqb k j); [exact Hv | now apply IH].
Qed.

Lemma filter_all {A} (l : list A) : List.filter (fun _ => true) l = l.
Proof. induction l as [|a l IH]; cbn; [reflexivity | now rewrite IH]. Qed.

End Documents.

(* ------------------------------------------------------------------ *)
(** ** The validator: rules 1 to 5 *)

Section ValidatorClaims.
Import Chars Num JS Validator Rules NumFacts ValidatorFacts Examples.

Lemma satisfies_rules_well_typed (data : value) :
  satisfies_rules data -> well_typed data = true /\ rule_errors data = [].
Proof.
  intros (Hobj & Hkode & Hnama & Hkat & Hharga & Hstok).
  destruct (nonblank_text_ok _ Hkode) as [T1 B1].
  destruct (text_of_3_ok _ Hnama) as [T2 B2].
  destruct (nonblank_text_ok _ Hkat) as [T3 B3].
  split.
  - unfold well_typed. now rewrite Hobj, T1, T2, T3.
  - apply rule_errors_nil. repeat split; try assumption.
    + now apply positive_number_accepted.
    + apply nonneg_number_accepted.
      destruct Hstok as (q & E & _ & Hq). now exists q.
Qed.

Lemma short_of_missing_or_short (data : value) :
  nama_missing_or_short data -> short (get data "nama_produk") = true.
Proof.
  intros [E | (s & E & Hs)]; rewrite E; [reflexivity|].
  now apply Z.ltb_lt.
Qed.

(** C1, amended.  On every payload whose [kode_produk], [nama_produk] and
    [kategori] are each absent (or otherwise falsy) or a string, the
    validator returns the ordered list of the messages of the violated rules,
    every rule being judged on its own field whatever the other rules say;
    in that list the [nama_produk] message is present whenever
    [nama_produk] is missing or has fewer than 3 characters once trimmed.
    On every payload that satisfies the five rules the validator returns the
    empty list. *)
Theorem validateProduk_judges_each_rule (data : value) :
  (well_typed data = true ->
     exists errs,
       validateProduk data = Ok errs
       /\ errs = rule_errors data
       /\ (nama_missing_or_short data -> In msg_nama errs))
  /\ (satisfies_rules data -> validateProduk data = Ok []).
Proof.
  split.
  - intro Hty. exists (rule_errors data). rewrite validateProduk_eq, Hty.
    repeat split. intro Hn. apply in_rule_errors_nama.
    now apply short_of_missing_or_short.
  - intro Hr. destruct (satisfies_rules_well_typed data Hr) as [Hty Hnil].
    now rewrite validateProduk_eq, Hty, Hnil.
Qed.

Lemma pen_satisfies_rules : satisfies_rules pen.
Proof.
  repeat split.
  - exists "P1". split; [reflexivity | discriminate].
  - exists "Pen". split; [reflexivity | vm_compute; discriminate].
  - exists "Office". split; [reflexivity | discriminate].
  - exists (of_Z 5). split; reflexivity.
  - exists (inject_Z 10). repeat split; [now exists 10 | discriminate].
Defined.

Lemma validateProduk_judges_each_rule_witness :
  well_typed pen = true /\ satisfies_rules pen /\ validateProduk pen = Ok [].
Proof.
  split; [reflexivity|]. split; [exact pen_satisfies_rules|].
  exact (proj2 (validateProduk_judges_each_rule pen) pen_satisfies_rules).
Defined.

(** C1 as stated fails: a payload with a numeric [kode_produk] and no
    [nama_produk] makes the validator throw on [trim] before the second rule
    is looked at, so no list is returned. *)
Lemma validateProduk_throws_before_nama :
  let data := VObj [("kode_produk", VNum (of_Z 5))] in
  nama_missing_or_short data
  /\ validateProduk data = Throw TypeError
  /\ ~ (exists errs, validateProduk data = Ok errs /\ In msg_nama errs).
Proof.
  cbv zeta. split; [left; reflexivity|]. split; [reflexivity|].
  intros (errs & H & _). discriminate H.
Qed.

(** C6, amended.  The validator rejects a [stok] that is absent, that is not
    numeric, or that is a number of negative integer part (at most -1): such
    a payload never yields the empty list, every list returned for it holds
    the [stok] message, and one is returned when the payload is well typed.
    A [stok] that is a non-negative number draws no [stok] message, whether
    or not it is an integer: the validator truncates, it does not require an
    integer. *)
Theorem stok_rule (data : value) :
  (stok_unacceptable (get data "stok") ->
     validateProduk data <> Ok []
     /\ (forall errs, validateProduk data = Ok errs -> In msg_stok errs)
     /\ (well_typed data = true ->
         exists errs, validateProduk data = Ok errs /\ In msg_stok errs))
  /\ (nonneg_number (get data "stok") ->
      forall errs, validateProduk data = Ok errs -> ~ In msg_stok errs).
Proof.
  split.
  - intro Hbad. apply stok_unacceptable_rejected in Hbad.
    assert (Hin : In msg_stok (rule_errors data))
      by now apply in_rule_errors_stok.
    rewrite validateProduk_eq. destruct (well_typed data).
    + repeat split.
      * intro E. injection E as E. rewrite E in Hin. exact Hin.
      * intros errs E. injection E as <-. exact Hin.
      * intros _. now exists (rule_errors data).
    + repeat split; try discriminate.
  - intros Hok errs E Hin. apply nonneg_number_accepted in Hok.
    rewrite validateProduk_eq in E. destruct (well_typed data); [|discriminate].
    injection E as <-. apply in_rule_errors_stok in Hin. congruence.
Qed.

Lemma stok_rule_witness :
  stok_unacceptable (get pen_without_stok "stok")
  /\ validateProduk pen_without_stok <> Ok [].
Proof.
  assert (H : stok_unacceptable (get pen_without_stok "stok"))
    by (left; reflexivity).
  split; [exact H|].
  exact (proj1 (proj1 (stok_rule pen_without_stok) H)).
Defined.

(** C6 as stated fails: a [stok] of 1.5 is not an integer, yet the payload
    passes with an empty error list. *)
Lemma validateProduk_accepts_fractional_stok :
  let data :=
    VObj [("kode_produk", VStr "P1"); ("nama_produk", VStr "Pen");
          ("kategori", VStr "Office"); ("harga", VNum (of_Z 5));
          ("stok", VNum (Fin (3 # 2)))] in
  get data "stok" = VNum (Fin (3 # 2))
  /\ ~ is_integer (3 # 2)
  /\ validateProduk data = Ok [].
Proof.
  cbv zeta. split; [reflexivity|]. split; [|reflexivity].
  intros (z & Hz). unfold Qeq in Hz. simpl in Hz. lia.
Qed.

End ValidatorClaims.

(* ------------------------------------------------------------------ *)
(** ** Identifiers and deletion *)

Section IdentifierClaims.
Import Chars Num JS Store Server Contract StoreFacts Examples.
Context {P : Platform}.

(** C4.  On either collection, a get-by-id, update or delete request whose
    identifier the platform does not accept as an ObjectId is answered 400
    with [success: false], and the world is left as it was: the store keeps
    its state and not one operation is issued against it. *)
Theorem malformed_identifier_rejected
    (id : string) (data : value) (now : Z) (w : world) :
  isValid id = false ->
  rejected (get_post id) w
  /\ rejected (get_produk id) w
  /\ rejected (put_post id data now) w
  /\ rejected (put_produk id data now) w
  /\ rejected (delete_post id) w
  /\ rejected (delete_produk id) w.
Proof.
  intro H. unfold rejected, says.
  unfold get_post, get_produk, put_post, put_produk, delete_post,
    delete_produk, try_catch.
  rewrite H. cbn. repeat split.
Qed.

Lemma delete_post_outcome (id : string) (o : N) (w : world) :
  ObjectId_parse id = Some o -> delete_outcome Posts (delete_post id) o w.
Proof.
  intro H. destruct (new_ObjectId_parsed id o H) as [V N].
  unfold delete_outcome, says, delete_post, try_catch, bind, lift,
    db_findOne, db_deleteOne, reading, writing, ret.
  rewrite V, N. cbn [negb fst snd store issue coll_of].
  rewrite findOne_by_id.
  destruct (List.find (has_id o) (posts (store w))) as [d|] eqn:F.
  - cbn [rbind fst snd store issue coll_of]. rewrite deleteOne_by_id.
    cbn. repeat split.
    + now apply remove_first_perm.
    + intros [|] Hc; [now contradiction Hc | reflexivity].
  - cbn. repeat split.
Qed.

Lemma delete_produk_outcome (id : string) (o : N) (w : world) :
  ObjectId_parse id = Some o -> delete_outcome Produk (delete_produk id) o w.
Proof.
  intro H. destruct (new_ObjectId_parsed id o H) as [V N].
  unfold delete_outcome, says, delete_produk, try_catch, bind, lift,
    db_findOne, db_deleteOne, reading, writing, ret.
  rewrite V, N. cbn [negb fst snd store issue coll_of].
  rewrite findOne_by_id.
  destruct (List.find (has_id o) (produk (store w))) as [d|] eqn:F.
  - cbn [rbind fst snd store issue coll_of]. rewrite deleteOne_by_id.
    cbn. repeat split.
    + now apply remove_first_perm.
    + intros [|] Hc; [reflexivity | now contradiction Hc].
  - cbn. repeat split.
Qed.

(** C8.  For a delete request with a well-formed identifier, on either
    collection: when no document carries the identifier the answer is 404
    with [success: false] and the store keeps its state; when one does, that
    document is taken out of its collection (the other documents, the other
    collection and the indexes stay) and the answer is 200 with the removed
    document as [deleted_data]. *)
Theorem delete_removes_and_confirms (id : string) (o : N) (w : world) :
  ObjectId_parse id = Some o ->
  delete_outcome Posts (delete_post id) o w
  /\ delete_outcome Produk (delete_produk id) o w.
Proof.
  intro H. split.
  - now apply delete_post_outcome.
  - now apply delete_produk_outcome.
Qed.

End IdentifierClaims.

Section IdentifierWitnesses.
Import Chars Num JS Store Server Contract Examples.

Lemma malformed_identifier_rejected_witness :
  isValid (P := P0) "zz" = false
  /\ rejected (get_produk (P := P0) "zz") with_two
  /\ rejected (delete_produk (P := P0) "zz") with_two.
Proof.
  pose proof (malformed_identifier_rejected (P := P0) "zz" pen 3000 with_two
                eq_refl) as H.
  split; [reflexivity|]. split.
  - exact (proj1 (proj2 H)).
  - exact (proj2 (proj2 (proj2 (proj2 (proj2 H))))).
Defined.

Lemma delete_removes_and_confirms_witness :
  ObjectId_parse (Platform := P0) id1 = Some 1%N
  /\ delete_outcome Posts (delete_post (P := P0) id1) 1 with_post
  /\ delete_outcome Produk (delete_produk (P := P0) id1) 1 with_two.
Proof.
  split; [reflexivity|]. split.
  - exact (proj1 (delete_removes_and_confirms (P := P0) id1 1%N with_post
                    eq_refl)).
  - exact (proj2 (delete_removes_and_confirms (P := P0) id1 1%N with_two
                    eq_refl)).
Defined.

End IdentifierWitnesses.

(* ------------------------------------------------------------------ *)
(** ** Product codes and product updates *)

Section ProdukClaims.
Import Chars Num JS Store Server Contract Rules StoreFacts HandlerFacts
  Examples.

(** C2.  When a create has succeeded, a second create whose payload passes
    validation and asks for the same code (after trimming) is answered 409;
    and an update with a well-formed identifier, a valid payload and an
    existing target is answered 409 when its code is filed under a document
    of another identifier. *)
Theorem duplicate_kode_conflicts {P : Platform} :
  (forall (w : world) (data1 data2 : value) (t1 t2 t3 t4 : Z) (n1 n2 : N),
      status (fst (post_produk data1 t1 t2 n1 w)) = 201 ->
      Validator.validateProduk data2 = Ok [] ->
      kode_of data2 = kode_of data1 ->
      status (fst (post_produk data2 t3 t4 n2
                     (snd (post_produk data1 t1 t2 n1 w)))) = 409)
  /\ (forall (w : world) (id : string) (o : N) (data : value) (now : Z)
             (k : string) (target other : document),
         ObjectId_parse id = Some o ->
         Validator.validateProduk data = Ok [] ->
         kode_of data = Some k ->
         List.find (has_id o) (produk (store w)) = Some target ->
         In other (produk (store w)) ->
         has_kode k other = true -> has_id o other = false ->
         status (fst (put_produk id data now w)) = 409).
Proof.
  split.
  - intros w data1 data2 t1 t2 t3 t4 n1 n2 H1 V2 Hk.
    destruct (post_produk data1 t1 t2 n1 w) as [r w'] eqn:E.
    destruct (post_produk_created _ _ _ _ _ _ _ E H1)
      as (k & stored & Hk1 & Hs & Hw').
    cbn [snd].
    apply (post_produk_conflict data2 t3 t4 n2 w' k stored V2).
    + congruence.
    + rewrite Hw'. apply in_or_app. right. now left.
    + exact Hs.
  - intros w id o data now k target other Hid V Hk Ht Hin Hc Ho.
    now apply (put_produk_conflict id o data now w k target other).
Qed.

Lemma duplicate_kode_conflicts_witness :
  status (fst (post_produk (P := P0) pen 1000 1000 1 empty)) = 201
  /\ status (fst (post_produk (P := P0) pen 2000 2000 2 with_pen)) = 409
  /\ status (fst (put_produk (P := P0) id2 pencil_as_P1 3000 with_two)) = 409.
Proof.
  split; [reflexivity|]. split.
  - exact (proj1 (duplicate_kode_conflicts (P := P0))
             empty pen pen 1000 1000 2000 2000 1%N 2%N
             eq_refl eq_refl eq_refl).
  - refine (proj2 (duplicate_kode_conflicts (P := P0))
              with_two id2 2%N pencil_as_P1 3000 "P1" pencil_doc pen_doc
              eq_refl eq_refl eq_refl eq_refl _ eq_refl eq_refl).
    left. reflexivity.
Defined.

(** C5, at the failing input.  The pen was created at time 1000; an update
    at time 3000 that sends the very values the store holds is answered 200,
    not 400: the fresh [tanggal_diupdate] alone makes the store count the
    document as modified.  The no-change answer is reached only when the
    clock reads the stored stamp again. *)
Theorem unchanged_product_update_is_accepted :
  let r := fst (put_produk (P := P0) id1 pen 3000 with_pen) in
  (exists old fs,
      List.find (has_id 1) (produk (store with_pen)) = Some old
      /\ produk_fields pen = Ok fs
      /\ Forall (fun kv => field (fst kv) old = Some (snd kv)) fs)
  /\ status r = 200
  /\ says r "message" (OJs (VStr "Produk berhasil diupdate"))
  /\ status (fst (put_produk (P := P0) id1 pen 1000 with_pen)) = 400.
Proof.
  cbv zeta. split; [|repeat split].
  eexists. eexists. split; [reflexivity|]. split; [reflexivity|].
  repeat constructor.
Qed.

(** C7.  A product update that is answered 200 rewrote one document in
    place: the document keeps its identifier and its [tanggal_dibuat], its
    [tanggal_diupdate] is the clock reading of the request, every field that
    is not among the seven fields of the update data and [tanggal_diupdate]
    keeps its value, and the other documents, the posts and the indexes are
    as before. *)
Theorem product_update_frame {P : Platform}
    (id : string) (data : value) (now : Z) (w : world) :
  status (fst (put_produk id data now w)) = 200 ->
  exists o,
    ObjectId_parse id = Some o
    /\ update_frame o now w (snd (put_produk id data now w))
         (fst (put_produk id data now w)).
Proof.
  intro H. destruct (put_produk id data now w) as [r w'] eqn:E.
  now apply (put_produk_frame id data now w w' r).
Qed.

Lemma product_update_frame_witness :
  status (fst (put_produk (P := P0) id1 marker 3000 with_pen)) = 200
  /\ exists o,
       ObjectId_parse (Platform := P0) id1 = Some o
       /\ update_frame o 3000 with_pen
            (snd (put_produk (P := P0) id1 marker 3000 with_pen))
            (fst (put_produk (P := P0) id1 marker 3000 with_pen)).
Proof.
  split; [reflexivity|].
  exact (product_update_frame (P := P0) id1 marker 3000 with_pen eq_refl).
Defined.

End ProdukClaims.

(* ------------------------------------------------------------------ *)
(** ** Listing and searching *)

Section ListClaims.
Import Chars Num JS Store Server Contract Rules NumFacts StoreFacts
  HandlerFacts Examples.

(** C3.  A list request for page [p >= 1] of size [l >= 1], over a
    collection in which [n] documents match the filter, is answered 200; the
    find is issued with skip [(p - 1) * l] and limit [l], and the pagination
    block reads: current page [p], total pages the ceiling of [n / l], total
    data [n], per page [l], [has_next] true exactly when [p] is below the
    ceiling of [n / l], [has_prev] true exactly when [p > 1].  This holds of
    the posts list and of the product list. *)
Theorem list_pagination {P : Platform} :
  (forall (q : list (string * value)) (p l : Z) (m : document -> bool)
          (w : world),
      requested (VObj q) "page" 1 p -> requested (VObj q) "limit" 10 l ->
      1 <= p -> 1 <= l ->
      filter_matcher (posts_list_filter (get (VObj q) "search")) = Some m ->
      list_outcome Posts (get_posts (VObj q))
        (posts_list_filter (get (VObj q) "search")) m "_id" p l w)
  /\ (forall (q : list (string * value)) (p l : Z) (m : document -> bool)
             (w : world),
         requested (VObj q) "page" 1 p -> requested (VObj q) "limit" 10 l ->
         1 <= p -> 1 <= l ->
         filter_matcher (produk_list_filter_of (VObj q)) = Some m ->
         list_outcome Produk (get_produk_list (VObj q))
           (produk_list_filter_of (VObj q)) m "tanggal_dibuat" p l w)
  /\ (forall n l : Z,
         0 < l -> (ceil_div n l - 1) * l < n <= ceil_div n l * l).
Proof.
  split; [|split].
  - intros. now apply get_posts_page.
  - intros. now apply get_produk_page.
  - intros. now apply ceil_div_bounds.
Qed.

Lemma list_pagination_witness :
  list_outcome Produk (get_produk_list (P := P0) (VObj second_page))
    (produk_list_filter_of (VObj second_page)) (fun _ => true)
    "tanggal_dibuat" 2 1 with_two
  /\ says (fst (get_produk_list (P := P0) (VObj second_page) with_two))
       "pagination" (page_meta 2 1 2)
  /\ says (fst (get_produk_list (P := P0) (VObj second_page) with_two))
       "data" (ODocs [pen_doc]).
Proof.
  assert (H : list_outcome Produk (get_produk_list (P := P0) (VObj second_page))
                (produk_list_filter_of (VObj second_page)) (fun _ => true)
                "tanggal_dibuat" 2 1 with_two).
  { apply (proj1 (proj2 (list_pagination (P := P0)))
             second_page 2 1 (fun _ => true) with_two);
      try reflexivity; lia. }
  split; [exact H|]. split.
  - exact (proj1 (proj2 (proj2 H))).
  - exact (proj1 (proj2 H)).
Defined.

Lemma date_clause {P : Platform} (q : list (string * value)) :
  truthy (get (VObj q) "date_from") || truthy (get (VObj q) "date_to") = true ->
  In (Field "created_at"
        (bounds (get (VObj q) "date_from") (get (VObj q) "date_to")
           (fun v => BDate (new_Date v))))
     (posts_search_filter_of (VObj q)).
Proof.
  intro H. unfold posts_search_filter_of, posts_search_filter, push_clause.
  rewrite H. apply in_or_app. right. now left.
Qed.

(** C9, amended.  An advanced post search whose [date_from] or [date_to] is
    given but is not a parseable date does not fail on it: the handler keeps
    the invalid date as the bound of the [created_at] condition, issues the
    find with that filter and, the store accepting the filter, answers 200
    with the documents the store returns and echoes the filter. *)
Theorem unparseable_dates_reach_the_store {P : Platform}
    (q : list (string * value)) (m : document -> bool) (w : world) :
  unparseable (get (VObj q) "date_from")
  \/ unparseable (get (VObj q) "date_to") ->
  filter_matcher (posts_search_filter_of (VObj q)) = Some m ->
  search_outcome Posts (search_posts (VObj q))
    (posts_search_filter_of (VObj q)) m "_id" 50 "filter_used" w
  /\ exists gte lte,
       In (Field "created_at" (Range gte lte))
          (posts_search_filter_of (VObj q))
       /\ (unparseable (get (VObj q) "date_from") ->
           gte = Some (BDate None))
       /\ (unparseable (get (VObj q) "date_to") ->
           lte = Some (BDate None)).
Proof.
  intros Hbad Hm.
  assert (Hd : truthy (get (VObj q) "date_from")
               || truthy (get (VObj q) "date_to") = true).
  { destruct Hbad as [[T _]|[T _]]; rewrite T;
      [reflexivity | apply orb_true_r]. }
  split.
  - apply search_posts_run; [|exact Hm]. unfold posts_search_given.
    rewrite <- !orb_assoc. rewrite Hd. now rewrite !orb_true_r.
  - pose proof (date_clause q Hd) as Hin. unfold bounds in Hin.
    do 2 eexists. split; [exact Hin|].
    split; intros [T N]; now rewrite T, N.
Qed.

Lemma unparseable_dates_reach_the_store_witness :
  unparseable (P := P0) (get (VObj since_abc) "date_from")
  /\ search_outcome Posts (search_posts (P := P0) (VObj since_abc))
       [Field "created_at" (Range (Some (BDate None)) None)]
       since_abc_matcher "_id" 50 "filter_used" with_post.
Proof.
  assert (U : unparseable (P := P0) (get (VObj since_abc) "date_from"))
    by (split; reflexivity).
  split; [exact U|].
  exact (proj1 (unparseable_dates_reach_the_store (P := P0) since_abc
                  since_abc_matcher with_post (or_introl U) eq_refl)).
Defined.

(** C9 as stated fails: on the reference platform ["abc"] is no date, yet
    the search answers 200.  As a lower bound the unreadable date is compared
    as time 0 and lets the stored post through; as an upper bound it leaves
    nothing. *)
Lemma search_with_unreadable_date_succeeds :
  Date_parse (Platform := P0) "abc" = None
  /\ status (fst (search_posts (P := P0) (VObj since_abc) with_post)) = 200
  /\ says (fst (search_posts (P := P0) (VObj since_abc) with_post))
       "data" (ODocs [hello])
  /\ trace (snd (search_posts (P := P0) (VObj since_abc) with_post))
     = [OpFind Posts [Field "created_at" (Range (Some (BDate None)) None)]
          "_id" None (of_Z 50)]
  /\ status (fst (search_posts (P := P0) (VObj until_abc) with_post)) = 200
  /\ says (fst (search_posts (P := P0) (VObj until_abc) with_post))
       "data" (ODocs []).
Proof. repeat split. Qed.

(** C10.  An advanced search answers with the first 50 (posts) or the first
    100 (products) of the matching documents sorted by recency, hence with
    at most that many; a plain list passes the requested page size to the
    store as it is, so that a first page as large as the number of matching
    documents holds them all, however many they are. *)
Theorem searches_capped_lists_not {P : Platform} :
  (forall (q : list (string * value)) (m : document -> bool) (w : world),
      posts_search_given (VObj q) = true ->
      filter_matcher (posts_search_filter_of (VObj q)) = Some m ->
      search_outcome Posts (search_posts (VObj q))
        (posts_search_filter_of (VObj q)) m "_id" 50 "filter_used" w
      /\ Z.of_nat (List.length (top 50 "_id" m (posts (store w)))) <= 50
      /\ (forall d, In d (top 50 "_id" m (posts (store w))) ->
                    In d (posts (store w)) /\ m d = true)
      /\ Sorted (newer_first "_id") (top 50 "_id" m (posts (store w))))
  /\ (forall (q : list (string * value)) (m : document -> bool) (w : world),
         produk_search_given (VObj q) = true ->
         filter_matcher (produk_search_filter_of (VObj q)) = Some m ->
         search_outcome Produk (search_produk (VObj q))
           (produk_search_filter_of (VObj q)) m "tanggal_dibuat" 100
           "filters_applied" w
         /\ Z.of_nat
              (List.length (top 100 "tanggal_dibuat" m (produk (store w))))
            <= 100
         /\ (forall d, In d (top 100 "tanggal_dibuat" m (produk (store w))) ->
                       In d (produk (store w)) /\ m d = true)
         /\ Sorted (newer_first "tanggal_dibuat")
              (top 100 "tanggal_dibuat" m (produk (store w))))
  /\ (forall (q : list (string * value)) (l : Z) (m : document -> bool)
             (w : world),
         requested (VObj q) "page" 1 1 -> requested (VObj q) "limit" 10 l ->
         1 <= l -> count m (posts (store w)) <= l ->
         filter_matcher (posts_list_filter (get (VObj q) "search")) = Some m ->
         says (fst (get_posts (VObj q) w)) "data"
           (ODocs (sort_desc "_id" (List.filter m (posts (store w))))))
  /\ (forall (q : list (string * value)) (l : Z) (m : document -> bool)
             (w : world),
         requested (VObj q) "page" 1 1 -> requested (VObj q) "limit" 10 l ->
         1 <= l -> count m (produk (store w)) <= l ->
         filter_matcher (produk_list_filter_of (VObj q)) = Some m ->
         says (fst (get_produk_list (VObj q) w)) "data"
           (ODocs (sort_desc "tanggal_dibuat"
                     (List.filter m (produk (store w)))))).
Proof.
  split; [|split; [|split]].
  - intros q m w G Hm. split; [now apply search_posts_run|].
    apply (top_facts 50 "_id" m (posts (store w))).
  - intros q m w G Hm. split; [now apply search_produk_run|].
    apply (top_facts 100 "tanggal_dibuat" m (produk (store w))).
  - intros q l m w Hp Hl Pl Hn Hm.
    destruct (get_posts_page q 1 l m w Hp Hl ltac:(lia) Pl Hm)
      as (_ & D & _).
    rewrite page_of_all in D; [exact D|].
    unfold count in Hn. cbn [coll_of].
    rewrite (Permutation_length (sort_desc_perm "_id" _)). exact Hn.
  - intros q l m w Hp Hl Pl Hn Hm.
    destruct (get_produk_page q 1 l m w Hp Hl ltac:(lia) Pl Hm)
      as (_ & D & _).
    rewrite page_of_all in D; [exact D|].
    unfold count in Hn. cbn [coll_of].
    rewrite (Permutation_length (sort_desc_perm "tanggal_dibuat" _)).
    exact Hn.
Qed.

Lemma searches_capped_lists_not_witness :
  posts_search_given (VObj by_title) = true
  /\ search_outcome Posts (search_posts (P := P0) (VObj by_title))
       (posts_search_filter_of (P := P0) (VObj by_title)) by_title_matcher
       "_id" 50 "filter_used" with_post
  /\ says (fst (get_produk_list (P := P0) (VObj thousand) with_two)) "data"
       (ODocs [pencil_doc; pen_doc]).
Proof.
  split; [reflexivity|]. split.
  - exact (proj1 (proj1 (searches_capped_lists_not (P := P0))
                    by_title by_title_matcher with_post eq_refl eq_refl)).
  - refine (proj2 (proj2 (proj2 (searches_capped_lists_not (P := P0))))
              thousand 1000 (fun _ => true) with_two
              eq_refl eq_refl _ _ eq_refl).
    + lia.
    + vm_compute. discriminate.
Defined.

End ListClaims.

(* ------------------------------------------------------------------ *)
(** * Further properties of the handlers *)

Section EffectsOfHandlers.
Import Chars Num JS Store Server Service Contract Behaviour Effects.
Context {P : Platform}.

(** X1. The seven reading routes (both lists, both look-ups by identifier,
    both advanced searches and the health check) leave the database exactly
    as it was, for every request, whether they answer or fail. *)
Theorem reading_routes_never_write (query : value) (id stamp : string) :
  read_only (get_posts query)
  /\ read_only (get_post id)
  /\ read_only (search_posts query)
  /\ read_only (get_produk_list query)
  /\ read_only (get_produk id)
  /\ read_only (search_produk query)
  /\ read_only (health stamp).
Proof.
  repeat match goal with |- _ /\ _ => split end.
  - apply get_posts_reads.
  - apply get_post_reads.
  - apply search_posts_reads.
  - apply get_produk_list_reads.
  - apply get_produk_reads.
  - apply search_produk_reads.
  - apply health_reads.
Qed.

(** X2. The writing routes stay in their own collection: a post request
    never changes the products, a product request never changes the posts,
    and none touches the index, for every request and whatever the
    outcome. *)
Theorem writing_routes_are_confined (id : string) (data : value)
    (t1 t2 : Z) (generated : N) :
  confined Posts (post_post data t1 t2 generated)
  /\ confined Posts (put_post id data t1)
  /\ confined Posts (delete_post id)
  /\ confined Produk (post_produk data t1 t2 generated)
  /\ confined Produk (put_produk id data t1)
  /\ confined Produk (delete_produk id).
Proof.
  repeat match goal with |- _ /\ _ => split end.
  - apply post_post_confined.
  - apply put_post_confined.
  - apply delete_post_confined.
  - apply post_produk_confined.
  - apply put_produk_confined.
  - apply delete_produk_confined.
Qed.

Local Ltac flagged_body :=
  intro w; apply always_try_catch;
  [ repeat step_flagged | intro; try apply flagged_internal ].

(** X3. In every answer of the twelve data routes and of the fallback for
    unknown routes, the [success] flag is [true] exactly when the status is
    a 2xx one, and the status is one of 200, 201, 400, 404, 409 and 500. *)
Theorem success_flag_agrees_with_status (query data : value)
    (id method path : string) (t1 t2 : Z) (generated : N) :
  well_flagged (get_posts query)
  /\ well_flagged (get_post id)
  /\ well_flagged (search_posts query)
  /\ well_flagged (post_post data t1 t2 generated)
  /\ well_flagged (put_post id data t1)
  /\ well_flagged (delete_post id)
  /\ well_flagged (get_produk_list query)
  /\ well_flagged (get_produk id)
  /\ well_flagged (search_produk query)
  /\ well_flagged (post_produk data t1 t2 generated)
  /\ well_flagged (put_produk id data t1)
  /\ well_flagged (delete_produk id)
  /\ flagged (not_found method path).
Proof.
  repeat match goal with |- _ /\ _ => split end.
  - unfold get_posts. flagged_body.
  - unfold get_post. flagged_body.
  - unfold search_posts. flagged_body.
  - unfold post_post. flagged_body.
  - unfold put_post. flagged_body.
  - unfold delete_post. flagged_body.
  - unfold get_produk_list. flagged_body.
  - unfold get_produk. flagged_body.
  - unfold search_produk. flagged_body.
  - unfold post_produk. flagged_body.
    destruct (error_code e =? 11000);
      [apply flagged_failure; cbn; tauto | apply flagged_internal].
  - unfold put_produk. flagged_body.
  - unfold delete_produk. flagged_body.
  - apply flagged_failure. cbn. tauto.
Qed.

End EffectsOfHandlers.

Section LookupsAndRoundTrips.
Import Chars Num JS Store Server Service Contract Behaviour Rules NumFacts
  StoreFacts ValidatorFacts HandlerFacts Runs.
Context {P : Platform}.

(** X4. A look-up by a well-formed identifier, on either collection, answers
    200 with the first document stored under that identifier, or 404 with
    [success: false] when there is none; it issues one [findOne] by [_id]
    and leaves the store as it was. *)
Theorem lookup_by_identifier (c : collection) (id : string) (o : N)
    (w : world) :
  ObjectId_parse id = Some o ->
  lookup_outcome c (fetch_from c id) o w.
Proof.
  intro H. unfold lookup_outcome, says. destruct c; cbn [fetch_from].
  - rewrite (get_post_run id o w H).
    cbn [fst snd coll_of issue store trace].
    destruct (List.find (has_id o) (posts (store w))); cbn; auto.
  - rewrite (get_produk_run id o w H).
    cbn [fst snd coll_of issue store trace].
    destruct (List.find (has_id o) (produk (store w))); cbn; auto.
Qed.

(** X5. Create, then fetch: when a create answers 201 and shows a document
    under an identifier, a look-up by that identifier on the resulting store
    answers 200 with the same document, on either collection. *)
Theorem created_document_can_be_fetched (c : collection) (data : value)
    (t1 t2 : Z) (generated o : N) (id : string) (d : document) (w : world) :
  ObjectId_parse id = Some o ->
  status (fst (create_in c data t1 t2 generated w)) = 201 ->
  shows (fst (create_in c data t1 t2 generated w)) o d ->
  let w' := snd (create_in c data t1 t2 generated w) in
  status (fst (fetch_from c id w')) = 200
  /\ says (fst (fetch_from c id w')) "data" (ODoc d).
Proof.
  intros Hid H201 [Hd Ho] w'. subst w'. unfold says in *.
  destruct c; cbn [create_in fetch_from] in *.
  - destruct (post_post data t1 t2 generated w) as [r w'] eqn:E.
    cbn [fst snd] in *.
    destruct (post_post_cases _ _ _ _ _ _ _ E) as [[Hs _]|C];
      [contradiction|].
    destruct C as (stored & _ & _ & K & -> & Hw).
    cbn in Hd. injection Hd as <-.
    rewrite (get_post_run id o w' Hid), Hw. cbn [with_coll store posts].
    unfold index_key in K. rewrite Ho in K.
    rewrite (find_app_fresh (has_id o) _ stored).
    + cbn. auto.
    + now apply key_taken_id.
    + now apply has_id_field.
  - destruct (post_produk data t1 t2 generated w) as [r w'] eqn:E.
    cbn [fst snd] in *.
    destruct (post_produk_cases _ _ _ _ _ _ _ E) as [[Hs _]|C];
      [contradiction|].
    destruct C as (k & fs & _ & _ & _ & _ & K & -> & Hw).
    cbn in Hd. injection Hd as <-.
    cbn in Ho. injection Ho as <-.
    rewrite (get_produk_run id generated w' Hid), Hw.
    cbn [with_coll store produk].
    rewrite (find_app_fresh (has_id generated) _
               (created_produk generated fs t1 t2)).
    + cbn. auto.
    + now apply key_taken_id.
    + now apply has_id_field.
Qed.

(** X6. Update, then fetch: when an update answers 200, the document it
    shows is the one a look-up by the same identifier returns afterwards, on
    either collection. *)
Theorem updated_document_can_be_fetched (c : collection) (id : string)
    (data : value) (now : Z) (w : world) :
  status (fst (update_in c id data now w)) = 200 ->
  let w' := snd (update_in c id data now w) in
  exists d,
    says (fst (update_in c id data now w)) "data" (ODoc d)
    /\ status (fst (fetch_from c id w')) = 200
    /\ says (fst (fetch_from c id w')) "data" (ODoc d).
Proof.
  intros H200 w'. subst w'. unfold says.
  destruct c; cbn [update_in fetch_from] in *.
  - destruct (put_post id data now w) as [r w'] eqn:E. cbn [fst snd] in *.
    destruct (put_post_cases _ _ _ _ _ _ E) as [[Hs _]|C]; [contradiction|].
    destruct C as (o & old & Hid & _ & F & Hnew & -> & Hw).
    exists (updated_post data now old). split; [reflexivity|].
    rewrite (get_post_run id o w' Hid), Hw. cbn [with_coll store posts].
    rewrite (find_replace_first _ _ _ _ F Hnew). cbn. auto.
  - destruct (put_produk id data now w) as [r w'] eqn:E. cbn [fst snd] in *.
    destruct (put_produk_cases _ _ _ _ _ _ E) as [[Hs _]|C]; [contradiction|].
    destruct C as (o & k & fs & old & Hid & _ & _ & _ & F & _ & Hnew & ->
                   & Hw).
    exists (updated_produk fs now old). split; [reflexivity|].
    rewrite (get_produk_run id o w' Hid), Hw. cbn [with_coll store produk].
    rewrite (find_replace_first _ _ _ _ F Hnew). cbn. auto.
Qed.

(** X7. Delete, then fetch: in a collection whose identifiers are unique,
    once a delete has answered 200 a look-up by the same identifier answers
    404, and so does a second delete. *)
Theorem deleted_document_is_gone (c : collection) (id : string) (w : world) :
  ids_unique (coll_of c (store w)) ->
  status (fst (delete_from c id w)) = 200 ->
  let w' := snd (delete_from c id w) in
  status (fst (fetch_from c id w')) = 404
  /\ status (fst (delete_from c id w')) = 404
  /\ store (snd (delete_from c id w')) = store w'.
Proof.
  intros U H200 w'. subst w'.
  assert (G : forall o d l, List.find (has_id o) l = Some d ->
              ids_unique l ->
              List.find (has_id o) (remove_first (has_id o) l) = None).
  { intros o d l F Hu. apply (find_remove_first_none (field "_id") _ _ d);
      [exact Hu | exact F |].
    intros x Hx. apply has_id_field in Hx. rewrite Hx. symmetry.
    apply has_id_field. apply (find_some _ _ F). }
  destruct c; cbn [delete_from fetch_from coll_of] in *.
  - destruct (delete_post id w) as [r w'] eqn:E. cbn [fst snd] in *.
    destruct (delete_post_cases _ _ _ _ E) as [[Hs _]|C]; [contradiction|].
    destruct C as (o & d & Hid & F & -> & Hw).
    pose proof (G o d _ F U) as Hg.
    rewrite (get_post_run id o w' Hid), Hw. cbn [with_coll store posts fst].
    rewrite Hg. split; [reflexivity|].
    destruct (delete_post id w') as [r2 w2] eqn:E2. cbn [fst snd].
    destruct (delete_post_cases _ _ _ _ E2) as [[Hs Hst]|C].
    2:{ destruct C as (o2 & d2 & Hid2 & F2 & _).
        rewrite Hid2 in Hid. injection Hid as ->.
        rewrite Hw in F2. cbn [with_coll store posts] in F2. congruence. }
    split; [|now rewrite Hst, Hw].
    destruct (new_ObjectId_parsed id o Hid) as [V N].
    unfold delete_post, try_catch in E2. rewrite V in E2. cbn [negb] in E2.
    rewrite N in E2. unfold bind at 1, lift at 1 in E2.
    unfold bind at 1 in E2. unfold db_findOne at 1, reading at 1 in E2.
    rewrite findOne_by_id in E2. rewrite Hw in E2.
    cbn [coll_of with_coll posts] in E2. rewrite Hg in E2.
    cbn in E2. now inversion E2.
  - destruct (delete_produk id w) as [r w'] eqn:E. cbn [fst snd] in *.
    destruct (delete_produk_cases _ _ _ _ E) as [[Hs _]|C]; [contradiction|].
    destruct C as (o & d & Hid & F & -> & Hw).
    pose proof (G o d _ F U) as Hg.
    rewrite (get_produk_run id o w' Hid), Hw.
    cbn [with_coll store produk fst].
    rewrite Hg. split; [reflexivity|].
    destruct (delete_produk id w') as [r2 w2] eqn:E2. cbn [fst snd].
    destruct (delete_produk_cases _ _ _ _ E2) as [[Hs Hst]|C].
    2:{ destruct C as (o2 & d2 & Hid2 & F2 & _).
        rewrite Hid2 in Hid. injection Hid as ->.
        rewrite Hw in F2. cbn [with_coll store produk] in F2. congruence. }
    split; [|now rewrite Hst, Hw].
    destruct (new_ObjectId_parsed id o Hid) as [V N].
    unfold delete_produk, try_catch in E2. rewrite V in E2. cbn [negb] in E2.
    rewrite N in E2. unfold bind at 1, lift at 1 in E2.
    unfold bind at 1 in E2. unfold db_findOne at 1, reading at 1 in E2.
    rewrite findOne_by_id in E2. rewrite Hw in E2.
    cbn [coll_of with_coll produk] in E2. rewrite Hg in E2.
    cbn in E2. now inversion E2.
Qed.

(** X8. An update never creates: when no document carries the identifier,
    the store is left as it was whatever the body, and for a body the route
    goes on with (not empty for a post, valid for a product) the answer is
    404. *)
Theorem update_never_creates (c : collection) (id : string) (o : N)
    (data : value) (now : Z) (w : world) :
  ObjectId_parse id = Some o ->
  List.find (has_id o) (coll_of c (store w)) = None ->
  store (snd (update_in c id data now w)) = store w
  /\ (acceptable c data -> status (fst (update_in c id data now w)) = 404).
Proof.
  intros Hid F. destruct (new_ObjectId_parsed id o Hid) as [V N].
  destruct c; cbn [update_in coll_of acceptable] in *.
  - split.
    + destruct (put_post id data now w) as [r w'] eqn:E. cbn [snd].
      destruct (put_post_cases _ _ _ _ _ _ E) as [[_ Hs]|C]; [exact Hs|].
      destruct C as (o2 & old & Hid2 & _ & F2 & _). congruence.
    + intro B. unfold put_post, try_catch. rewrite V, B. cbn [negb].
      rewrite N. unfold bind at 1, lift at 1. unfold bind at 1.
      unfold db_findOne at 1, reading at 1. rewrite findOne_by_id.
      cbn [coll_of]. now rewrite F.
  - split.
    + destruct (put_produk id data now w) as [r w'] eqn:E. cbn [snd].
      destruct (put_produk_cases _ _ _ _ _ _ E) as [[_ Hs]|C]; [exact Hs|].
      destruct C as (o2 & k & fs & old & Hid2 & _ & _ & _ & F2 & _).
      congruence.
    + intro B. unfold put_produk, try_catch. rewrite V. cbn [negb].
      unfold bind at 1, lift at 1. rewrite B.
      cbn [List.length Z.of_nat Z.ltb Z.compare].
      rewrite N. unfold bind at 1, lift at 1. unfold bind at 1.
      unfold db_findOne at 1, reading at 1. rewrite findOne_by_id.
      cbn [coll_of]. now rewrite F.
Qed.

End LookupsAndRoundTrips.

Section LookupsAndRoundTripsWitnesses.
Import Chars Num JS Store Server Service Contract Behaviour Examples.

Lemma lookup_by_identifier_witness :
  ObjectId_parse (Platform := P0) id2 = Some 2%N
  /\ lookup_outcome Produk (fetch_from (P := P0) Produk id2) 2 with_two.
Proof.
  split; [reflexivity|].
  apply (lookup_by_identifier (P := P0) Produk id2 2%N with_two).
  reflexivity.
Defined.

Lemma created_document_can_be_fetched_witness :
  let made := create_in (P := P0) Produk pen 1000 1000 1 empty in
  ObjectId_parse (Platform := P0) id1 = Some 1%N
  /\ status (fst made) = 201
  /\ shows (fst made) 1 pen_doc
  /\ status (fst (fetch_from (P := P0) Produk id1 (snd made))) = 200
  /\ says (fst (fetch_from (P := P0) Produk id1 (snd made))) "data"
       (ODoc pen_doc).
Proof.
  intro made.
  assert (H1 : ObjectId_parse (Platform := P0) id1 = Some 1%N)
    by reflexivity.
  assert (H2 : status (fst made) = 201) by reflexivity.
  assert (H3 : shows (fst made) 1 pen_doc) by (split; reflexivity).
  split; [exact H1|]. split; [exact H2|]. split; [exact H3|].
  exact (created_document_can_be_fetched (P := P0) Produk pen 1000 1000 1
           1 id1 pen_doc empty H1 H2 H3).
Defined.

Lemma updated_document_can_be_fetched_witness :
  let done := update_in (P := P0) Produk id1 marker 5000 with_pen in
  status (fst done) = 200
  /\ exists d,
       says (fst done) "data" (ODoc d)
       /\ status (fst (fetch_from (P := P0) Produk id1 (snd done))) = 200
       /\ says (fst (fetch_from (P := P0) Produk id1 (snd done))) "data"
            (ODoc d).
Proof.
  intro done.
  assert (H : status (fst done) = 200) by reflexivity.
  split; [exact H|].
  exact (updated_document_can_be_fetched (P := P0) Produk id1 marker 5000
           with_pen H).
Defined.

Lemma deleted_document_is_gone_witness :
  let gone := delete_from (P := P0) Produk id1 with_two in
  ids_unique (coll_of Produk (store with_two))
  /\ status (fst gone) = 200
  /\ status (fst (fetch_from (P := P0) Produk id1 (snd gone))) = 404
  /\ status (fst (delete_from (P := P0) Produk id1 (snd gone))) = 404
  /\ store (snd (delete_from (P := P0) Produk id1 (snd gone)))
     = store (snd gone).
Proof.
  intro gone.
  assert (U : ids_unique (coll_of Produk (store with_two))).
  { repeat constructor; cbn; intuition discriminate. }
  assert (H : status (fst gone) = 200) by reflexivity.
  split; [exact U|]. split; [exact H|].
  exact (deleted_document_is_gone (P := P0) Produk id1 with_two U H).
Defined.

Lemma update_never_creates_witness :
  ObjectId_parse (Platform := P0) id2 = Some 2%N
  /\ List.find (has_id 2) (coll_of Produk (store with_pen)) = None
  /\ acceptable Produk pencil
  /\ store (snd (update_in (P := P0) Produk id2 pencil 5000 with_pen))
     = store with_pen
  /\ status (fst (update_in (P := P0) Produk id2 pencil 5000 with_pen)) = 404.
Proof.
  assert (H1 : ObjectId_parse (Platform := P0) id2 = Some 2%N)
    by reflexivity.
  assert (H2 : List.find (has_id 2) (coll_of Produk (store with_pen)) = None)
    by reflexivity.
  assert (H3 : acceptable Produk pencil) by reflexivity.
  split; [exact H1|]. split; [exact H2|]. split; [exact H3|].
  destruct (update_never_creates (P := P0) Produk id2 2%N pencil 5000
              with_pen H1 H2) as [S T].
  split; [exact S | exact (T H3)].
Defined.

End LookupsAndRoundTripsWitnesses.

Section ProductWrites.
Import Chars Num JS Store Server Service Contract Behaviour Rules NumFacts
  StoreFacts ValidatorFacts HandlerFacts Effects Runs Invariants.
Context {P : Platform}.

(** X9. Whatever requests are served one after the other, a product
    collection that is in order stays in order: every product keeps an
    object identifier and fields the validator's rules allow, and no two
    products share an identifier or a code.  The routes' own checks give
    this, whether or not the unique index was built. *)
Theorem catalogue_stays_in_order (qs : list request) (w : world) :
  catalogue_ok (produk (store w)) ->
  catalogue_ok (produk (store (serve_all qs w))).
Proof.
  revert w. induction qs as [|q qs IH]; intros w C; [exact C|].
  cbn [serve_all fold_left]. apply IH. now apply serve_keeps_catalogue.
Qed.

(** X10. A payload that passes the validator, with optional texts that are
    strings or absent, a code no product has and a new identifier, is
    created: the answer is 201 and shows the document appended to the
    collection.  That document has exactly the eleven known fields: the
    trimmed code, the price and stock as [parseFloat] and [parseInt] read
    them, the two clock readings, and the status [aktif]; anything else in
    the payload is dropped. *)
Theorem valid_product_is_created (data : value) (t1 t2 : Z) (n : N)
    (k : string) (w : world) :
  Validator.validateProduk data = Ok [] ->
  text_ok (get data "deskripsi") = true ->
  text_ok (get data "supplier") = true ->
  kode_of data = Some k ->
  (forall d, In d (produk (store w)) ->
             has_kode k d = false /\ has_id n d = false) ->
  exists d,
    status (fst (post_produk data t1 t2 n w)) = 201
    /\ says (fst (post_produk data t1 t2 n w)) "data" (ODoc d)
    /\ produk (store (snd (post_produk data t1 t2 n w)))
       = produk (store w) ++ [d]
    /\ map fst d = produk_keys
    /\ field "_id" d = Some (BOid n)
    /\ field "kode_produk" d = Some (BJs (VStr k))
    /\ field "harga" d = Some (BJs (VNum (parseFloat (get data "harga"))))
    /\ field "stok" d = Some (BJs (VNum (parseInt (get data "stok"))))
    /\ field "tanggal_dibuat" d = Some (BDate (Some t1))
    /\ field "tanggal_diupdate" d = Some (BDate (Some t2))
    /\ field "status" d = Some (BJs (VStr "aktif")).
Proof.
  intros V D S Hk Free.
  destruct (produk_fields_total data V D S) as [fs Hfs].
  destruct (valid_payload_kode data V) as [Hobj _].
  pose proof (trimmed_kode_of data k Hobj Hk) as Tk.
  assert (F : List.find (has_kode k) (produk (store w)) = None).
  { apply find_all_false. intros d Hd. apply (Free d Hd). }
  assert (K : key_taken "_id" (BOid n) (produk (store w)) = false).
  { apply key_taken_id. intros d Hd. apply (Free d Hd). }
  rewrite (post_produk_creates data t1 t2 n w k fs V Tk Hfs F K).
  cbn [fst snd store status json with_coll produk].
  pose proof (produk_fields_kode data fs k Hfs Tk) as Hkode.
  destruct (produk_fields_valid data fs V Hfs)
    as (s1 & s2 & s3 & x & y & -> & _).
  cbn in Hkode. injection Hkode as <-.
  eexists. split; [reflexivity|]. split; [reflexivity|].
  split; [reflexivity|].
  repeat match goal with |- _ /\ _ => split end; reflexivity.
Qed.


(** X12. The optional texts are trimmed without a type check: on a payload
    that passes the validator but whose [deskripsi] or [supplier] is a
    truthy value other than a string, and whose code is free, the create
    answers 500 with the [TypeError] and stores nothing; an update with
    such a payload never answers 200 and never writes either. *)
Theorem non_text_optional_field_fails (id : string) (data : value)
    (t1 t2 : Z) (n : N) (k : string) (w : world) :
  Validator.validateProduk data = Ok [] ->
  text_ok (get data "deskripsi") = false
  \/ text_ok (get data "supplier") = false ->
  kode_of data = Some k ->
  (forall d, In d (produk (store w)) -> has_kode k d = false) ->
  status (fst (post_produk data t1 t2 n w)) = 500
  /\ says (fst (post_produk data t1 t2 n w)) "error" (OErr TypeError)
  /\ store (snd (post_produk data t1 t2 n w)) = store w
  /\ status (fst (put_produk id data t1 w)) <> 200
  /\ store (snd (put_produk id data t1 w)) = store w.
Proof.
  intros V T Hk Free.
  pose proof (produk_fields_untyped data V T) as Hfs.
  destruct (valid_payload_kode data V) as [Hobj _].
  pose proof (trimmed_kode_of data k Hobj Hk) as Tk.
  assert (F : List.find (has_kode k) (produk (store w)) = None)
    by now apply find_all_false.
  assert (Hpost : post_produk data t1 t2 n w
                  = (internal "Gagal menambahkan produk" TypeError,
                     issue (OpFindOne Produk
                              [Field "kode_produk" (Eq (BJs (VStr k)))]) w)).
  { unfold post_produk, try_catch.
    unfold bind at 1, lift at 1. rewrite V.
    cbn [List.length Z.of_nat Z.ltb Z.compare].
    unfold bind at 1, lift at 1. rewrite Tk.
    unfold bind at 1. unfold db_findOne at 1, reading at 1.
    rewrite findOne_with_kode. cbn [coll_of]. rewrite F.
    unfold bind at 1, lift at 1. rewrite Hfs. reflexivity. }
  rewrite Hpost. cbn [fst snd store issue].
  split; [reflexivity|]. split; [reflexivity|]. split; [reflexivity|].
  destruct (put_produk id data t1 w) as [r w'] eqn:E. cbn [fst snd].
  destruct (put_produk_cases _ _ _ _ _ _ E) as [X|X]; [exact X|].
  destruct X as (o & k' & fs & old & _ & _ & _ & Hfs' & _). congruence.
Qed.

End ProductWrites.

Section ProductWritesWitnesses.
Import Chars Num JS Store Server Service Contract Behaviour Rules Examples
  MoreExamples.

Lemma catalogue_stays_in_order_witness :
  catalogue_ok (produk (store empty))
  /\ catalogue_ok (produk (store (serve_all (P := P0) busy_day empty))).
Proof.
  assert (H : catalogue_ok (produk (store empty))).
  { repeat split; constructor. }
  split; [exact H|].
  exact (catalogue_stays_in_order (P := P0) busy_day empty H).
Defined.

Lemma valid_product_is_created_witness :
  Validator.validateProduk pen_with_extras = Ok []
  /\ kode_of pen_with_extras = Some "P1"
  /\ exists d,
       status (fst (post_produk (P := P0) pen_with_extras 10 20 9 empty))
       = 201
       /\ says (fst (post_produk (P := P0) pen_with_extras 10 20 9 empty))
            "data" (ODoc d)
       /\ produk (store (snd (post_produk (P := P0) pen_with_extras 10 20 9
                                empty))) = [d]
       /\ map fst d = produk_keys
       /\ field "status" d = Some (BJs (VStr "aktif")).
Proof.
  assert (H1 : Validator.validateProduk pen_with_extras = Ok [])
    by reflexivity.
  assert (H2 : kode_of pen_with_extras = Some "P1") by reflexivity.
  split; [exact H1|]. split; [exact H2|].
  destruct (valid_product_is_created (P := P0) pen_with_extras 10 20 9 "P1"
              empty H1 eq_refl eq_refl H2
              (fun d (Hd : In d []) => match Hd with end))
    as (d & A & B & S & C & _ & _ & _ & _ & _ & _ & E).
  exists d. repeat split; assumption.
Defined.


Lemma non_text_optional_field_fails_witness :
  Validator.validateProduk pen_described_by_number = Ok []
  /\ text_ok (get pen_described_by_number "deskripsi") = false
  /\ status (fst (post_produk (P := P0) pen_described_by_number 10 20 9
                    empty)) = 500
  /\ store (snd (post_produk (P := P0) pen_described_by_number 10 20 9
                   empty)) = store empty.
Proof.
  assert (H1 : Validator.validateProduk pen_described_by_number = Ok [])
    by reflexivity.
  assert (H2 : text_ok (get pen_described_by_number "deskripsi") = false)
    by reflexivity.
  split; [exact H1|]. split; [exact H2|].
  destruct (non_text_optional_field_fails (P := P0) id1
              pen_described_by_number 10 20 9 "P1" empty H1 (or_introl H2)
              eq_refl (fun d (Hd : In d []) => match Hd with end))
    as (A & _ & B & _).
  split; assumption.
Defined.

End ProductWritesWitnesses.

Section StartUp.
Import Boot BootFacts.

(** X13. The delay before the next connection attempt starts at one second,
    doubles with each failure up to the fifth, and is 30 seconds from then
    on: it never decreases and always lies between 1 and 30 seconds; the
    seconds written to the log are the delay exactly. *)
Theorem retry_delay_backs_off (retries : Z) :
  0 <= retries ->
  1000 <= retry_delay retries <= 30000
  /\ retry_delay retries <= retry_delay (retries + 1)
  /\ (retries <= 4 -> retry_delay retries = 1000 * 2 ^ retries)
  /\ (5 <= retries -> retry_delay retries = 30000)
  /\ 1000 * announced_seconds retries = retry_delay retries.
Proof.
  intro H.
  assert (B : retries <= 4 \/ 5 <= retries) by lia.
  assert (S : forall r, 0 <= r <= 4 -> 1 <= 2 ^ r <= 16).
  { intros r Hr. split.
    - change 1 with (2 ^ 0). apply Z.pow_le_mono_r; lia.
    - change 16 with (2 ^ 4). apply Z.pow_le_mono_r; lia. }
  assert (A : forall d, (2 * (1000 * d) + 1000) / 2000 = d).
  { intro d. replace (2 * (1000 * d) + 1000) with (d * 2000 + 1000) by lia.
    rewrite Z.div_add_l by lia. change (1000 / 2000) with 0. lia. }
  repeat match goal with |- _ /\ _ => split end.
  - destruct B as [B|B].
    + rewrite retry_delay_small by lia. specialize (S retries). lia.
    + rewrite retry_delay_capped by lia. lia.
  - destruct B as [B|B].
    + rewrite retry_delay_small by lia. specialize (S retries). lia.
    + rewrite retry_delay_capped by lia. lia.
  - destruct B as [B|B].
    + rewrite (retry_delay_small retries) by lia.
      assert (C : retries + 1 <= 4 \/ retries + 1 = 5) by lia.
      destruct C as [C|C].
      * rewrite retry_delay_small by lia.
        rewrite Z.pow_add_r by lia. specialize (S retries). lia.
      * rewrite retry_delay_capped by lia. specialize (S retries). lia.
    + rewrite !retry_delay_capped by lia. lia.
  - intro. apply retry_delay_small. lia.
  - apply retry_delay_capped.
  - unfold announced_seconds. destruct B as [B|B].
    + rewrite retry_delay_small by lia. now rewrite A.
    + rewrite retry_delay_capped by lia. reflexivity.
Qed.

Lemma retry_delay_backs_off_witness :
  0 <= 3
  /\ 1000 <= retry_delay 3 <= 30000
  /\ retry_delay 3 <= retry_delay (3 + 1)
  /\ (3 <= 4 -> retry_delay 3 = 1000 * 2 ^ 3)
  /\ (5 <= 3 -> retry_delay 3 = 30000)
  /\ 1000 * announced_seconds 3 = retry_delay 3.
Proof.
  split; [lia|]. apply (retry_delay_backs_off 3). lia.
Defined.

(** X14. After [n] failed attempts in a row the start-up has waited
    [2^n - 1] seconds in all when [n] is at most 5, and [30 n - 119]
    seconds beyond that. *)
Theorem total_wait_closed_form (failures : nat) :
  total_wait failures
  = if (failures <=? 5)%nat then 1000 * (2 ^ Z.of_nat failures - 1)
    else 30000 * Z.of_nat failures - 119000.
Proof.
  do 6 (destruct failures as [|failures]; [reflexivity|]).
  unfold total_wait.
  change (waits (S (S (S (S (S (S failures)))))) 0)
    with (retry_delay 0 :: retry_delay 1 :: retry_delay 2 :: retry_delay 3
          :: retry_delay 4 :: waits (S failures) 5).
  cbn [fold_right]. rewrite sum_waits_capped by lia.
  change (retry_delay 0) with 1000. change (retry_delay 1) with 2000.
  change (retry_delay 2) with 4000. change (retry_delay 3) with 8000.
  change (retry_delay 4) with 16000.
  change (S (S (S (S (S (S failures))))) <=? 5)%nat with false.
  cbv iota. lia.
Qed.

End StartUp.

Section Searches.
Import Chars Num JS Store Server Service Contract Behaviour Rules NumFacts
  StoreFacts ValidatorFacts HandlerFacts Queries.
Context {P : Platform}.

(** X15. An advanced search without any of its parameters (absent, or empty
    strings) is turned away on both collections: the answer is 400 with
    [success: false], and the world is left as it was, no query having been
    issued. *)
Theorem search_without_parameters_is_rejected (q : list (string * value))
    (w : world) :
  posts_search_given (VObj q) = false ->
  produk_search_given (VObj q) = false ->
  rejected (search_posts (VObj q)) w /\ rejected (search_produk (VObj q)) w.
Proof.
  intros G1 G2. unfold posts_search_given in G1.
  unfold produk_search_given in G2.
  unfold rejected, says, search_posts, search_produk, try_catch, bind, lift,
    prop. cbn [nullish].
  rewrite <- !negb_orb, G1, G2. cbn. repeat split.
Qed.

(** X16. The price bounds are respected: when [min_harga] or [max_harga] is
    given, every product the list route or the advanced search returns has
    a number as price, not below the lower bound and not above the upper
    one, each bound read with [parseFloat]. *)
Theorem price_range_is_respected (q : list (string * value)) (w : world)
    (docs : list document) (d : document) :
  truthy (get (VObj q) "min_harga") || truthy (get (VObj q) "max_harga")
  = true ->
  says (fst (get_produk_list (VObj q) w)) "data" (ODocs docs)
  \/ says (fst (search_produk (VObj q) w)) "data" (ODocs docs) ->
  In d docs ->
  In d (produk (store w))
  /\ within_price (get (VObj q) "min_harga") (get (VObj q) "max_harga") d.
Proof.
  intros G S Hd.
  assert (X : exists m f,
             filter_matcher f = Some m
             /\ In (Field "harga"
                      (bounds (get (VObj q) "min_harga")
                         (get (VObj q) "max_harga") harga_bound)) f
             /\ In d (produk (store w)) /\ m d = true).
  { destruct S as [S|S].
    - destruct (listed_products_match q w docs S) as (m & Hm & Hall).
      exists m, (produk_list_filter_of (VObj q)).
      split; [exact Hm|]. split; [|exact (Hall d Hd)].
      unfold produk_list_filter_of, produk_list_filter, push_clause.
      rewrite G. apply in_or_app. right. now left.
    - destruct (searched_products_match q w docs S) as (m & Hm & Hall).
      exists m, (produk_search_filter_of (VObj q)).
      split; [exact Hm|]. split; [|exact (Hall d Hd)].
      unfold produk_search_filter_of, produk_search_filter, push_clause.
      rewrite G.
      destruct (value_eqb _ _);
        [apply in_or_app; left|]; apply in_or_app; right; now left. }
  destruct X as (m & f & Hm & Hin & Hcoll & Hmd).
  split; [exact Hcoll|].
  destruct (filter_matcher_field f m _ _ Hm Hin) as (mc & Hc & Hmc).
  unfold bounds in Hc. cbn [cond_matcher] in Hc. injection Hc as <-.
  specialize (Hmc d Hmd). unfold range_match in Hmc. unfold within_price.
  destruct (field "harga" d) as [x|]; [|discriminate Hmc].
  apply andb_prop in Hmc. destruct Hmc as [L U]. unfold harga_bound in L, U.
  destruct x as [[| | |x| | |]| |];
    try (destruct (truthy (get (VObj q) "min_harga")),
           (truthy (get (VObj q) "max_harga"));
         cbn in G, L, U; discriminate).
  exists x. split; [reflexivity|]. split.
  - intro T. rewrite T in L. cbn [class_le] in L.
    now apply num_total_le_lower.
  - intro T. rewrite T in U. cbn [class_le] in U.
    now apply num_total_le_upper.
Qed.

(** X17. With [stok_kosong=true], every product the advanced search returns
    has a number as stock that is zero or less. *)
Theorem out_of_stock_filter_is_respected (q : list (string * value))
    (w : world) (docs : list document) (d : document) :
  get (VObj q) "stok_kosong" = VStr "true" ->
  says (fst (search_produk (VObj q) w)) "data" (ODocs docs) ->
  In d docs ->
  In d (produk (store w)) /\ out_of_stock d.
Proof.
  intros G S Hd.
  destruct (searched_products_match q w docs S) as (m & Hm & Hall).
  destruct (Hall d Hd) as [Hcoll Hmd]. split; [exact Hcoll|].
  assert (Hin : In (Field "stok" (Range None (Some (BJs (VNum (of_Z 0))))))
                  (produk_search_filter_of (VObj q))).
  { unfold produk_search_filter_of, produk_search_filter, push_clause.
    rewrite G. cbn [value_eqb]. apply in_or_app. right. now left. }
  destruct (filter_matcher_field _ m _ _ Hm Hin) as (mc & Hc & Hmc).
  cbn [cond_matcher] in Hc. injection Hc as <-.
  specialize (Hmc d Hmd). unfold range_match in Hmc. unfold out_of_stock.
  destruct (field "stok" d) as [x|]; [|discriminate Hmc].
  cbn [andb] in Hmc.
  destruct x as [[| | |x| | |]| |]; try discriminate Hmc.
  exists x. split; [reflexivity|]. cbn [class_le] in Hmc.
  now apply num_total_le_upper.
Qed.

(** X18. Only the exact text [true] turns the stock filter on: any other
    truthy [stok_kosong] counts as a search parameter but adds no
    condition, so given alone it makes the advanced search return the 100
    most recent products, whatever their stock. *)
Theorem other_stok_kosong_values_filter_nothing (q : list (string * value))
    (w : world) :
  truthy (get (VObj q) "stok_kosong") = true ->
  get (VObj q) "stok_kosong" <> VStr "true" ->
  truthy (get (VObj q) "nama") = false ->
  truthy (get (VObj q) "kode") = false ->
  truthy (get (VObj q) "kategori") = false ->
  truthy (get (VObj q) "min_harga") = false ->
  truthy (get (VObj q) "max_harga") = false ->
  truthy (get (VObj q) "supplier") = false ->
  search_outcome Produk (search_produk (VObj q)) [] (fun _ => true)
    "tanggal_dibuat" 100 "filters_applied" w.
Proof.
  intros T N H1 H2 H3 H4 H5 H6.
  assert (F : produk_search_filter_of (VObj q) = []).
  { unfold produk_search_filter_of, produk_search_filter.
    rewrite H1, H2, H3, H4, H5, H6. cbn [orb].
    destruct (get (VObj q) "stok_kosong") as [| | | |s| |];
      try reflexivity.
    cbn [value_eqb]. destruct (String.eqb s "true") eqn:E; [|reflexivity].
    apply String.eqb_eq in E. now subst. }
  rewrite <- F. apply search_produk_run.
  - unfold produk_search_given. rewrite T. now rewrite !orb_true_r.
  - now rewrite F.
Qed.

(** X29. Every post the advanced search returns is a post of the
    collection that meets each criterion given: for [title], [author] and
    [content], the field matches the parameter read as a pattern; when a
    date bound is given, [created_at] is a date within the bounds. *)
Theorem posts_search_results_match (q : list (string * value)) (w : world)
    (docs : list document) (d : document) :
  says (fst (search_posts (VObj q) w)) "data" (ODocs docs) ->
  In d docs ->
  In d (posts (store w))
  /\ (forall k, In k ["title"; "author"; "content"] ->
                truthy (get (VObj q) k) = true ->
                text_matches (get (VObj q) k) k d)
  /\ (truthy (get (VObj q) "date_from") || truthy (get (VObj q) "date_to")
      = true ->
      within_dates (get (VObj q) "date_from") (get (VObj q) "date_to") d).
Proof.
  intros S Hd.
  destruct (searched_posts_match q w docs S) as (m & Hm & Hall).
  destruct (Hall d Hd) as [Hcoll Hmd]. split; [exact Hcoll|]. split.
  - intros k Hk T.
    assert (Hin : In (Field k (regex (get (VObj q) k)))
                    (posts_search_filter_of (VObj q))).
    { apply posts_search_filter_text; [|exact T].
      destruct Hk as [<-|[<-|[<-|[]]]]; cbn; tauto. }
    destruct (filter_matcher_field _ m _ _ Hm Hin) as (mc & Hc & Hmc).
    unfold regex in Hc. cbn [cond_matcher] in Hc.
    destruct (get (VObj q) k) as [| | | |p| |]; try discriminate Hc.
    destruct (regex_compile p) as [mp|] eqn:R; [|discriminate Hc].
    injection Hc as <-. exists p, mp.
    split; [reflexivity|]. split; [exact R|]. now apply Hmc.
  - intro G.
    pose proof (posts_search_filter_dates (get (VObj q) "title")
                  (get (VObj q) "author") (get (VObj q) "content")
                  (get (VObj q) "date_from") (get (VObj q) "date_to") G)
      as Hin.
    destruct (filter_matcher_field _ m _ _ Hm Hin) as (mc & Hc & Hmc).
    unfold bounds in Hc. cbn [cond_matcher] in Hc. injection Hc as <-.
    specialize (Hmc d Hmd). unfold range_match in Hmc. unfold within_dates.
    destruct (field "created_at" d) as [x|]; [|discriminate Hmc].
    apply andb_prop in Hmc. destruct Hmc as [L U].
    destruct x as [[| | |x| | |]|t|n];
      try (destruct (truthy (get (VObj q) "date_from")),
             (truthy (get (VObj q) "date_to"));
           cbn in G, L, U; discriminate).
    exists t. split; [reflexivity|]. split.
    + intro T. rewrite T in L. cbn [class_le] in L. now apply Z.leb_le.
    + intro T. rewrite T in U. cbn [class_le] in U. now apply Z.leb_le.
Qed.

End Searches.

Section SearchesWitnesses.
Import Chars Num JS Store Server Service Contract Behaviour Rules Examples
  MoreExamples.

Lemma search_without_parameters_is_rejected_witness :
  posts_search_given (VObj no_parameters) = false
  /\ produk_search_given (VObj no_parameters) = false
  /\ rejected (search_posts (P := P0) (VObj no_parameters)) with_post
  /\ rejected (search_produk (P := P0) (VObj no_parameters)) with_post.
Proof.
  split; [reflexivity|]. split; [reflexivity|].
  exact (search_without_parameters_is_rejected (P := P0) no_parameters
           with_post eq_refl eq_refl).
Defined.

Lemma price_range_is_respected_witness :
  says (fst (get_produk_list (P := P0) (VObj priced_4_to_6) with_three))
    "data" (ODocs [pen_doc])
  /\ In pen_doc (produk (store with_three))
  /\ within_price (VStr "4") (VStr "6") pen_doc.
Proof.
  assert (S : says (fst (get_produk_list (P := P0) (VObj priced_4_to_6)
                           with_three)) "data" (ODocs [pen_doc]))
    by reflexivity.
  split; [exact S|].
  exact (price_range_is_respected (P := P0) priced_4_to_6 with_three
           [pen_doc] pen_doc eq_refl (or_introl S) (or_introl eq_refl)).
Defined.

Lemma out_of_stock_filter_is_respected_witness :
  says (fst (search_produk (P := P0) (VObj sold_out) with_three))
    "data" (ODocs [eraser_doc])
  /\ In eraser_doc (produk (store with_three))
  /\ out_of_stock eraser_doc.
Proof.
  assert (S : says (fst (search_produk (P := P0) (VObj sold_out)
                           with_three)) "data" (ODocs [eraser_doc]))
    by reflexivity.
  split; [exact S|].
  exact (out_of_stock_filter_is_respected (P := P0) sold_out with_three
           [eraser_doc] eraser_doc eq_refl S (or_introl eq_refl)).
Defined.

Lemma other_stok_kosong_values_filter_nothing_witness :
  truthy (get (VObj sold_out_yes) "stok_kosong") = true
  /\ get (VObj sold_out_yes) "stok_kosong" <> VStr "true"
  /\ search_outcome Produk (search_produk (P := P0) (VObj sold_out_yes)) []
       (fun _ => true) "tanggal_dibuat" 100 "filters_applied" with_three.
Proof.
  assert (N : get (VObj sold_out_yes) "stok_kosong" <> VStr "true")
    by discriminate.
  split; [reflexivity|]. split; [exact N|].
  exact (other_stok_kosong_values_filter_nothing (P := P0) sold_out_yes
           with_three eq_refl N eq_refl eq_refl eq_refl eq_refl eq_refl
           eq_refl).
Defined.

Lemma posts_search_results_match_witness :
  says (fst (search_posts (P := P0) (VObj hello_from_1970) with_post))
    "data" (ODocs [hello])
  /\ text_matches (P := P0) (VStr "hello") "title" hello
  /\ within_dates (P := P0) (VStr "1970-01-01") VUndefined hello.
Proof.
  assert (S : says (fst (search_posts (P := P0) (VObj hello_from_1970)
                           with_post)) "data" (ODocs [hello]))
    by reflexivity.
  split; [exact S|].
  destruct (posts_search_results_match (P := P0) hello_from_1970 with_post
              [hello] hello S (or_introl eq_refl)) as (_ & A & B).
  split.
  - exact (A "title" (or_introl eq_refl) eq_refl).
  - exact (B eq_refl).
Defined.

End SearchesWitnesses.

Section Pages.
Import Chars Num JS Store Server Service Contract Behaviour Rules NumFacts
  StoreFacts ValidatorFacts HandlerFacts Queries.
Context {P : Platform}.

(** X19. [limit=0] lifts the page size: the store reads a limit of 0 as no
    limit and the skip is then 0 whatever the page, so either list route
    answers 200 with every matching document of the collection. *)
Theorem limit_zero_lifts_the_cap (c : collection) (q : list (string * value))
    (p : Z) (m : document -> bool) (w : world) :
  requested (VObj q) "limit" 10 0 ->
  requested (VObj q) "page" 1 p ->
  filter_matcher (list_filter c (VObj q)) = Some m ->
  status (fst (list_from c (VObj q) w)) = 200
  /\ says (fst (list_from c (VObj q) w)) "data" (ODocs (listing c m w))
  /\ store (snd (list_from c (VObj q) w)) = store w.
Proof.
  intros Hl Hp Hm. unfold requested in Hl, Hp.
  destruct (list_from_eq c q w (listing c m w)
              (count m (coll_of c (store w)))) as (A & B & _ & D).
  - rewrite Hl, Hp, skip_of_Z, Z.mul_0_r. unfold find.
    rewrite Hm, !as_integer_of_Z. reflexivity.
  - now apply countDocuments_matching.
  - repeat split; assumption.
Qed.

(** X20. A page below 1 with a limit of 1 or more makes the skip negative,
    which the store refuses: either list route answers 500 with
    [success: false], and the store is left as it was. *)
Theorem page_below_one_fails (c : collection) (q : list (string * value))
    (p l : Z) (w : world) :
  requested (VObj q) "page" 1 p ->
  requested (VObj q) "limit" 10 l ->
  p <= 0 -> 1 <= l ->
  status (fst (list_from c (VObj q) w)) = 500
  /\ says (fst (list_from c (VObj q) w)) "success" (OJs (VBool false))
  /\ store (snd (list_from c (VObj q) w)) = store w.
Proof.
  intros Hp Hl Pp Pl. unfold requested in Hl, Hp.
  apply list_from_fails with BadValue.
  rewrite Hl, Hp, skip_of_Z. unfold find.
  destruct (filter_matcher _); [|reflexivity].
  rewrite !as_integer_of_Z.
  assert (((p - 1) * l <? 0) = true) as -> by (apply Z.ltb_lt; nia).
  reflexivity.
Qed.

(** X21. For a page [p >= 1] of size [l >= 1] over [n] matching documents,
    either list route returns [min l (max 0 (n - (p - 1) l))] documents,
    and its pagination block reads, in whole numbers: total pages
    [(n + l - 1) / l], [has_next] true exactly when [p l < n], that is when
    documents remain beyond this page, [has_prev] true exactly when
    [p > 1]. *)
Theorem page_size_and_has_next (c : collection) (q : list (string * value))
    (p l : Z) (m : document -> bool) (w : world) :
  requested (VObj q) "page" 1 p ->
  requested (VObj q) "limit" 10 l ->
  1 <= p -> 1 <= l ->
  filter_matcher (list_filter c (VObj q)) = Some m ->
  let n := count m (coll_of c (store w)) in
  exists docs,
    says (fst (list_from c (VObj q) w)) "data" (ODocs docs)
    /\ Z.of_nat (List.length docs) = page_size p l n
    /\ says (fst (list_from c (VObj q) w)) "pagination" (page_block p l n).
Proof.
  intros Hp Hl Pp Pl Hm n.
  destruct (list_from_page c q p l m w Hp Hl Pp Pl Hm)
    as (_ & D & G & _).
  eexists. split; [exact D|]. split.
  - rewrite page_of_length by assumption. unfold n, count.
    now rewrite (Permutation_length (sort_desc_perm _ _)).
  - rewrite <- page_meta_block by exact Pl. exact G.
Qed.

(** X22. Consecutive pages adjoin when no two matching documents tie on
    the sort key: with [s] the matching documents in strictly decreasing
    key order, for the same filter and page size the documents of page [p]
    followed by those of page [p + 1] are the [2 l] documents that follow
    the first [(p - 1) l] of [s], so that no document is skipped or
    repeated between the two pages. *)
Theorem consecutive_pages_adjoin (c : collection)
    (q1 q2 : list (string * value)) (p l : Z) (m : document -> bool)
    (w : world) (s : list document) :
  requested (VObj q1) "page" 1 p ->
  requested (VObj q2) "page" 1 (p + 1) ->
  requested (VObj q1) "limit" 10 l ->
  requested (VObj q2) "limit" 10 l ->
  1 <= p -> 1 <= l ->
  list_filter c (VObj q2) = list_filter c (VObj q1) ->
  filter_matcher (list_filter c (VObj q1)) = Some m ->
  strict_listing c m w s ->
  exists docs1 docs2,
    says (fst (list_from c (VObj q1) w)) "data" (ODocs docs1)
    /\ says (fst (list_from c (VObj q2) w)) "data" (ODocs docs2)
    /\ docs1 ++ docs2
       = firstn (Z.to_nat (2 * l)) (skipn (Z.to_nat ((p - 1) * l)) s).
Proof.
  intros Hp1 Hp2 Hl1 Hl2 Pp Pl Hf Hm [Sp Ss].
  destruct (list_from_page c q1 p l m w Hp1 Hl1 Pp Pl Hm)
    as (_ & D1 & _).
  rewrite <- Hf in Hm.
  destruct (list_from_page c q2 (p + 1) l m w Hp2 Hl2 ltac:(lia) Pl Hm)
    as (_ & D2 & _).
  rewrite (sort_desc_strict _ _ s Sp Ss) in D1, D2.
  eexists. eexists. split; [exact D1|]. split; [exact D2|].
  now apply pages_adjoin.
Qed.

End Pages.

Section PagesWitnesses.
Import Chars Num JS Store Server Service Contract Behaviour Rules Examples
  MoreExamples.

Lemma limit_zero_lifts_the_cap_witness :
  requested (VObj whole_list) "limit" 10 0
  /\ status (fst (list_from (P := P0) Produk (VObj whole_list) with_three))
     = 200
  /\ says (fst (list_from (P := P0) Produk (VObj whole_list) with_three))
       "data" (ODocs [eraser_doc; pencil_doc; pen_doc]).
Proof.
  assert (H : requested (VObj whole_list) "limit" 10 0) by reflexivity.
  split; [exact H|].
  destruct (limit_zero_lifts_the_cap (P := P0) Produk whole_list 1
              (fun _ => true) with_three H eq_refl eq_refl) as (A & B & _).
  split; [exact A | exact B].
Defined.

Lemma page_below_one_fails_witness :
  requested (VObj page_zero) "page" 1 0
  /\ requested (VObj page_zero) "limit" 10 10
  /\ status (fst (list_from (P := P0) Posts (VObj page_zero) with_post))
     = 500.
Proof.
  assert (H1 : requested (VObj page_zero) "page" 1 0) by reflexivity.
  assert (H2 : requested (VObj page_zero) "limit" 10 10) by reflexivity.
  split; [exact H1|]. split; [exact H2|].
  exact (proj1 (page_below_one_fails (P := P0) Posts page_zero 0 10
                  with_post H1 H2 ltac:(lia) ltac:(lia))).
Defined.

Lemma page_size_and_has_next_witness :
  requested (VObj second_of_two) "page" 1 2
  /\ requested (VObj second_of_two) "limit" 10 2
  /\ exists docs,
       says (fst (list_from (P := P0) Produk (VObj second_of_two)
                    with_three)) "data" (ODocs docs)
       /\ Z.of_nat (List.length docs) = 1
       /\ says (fst (list_from (P := P0) Produk (VObj second_of_two)
                       with_three)) "pagination" (page_block 2 2 3).
Proof.
  assert (H1 : requested (VObj second_of_two) "page" 1 2) by reflexivity.
  assert (H2 : requested (VObj second_of_two) "limit" 10 2) by reflexivity.
  split; [exact H1|]. split; [exact H2|].
  exact (page_size_and_has_next (P := P0) Produk second_of_two 2 2
           (fun _ => true) with_three H1 H2 ltac:(lia) ltac:(lia) eq_refl).
Defined.

Lemma consecutive_pages_adjoin_witness :
  requested (VObj first_of_two) "page" 1 1
  /\ requested (VObj second_of_two) "page" 1 (1 + 1)
  /\ strict_listing Produk (fun _ => true) with_three
       [eraser_doc; pencil_doc; pen_doc]
  /\ exists docs1 docs2,
       says (fst (list_from (P := P0) Produk (VObj first_of_two)
                    with_three)) "data" (ODocs docs1)
       /\ says (fst (list_from (P := P0) Produk (VObj second_of_two)
                       with_three)) "data" (ODocs docs2)
       /\ docs1 ++ docs2 = [eraser_doc; pencil_doc; pen_doc].
Proof.
  assert (H1 : requested (VObj first_of_two) "page" 1 1) by reflexivity.
  assert (H2 : requested (VObj second_of_two) "page" 1 (1 + 1))
    by reflexivity.
  assert (S : strict_listing Produk (fun _ => true) with_three
                [eraser_doc; pencil_doc; pen_doc]).
  { split.
    - apply Permutation_sym.
      exact (Permutation_rev [pen_doc; pencil_doc; eraser_doc]).
    - repeat constructor. }
  split; [exact H1|]. split; [exact H2|]. split; [exact S|].
  exact (consecutive_pages_adjoin (P := P0) Produk first_of_two
           second_of_two 1 2 (fun _ => true) with_three
           [eraser_doc; pencil_doc; pen_doc] H1 H2 eq_refl
           eq_refl ltac:(lia) ltac:(lia) eq_refl eq_refl S).
Defined.

End PagesWitnesses.

Section PostWrites.
Import Chars Num JS Store Server Service Contract Behaviour Rules NumFacts
  StoreFacts ValidatorFacts HandlerFacts Runs Documents.
Context {P : Platform}.

(** X23. A post request without content (no body, or a body without any
    property) is turned away by the create and by the update under a
    well-formed identifier: the answer is 400 with [success: false] and the
    world is left as it was, no query having been issued. *)
Theorem empty_body_is_rejected (id : string) (o : N) (body : value)
    (t1 t2 : Z) (generated : N) (w : world) :
  ObjectId_parse id = Some o ->
  is_empty_body body = true ->
  rejected (post_post body t1 t2 generated) w
  /\ rejected (put_post id body t1) w.
Proof.
  intros Hid B. destruct (new_ObjectId_parsed id o Hid) as [V _].
  unfold rejected, says, post_post, put_post, try_catch.
  rewrite V, B. cbn. repeat split.
Qed.

(** X24. A post with content, without an [_id] of its own, is created under
    the identifier the driver generates when no post has it yet: the answer
    is 201 and shows the document appended to the collection, whose
    [created_at] and [updated_at] are the two clock readings, whatever the
    body said, and whose other fields are those of the body. *)
Theorem post_is_created_with_stamps (body : value) (t1 t2 : Z)
    (generated : N) (w : world) :
  is_empty_body body = false ->
  field "_id" (spread body) = None ->
  (forall d, In d (posts (store w)) -> has_id generated d = false) ->
  exists d,
    status (fst (post_post body t1 t2 generated w)) = 201
    /\ says (fst (post_post body t1 t2 generated w)) "data" (ODoc d)
    /\ posts (store (snd (post_post body t1 t2 generated w)))
       = posts (store w) ++ [d]
    /\ field "_id" d = Some (BOid generated)
    /\ field "created_at" d = Some (BDate (Some t1))
    /\ field "updated_at" d = Some (BDate (Some t2))
    /\ (forall k, k <> "_id" -> k <> "created_at" -> k <> "updated_at" ->
                  field k d = field k (spread body)).
Proof.
  intros B Hid Free.
  set (stored := ("_id", BOid generated)
                 :: remove_field "_id" (stamped_post body t1 t2)).
  assert (Hs : with_id generated (stamped_post body t1 t2) = Ok stored).
  { unfold with_id, stamped_post. rewrite !field_set_field.
    cbn [String.eqb Ascii.eqb Bool.eqb]. now rewrite Hid. }
  assert (K : key_taken "_id" (index_key "_id" stored) (posts (store w))
              = false).
  { change (index_key "_id" stored) with (BOid generated).
    now apply key_taken_id. }
  rewrite (post_post_creates body t1 t2 generated w stored B Hs K).
  cbn [fst snd store status json with_coll posts].
  exists stored. split; [reflexivity|]. split; [reflexivity|].
  split; [reflexivity|]. split; [reflexivity|].
  assert (F : forall k, k <> "_id" ->
                field k stored = field k (stamped_post body t1 t2)).
  { intros k Hk. unfold stored. rewrite field_cons_other by exact Hk.
    rewrite field_remove_field.
    now destruct (String.eqb_spec k "_id"). }
  split; [|split].
  - rewrite F by discriminate. unfold stamped_post.
    rewrite !field_set_field. reflexivity.
  - rewrite F by discriminate. unfold stamped_post.
    rewrite !field_set_field. reflexivity.
  - intros k K1 K2 K3. rewrite F by exact K1. unfold stamped_post.
    rewrite !field_set_field.
    destruct (String.eqb_spec k "updated_at"); [contradiction|].
    now destruct (String.eqb_spec k "created_at").
Qed.

(** X25. A post update whose body names top-level fields only (no empty
    name, none with a dot or beginning with a dollar sign) and that answers
    200 has merged the body into the stored post, in place: the fields the
    body names take the body's values, [updated_at] takes the clock
    reading, every other field, [_id] included, stays, and so do the other
    posts and their order. *)
Theorem post_update_merges (id : string) (body : value) (now : Z)
    (w : world) :
  top_level_body body ->
  status (fst (put_post id body now w)) = 200 ->
  exists o old new before after,
    ObjectId_parse id = Some o
    /\ List.find (has_id o) (posts (store w)) = Some old
    /\ posts (store w) = before ++ old :: after
    /\ posts (store (snd (put_post id body now w)))
       = before ++ new :: after
    /\ says (fst (put_post id body now w)) "data" (ODoc new)
    /\ field "_id" new = Some (BOid o)
    /\ field "updated_at" new = Some (BDate (Some now))
    /\ (forall k, k <> "updated_at" ->
                  field k new = match field k (spread body) with
                                | Some v => Some v
                                | None => field k old
                                end).
Proof.
  intros _ H.
  destruct (put_post id body now w) as [r w'] eqn:E. cbn [fst snd] in *.
  destruct (put_post_cases _ _ _ _ _ _ E) as [[Hs _]|C]; [contradiction|].
  destruct C as (o & old & Hid & _ & F & Hnew & -> & ->).
  destruct (replace_first_split (has_id o) (updated_post body now old) _ _ F)
    as (before & after & Hb & Ha).
  exists o, old, (updated_post body now old), before, after.
  cbn [with_coll store posts].
  split; [exact Hid|]. split; [exact F|]. split; [exact Hb|].
  split; [exact Ha|]. split; [reflexivity|].
  split; [now apply has_id_field|].
  assert (N : NoDup (map fst (set_field "updated_at" (BDate (Some now))
                                (spread body)))).
  { apply set_field_keys, spread_keys. }
  split.
  - unfold updated_post. apply field_apply_set_in; [exact N|].
    rewrite field_set_field. reflexivity.
  - intros k Hk. unfold updated_post.
    destruct (field k (spread body)) as [v|] eqn:Fk.
    + apply field_apply_set_in; [exact N|]. rewrite field_set_field.
      now destruct (String.eqb_spec k "updated_at").
    + apply field_apply_set_none. rewrite field_set_field.
      now destruct (String.eqb_spec k "updated_at").
Qed.

End PostWrites.

Section PostWritesWitnesses.
Import Chars Num JS Store Server Service Contract Behaviour Rules Examples
  MoreExamples.

Lemma empty_body_is_rejected_witness :
  ObjectId_parse (Platform := P0) id7 = Some 7%N
  /\ is_empty_body nothing = true
  /\ rejected (post_post nothing 10 20 9) with_post
  /\ rejected (put_post (P := P0) id7 nothing 10) with_post.
Proof.
  split; [reflexivity|]. split; [reflexivity|].
  exact (empty_body_is_rejected (P := P0) id7 7%N nothing 10 20 9 with_post
           eq_refl eq_refl).
Defined.

Lemma post_is_created_with_stamps_witness :
  is_empty_body news = false
  /\ field "_id" (spread news) = None
  /\ exists d,
       status (fst (post_post news 10 20 9 with_post)) = 201
       /\ says (fst (post_post news 10 20 9 with_post)) "data"
            (ODoc d)
       /\ posts (store (snd (post_post news 10 20 9 with_post)))
          = [hello; d]
       /\ field "created_at" d = Some (BDate (Some 10))
       /\ field "title" d = Some (BJs (VStr "News")).
Proof.
  split; [reflexivity|]. split; [reflexivity|].
  destruct (post_is_created_with_stamps news 10 20 9 with_post
              eq_refl eq_refl
              (fun d (Hd : In d [hello]) =>
                 match Hd with
                 | or_introl E => match E in _ = x return has_id 9 x = false
                                  with eq_refl => eq_refl end
                 | or_intror F => match F with end
                 end))
    as (d & A & B & S & _ & C & _ & D).
  exists d. split; [exact A|]. split; [exact B|]. split; [exact S|].
  split; [exact C|].
  exact (D "title" ltac:(discriminate) ltac:(discriminate)
           ltac:(discriminate)).
Defined.

Lemma post_update_merges_witness :
  top_level_body retitle
  /\ status (fst (put_post (P := P0) id7 retitle 5000 with_post)) = 200
  /\ exists o old new before after,
       ObjectId_parse (Platform := P0) id7 = Some o
       /\ List.find (has_id o) (posts (store with_post)) = Some old
       /\ posts (store with_post) = before ++ old :: after
       /\ posts (store (snd (put_post (P := P0) id7 retitle 5000
                               with_post)))
          = before ++ new :: after
       /\ says (fst (put_post (P := P0) id7 retitle 5000 with_post)) "data"
            (ODoc new)
       /\ field "_id" new = Some (BOid o)
       /\ field "updated_at" new = Some (BDate (Some 5000))
       /\ (forall k, k <> "updated_at" ->
                     field k new = match field k (spread retitle) with
                                   | Some v => Some v
                                   | None => field k old
                                   end).
Proof.
  assert (T : top_level_body retitle) by reflexivity.
  assert (H : status (fst (put_post (P := P0) id7 retitle 5000 with_post))
              = 200) by reflexivity.
  split; [exact T|]. split; [exact H|].
  exact (post_update_merges (P := P0) id7 retitle 5000 with_post T H).
Defined.

End PostWritesWitnesses.

Section UpdatesAndHealth.
Import Chars Num JS Store Server Service Contract Behaviour Rules NumFacts
  StoreFacts ValidatorFacts HandlerFacts Runs Invariants Queries Documents.
Context {P : Platform}.

(** X26. In a product collection that is in order, an update is applied
    when the identifier is that of a product, the payload passes the
    validator with optional texts that are strings or absent, its code is
    either free or the product's own, and the clock reading is not the
    stamp the product already carries: the answer is 200 and shows the new
    document, which replaces the old one in place under the same
    identifier, with the payload's trimmed code and the clock reading as
    update stamp. *)
Theorem valid_update_is_applied (id : string) (o : N) (data : value)
    (now : Z) (w : world) (old : document) (k : string) :
  ObjectId_parse id = Some o ->
  catalogue_ok (produk (store w)) ->
  List.find (has_id o) (produk (store w)) = Some old ->
  Validator.validateProduk data = Ok [] ->
  text_ok (get data "deskripsi") = true ->
  text_ok (get data "supplier") = true ->
  kode_of data = Some k ->
  (forall d, In d (produk (store w)) -> has_kode k d = true ->
             has_id o d = true) ->
  stamp_differs old now ->
  exists new,
    status (fst (put_produk id data now w)) = 200
    /\ says (fst (put_produk id data now w)) "data" (ODoc new)
    /\ produk (store (snd (put_produk id data now w)))
       = replace_first (has_id o) new (produk (store w))
    /\ field "_id" new = Some (BOid o)
    /\ field "kode_produk" new = Some (BJs (VStr k))
    /\ field "tanggal_diupdate" new = Some (BDate (Some now)).
Proof.
  intros Hid C F V Td Ts Hk Own St.
  destruct (produk_fields_total data V Td Ts) as [fs Hfs].
  destruct (valid_payload_kode data V) as [Hobj _].
  pose proof (trimmed_kode_of data k Hobj Hk) as Tk.
  assert (Hold : field "_id" old = Some (BOid o)).
  { apply has_id_field. apply (find_some _ _ F). }
  assert (Hstamp : field "tanggal_diupdate" (updated_produk fs now old)
                   = Some (BDate (Some now))).
  { apply field_apply_set_last. }
  assert (D : List.find (fun d => has_kode k d && negb (has_id o d))
                (produk (store w)) = None).
  { apply find_all_false. intros d Hd.
    destruct (has_kode k d) eqn:Hkd; [|reflexivity].
    now rewrite (Own d Hd Hkd). }
  assert (Hne : doc_eqb (updated_produk fs now old) old = false).
  { destruct (doc_eqb _ old) eqn:E; [|reflexivity]. exfalso.
    pose proof (doc_eqb_field "tanggal_diupdate" _ _ E) as X.
    rewrite Hstamp in X. unfold stamp_differs in St.
    destruct (field "tanggal_diupdate" old) as [[v|t|n]|];
      try discriminate X; try contradiction.
    cbn in X. apply Z.eqb_eq in X. now apply St. }
  assert (Hu : kode_index (store w) = true ->
               bson_eqb (BJs (VStr k)) (index_key "kode_produk" old) = false ->
               key_taken "kode_produk" (BJs (VStr k)) (produk (store w))
               = false).
  { intros _ B. destruct (key_taken _ _ _) eqn:K; [|reflexivity]. exfalso.
    unfold key_taken in K. apply existsb_exists in K.
    destruct K as (d & Hd & Hb).
    pose proof (eq_match_index_key "kode_produk" (BJs (VStr k)) d eq_refl
                  Hb) as Hkd.
    pose proof (Own d Hd Hkd) as Hod. apply has_id_field in Hod.
    destruct C as (_ & _ & Ni & _).
    assert (d = old) as ->.
    { apply (NoDup_map_same (field "_id") (produk (store w)));
        [exact Ni | exact Hd | apply (find_some _ _ F) | congruence]. }
    destruct (index_key "kode_produk" old) as [[| | | |s| |]| |];
      try discriminate Hb.
    cbn in Hb, B. rewrite String.eqb_sym in B. congruence. }
  destruct (put_produk_updates id o data now w k fs old Hid V Tk Hfs F D Hne
              Hu) as [tr ->].
  cbn [fst snd store status json with_coll produk].
  exists (updated_produk fs now old).
  split; [reflexivity|]. split; [reflexivity|]. split; [reflexivity|].
  assert (Hkeys := produk_fields_keys data fs Hfs).
  split; [|split].
  - rewrite <- Hold. apply field_apply_set_other.
    rewrite map_app, Hkeys. cbn. intuition discriminate.
  - pose proof (produk_fields_kode data fs k Hfs Tk) as Hkode.
    destruct (produk_fields_valid data fs V Hfs)
      as (s1 & s2 & s3 & x & y & -> & _).
    cbn in Hkode. injection Hkode as <-.
    unfold updated_produk, apply_set. cbn [fold_left app fst snd].
    rewrite !field_set_field. reflexivity.
  - exact Hstamp.
Qed.

(** X27. The health check answers 200 with the time stamp it was given and
    the number of documents of each collection, and leaves the store as it
    was; the number it reports for a collection is the [total_data] of
    that collection's list route when no filter is asked for. *)
Theorem health_counts_agree_with_lists (stamp : string) (c : collection)
    (q : list (string * value)) (p l : Z) (w : world) :
  requested (VObj q) "page" 1 p ->
  requested (VObj q) "limit" 10 l ->
  1 <= p -> 1 <= l ->
  list_filter c (VObj q) = [] ->
  status (fst (health stamp w)) = 200
  /\ says (fst (health stamp w)) "timestamp" (OJs (VStr stamp))
  /\ says (fst (health stamp w)) "statistics" (statistics (store w))
  /\ store (snd (health stamp w)) = store w
  /\ says (fst (list_from c (VObj q) w)) "pagination"
       (page_block p l (Z.of_nat (List.length (coll_of c (store w))))).
Proof.
  intros Hp Hl Pp Pl Hf.
  assert (H : health stamp w
              = (json 200
                   [("status", OJs (VStr "OK"));
                    ("timestamp", OJs (VStr stamp));
                    ("database", OJs (VStr "Connected"));
                    ("statistics", statistics (store w));
                    ("endpoints", OJs endpoints)],
                 issue (OpCount Produk []) (issue (OpCount Posts []) w))).
  { unfold health, try_catch, bind, db_countDocuments, reading, ret,
      countDocuments, statistics.
    cbn [filter_matcher store issue coll_of]. now rewrite !filter_all. }
  rewrite H. cbn [fst snd status json store issue].
  repeat match goal with |- _ /\ _ => split end; try reflexivity.
  assert (Hm : filter_matcher (list_filter c (VObj q))
               = Some (fun _ => true)) by now rewrite Hf.
  destruct (list_from_page c q p l _ w Hp Hl Pp Pl Hm) as (_ & _ & G & _).
  rewrite page_meta_block in G by exact Pl.
  unfold count in G. now rewrite filter_all in G.
Qed.

End UpdatesAndHealth.

Section ValidatorReads.
Import Chars Num JS Validator Rules ValidatorFacts.

(** X28. The validator reads five fields and nothing else: two payloads
    that agree on [kode_produk], [nama_produk], [kategori], [harga] and
    [stok] (and are both objects, or both not) get the same verdict,
    whatever else they carry. *)
Theorem validator_reads_five_fields (a b : value) :
  nullish a = nullish b ->
  (forall k, In k ["kode_produk"; "nama_produk"; "kategori"; "harga"; "stok"]
             -> get a k = get b k) ->
  validateProduk a = validateProduk b.
Proof.
  intros N G. rewrite !validateProduk_eq. unfold well_typed, rule_errors.
  rewrite N.
  rewrite (G "kode_produk"), (G "nama_produk"), (G "kategori"),
    (G "harga"), (G "stok"); cbn; tauto.
Qed.

End ValidatorReads.

Section UpdatesAndHealthWitnesses.
Import Chars Num JS Store Server Service Contract Behaviour Rules Examples
  MoreExamples.

Lemma valid_update_is_applied_witness :
  status (fst (put_produk (P := P0) id1 marker 5000 with_two)) = 200
  /\ exists new,
       says (fst (put_produk (P := P0) id1 marker 5000 with_two)) "data"
         (ODoc new)
       /\ field "kode_produk" new = Some (BJs (VStr "P1"))
       /\ field "tanggal_diupdate" new = Some (BDate (Some 5000)).
Proof.
  assert (C : catalogue_ok (produk (store with_two))).
  { split; [|split; [|split]].
    - repeat constructor; now eexists.
    - repeat constructor;
        do 5 eexists; cbn;
        repeat match goal with |- _ /\ _ => split end;
        try reflexivity; try discriminate; try lia; now right.
    - repeat constructor; cbn; intuition discriminate.
    - repeat constructor; cbn; intuition discriminate. }
  assert (Own : forall d, In d (produk (store with_two)) ->
                  has_kode "P1" d = true -> has_id 1 d = true).
  { intros d [<-|[<-|[]]]; [reflexivity | discriminate]. }
  assert (St : stamp_differs pen_doc 5000) by (cbn; lia).
  destruct (valid_update_is_applied (P := P0) id1 1%N marker 5000 with_two
              pen_doc "P1" eq_refl C eq_refl eq_refl eq_refl eq_refl eq_refl
              Own St)
    as (new & A & B & _ & _ & D & E).
  split; [exact A|]. exists new. repeat split; assumption.
Defined.

Lemma health_counts_agree_with_lists_witness :
  requested (VObj first_page) "page" 1 1
  /\ requested (VObj first_page) "limit" 10 10
  /\ says (fst (health (P := P0) "2024-01-01T00:00:00.000Z" with_three))
       "statistics" (statistics (store with_three))
  /\ says (fst (list_from (P := P0) Produk (VObj first_page) with_three))
       "pagination" (page_block 1 10 3).
Proof.
  assert (H1 : requested (VObj first_page) "page" 1 1) by reflexivity.
  assert (H2 : requested (VObj first_page) "limit" 10 10) by reflexivity.
  split; [exact H1|]. split; [exact H2|].
  destruct (health_counts_agree_with_lists (P := P0)
              "2024-01-01T00:00:00.000Z" Produk first_page 1 10 with_three
              H1 H2 ltac:(lia) ltac:(lia) eq_refl)
    as (_ & _ & A & _ & B).
  split; [exact A | exact B].
Defined.

Lemma validator_reads_five_fields_witness :
  nullish pen_tagged = nullish pen
  /\ Validator.validateProduk pen_tagged = Validator.validateProduk pen.
Proof.
  split; [reflexivity|].
  apply (validator_reads_five_fields pen_tagged pen eq_refl).
  intros k [<-|[<-|[<-|[<-|[<-|[]]]]]]; reflexivity.
Defined.

End UpdatesAndHealthWitnesses.
